(** * Backuper: the backup orchestration engine of [backend/backup_manager.py]

    A shallow embedding of [BackupManager]: the live-job dictionary
    [active_backups], the backup root on disk, the recursive downloader,
    the archiver, the retention pruning and the list/delete operations,
    followed by the theorems that settle the properties stated for them.

    Conventions of the embedding.
    - Python integers are [Z]; [//] is floor division and raises
      [ZeroDivisionError] on a zero divisor, see [floordiv].
    - The dictionary [active_backups] is a [gmap string job]; a host
      directory is a [gmap string node] from file names to files, and the
      backup root a [gmap string (gmap string node)] from server names to
      host directories.
    - The backup root is the map of its direct sub-directories, keyed by
      their names.  That is the source's [backup_dir / server_name] for a
      server name that is a single path component, see [plain_name]; a
      name with a slash, an empty name or a dot entry would denote the
      root itself, a nested directory or a directory elsewhere, which the
      map does not represent.  Statements that compare or list host
      directories therefore take such names.
    - Everything the process cannot see (the remote host, the clock, the
      points where the operating system may refuse an operation) is an
      oracle collected in the record [env].
    - Code inside [try] runs in the monad [M]: a state transformer on
      [world] whose result is a value or a raised exception carrying
      [str(e)].  The progress callback only appends to the list of
      delivered events; it is the [bool] argument [cb], [false] when the
      caller passed [None]. *)

From stdpp Require Import gmap strings list fin_maps sorting.
From Stdlib Require Import ZArith Ascii DecimalString Lia.

Local Open Scope Z_scope.

(** ** Strings and path names *)

Abbreviation chars := String.list_ascii_of_string.
Abbreviation text := String.string_of_list_ascii.

(** [str.startswith] and [str.endswith]. *)
Definition startswith (s pre : string) : bool :=
  bool_decide (chars pre `prefix_of` chars s).

Definition endswith (s suf : string) : bool :=
  bool_decide (chars suf `suffix_of` chars s).

(** [str.lower] on the ASCII range. *)
Definition lower_char (c : ascii) : ascii :=
  let n := N_of_ascii c in
  if ((65 <=? n) && (n <=? 90))%N then ascii_of_N (n + 32) else c.

Definition lower (s : string) : string := text (lower_char <$> chars s).

(** [f"{n}"] for an integer. *)
Definition str_Z (n : Z) : string := NilZero.string_of_int (Z.to_int n).

(** The characters after the last ["/"] and, reversed, those before it:
    [after_last c acc l] scans the reversed name. *)
Fixpoint after_last (c : ascii) (acc l : list ascii) : option (list ascii * list ascii) :=
  match l with
  | [] => None
  | x :: l' => if decide (x = c) then Some (acc, l') else after_last c (x :: acc) l'
  end.

(** [os.path.basename]: what follows the last slash, the whole string
    when there is none. *)
Definition basename (p : string) : string :=
  match after_last "/"%char [] (reverse (chars p)) with
  | Some (tail, _) => text tail
  | None => p
  end.

(** [PurePath.suffix] splits a name at its last dot, unless that dot is
    the first or the last character; [PurePath.with_suffix] replaces the
    suffix found, or appends when there is none. *)
Definition with_suffix (name suffix : string) : string :=
  match after_last "."%char [] (reverse (chars name)) with
  | Some (ext, rstem) =>
      match ext, rstem with
      | _ :: _, _ :: _ => text (reverse rstem) +:+ suffix
      | _, _ => name +:+ suffix
      end
  | None => name +:+ suffix
  end.

(** [Path.glob("backup_*.zip")] and [Path.glob("backup_*.json")] on a
    file name: a literal prefix, anything, a literal suffix.  Prefix and
    suffix cannot overlap (the suffix starts with a dot, the prefix has
    none), so the pattern is the conjunction of the two tests. *)
Definition glob_zip (name : string) : bool :=
  startswith name "backup_" && endswith name ".zip".

Definition glob_json (name : string) : bool :=
  startswith name "backup_" && endswith name ".json".

(** The extensions of [_download_path_with_progress], line 293. *)
Definition excluded (remote_path : string) : bool :=
  let p := lower remote_path in
  endswith p ".sqlite" || endswith p ".sqlite3" || endswith p ".db".

(** ** Exceptions and integer division *)

Inductive outcome (A : Type) : Type :=
| Ret (a : A)
| Exn (msg : string).
Arguments Ret {A} a.
Arguments Exn {A} msg.

Definition ZeroDivisionError : string := "integer division or modulo by zero".

Definition floordiv (a b : Z) : outcome Z :=
  if decide (b = 0) then Exn ZeroDivisionError else Ret (a / b).

(** ** The live-job dictionary *)

Inductive status : Type := running | completed | failed.

Global Instance status_eq_dec : EqDecision status.
Proof. solve_decision. Defined.

(** One value of [active_backups]; the keys a record may lack are
    options.  The ['thread'] handle is not data and is left out. *)
Record job : Type := Job {
  job_status : status;
  started_at : string;
  progress : Z;
  current_file : option string;
  files_processed : Z;
  total_files : Z;
  data_size : Z;
  completed_at : option string;
  backup_file : option string;
  job_error : option string
}.

Definition fresh_job (now : string) : job :=
  {| job_status := running; started_at := now; progress := 0;
     current_file := None; files_processed := 0; total_files := 0;
     data_size := 0; completed_at := None; backup_file := None;
     job_error := None |}.

(** [start_backup], lines 57-83.  The worker thread it launches is
    [_perform_backup] below, run on the dictionary this function
    returns. *)
Definition start_backup (now server_name : string) (active_backups : gmap string job)
  : gmap string job * (bool * string) :=
  match active_backups !! server_name with
  | Some _ => (active_backups, (false, "Backup already in progress for this server"))
  | None =>
      (<[server_name := fresh_job now]> active_backups,
       (true, "Backup started successfully"))
  end.

(** [get_backup_status]: the record, or [None] for [{'status': 'idle'}]. *)
Definition get_backup_status (server_name : string) (active_backups : gmap string job)
  : option job :=
  active_backups !! server_name.

(** ** Progress events *)

Inductive kind : Type := info | success | warning | error.

Inductive stats : Type :=
| StatsTotal (total : Z)
| StatsDone (processed size_bytes : Z) (archive : string).

Record event : Type := Event {
  ev_type : kind;
  ev_message : string;
  ev_progress : option Z;
  ev_current_file : option string;
  ev_stats : option stats
}.

(** [if progress_callback: progress_callback(...)]. *)
Definition emit (cb : bool) (e : event) (events : list event) : list event :=
  if cb then events ++ [e] else events.

Definition note (k : kind) (msg : string) : event := Event k msg None None None.

(** ** The remote host *)

(** What [sftp.get] does with a regular file: it succeeds, or raises and
    may leave [partial] bytes in the local file it had opened. *)
Inductive transfer : Type :=
| GetOk
| GetFails (msg : string) (partial : option Z).

(** What the probes of the downloader see at a remote path. *)
Inductive remote : Type :=
| Unreachable (msg : string)
| Missing
| RFile (size : Z) (get : transfer)
| RDir (children : entries)
| RDenied (msg : string)
with entries : Type :=
| ENil
| ECons (name : string) (r : remote) (rest : entries).

(** ** The staging tree *)

Inductive lnode : Type := LFile (size : Z) | LDir.

(** [local_base_path / path_name]. *)
Definition join (base : list string) (name : string) : list string :=
  if decide (name = "") then base else base ++ [name].

Definition IsADirectoryError : string := "Is a directory".
Definition FileExistsError : string := "File exists".

(** [sftp.get(remote_path, str(local_path))] then
    [local_path.stat().st_size]. *)
Definition sftp_get (size : Z) (get : transfer) (local_path : list string)
    (staging : gmap (list string) lnode)
  : gmap (list string) lnode * outcome Z :=
  match staging !! local_path with
  | Some LDir => (staging, Exn IsADirectoryError)
  | _ =>
      match get with
      | GetOk => (<[local_path := LFile size]> staging, Ret size)
      | GetFails msg None => (staging, Exn msg)
      | GetFails msg (Some n) => (<[local_path := LFile n]> staging, Exn msg)
      end
  end.

(** [local_path.mkdir(exist_ok=True)]. *)
Definition mkdir_exist_ok (local_path : list string)
    (staging : gmap (list string) lnode)
  : gmap (list string) lnode * outcome unit :=
  match staging !! local_path with
  | Some (LFile _) => (staging, Exn FileExistsError)
  | Some LDir => (staging, Ret tt)
  | None => (<[local_path := LDir]> staging, Ret tt)
  end.

(** ** The downloader *)

(** The state of [_download_path_with_progress]: the staging tree and
    the events delivered so far. *)
Record dstate : Type := DState {
  staging : gmap (list string) lnode;
  delivered : list event
}.

Definition deliver (cb : bool) (e : event) (d : dstate) : dstate :=
  DState (staging d) (emit cb e (delivered d)).

(** [_download_path_with_progress], lines 268-340.  [r] is what the
    remote host holds at [remote_path]; the result is
    [(files_downloaded, total_size)].  Every exception is caught inside,
    so the function always returns. *)
Fixpoint _download_path_with_progress (cb : bool) (total_files : Z)
    (remote_path : string) (r : remote) (local_base_path : list string)
    (files_processed : Z) (d : dstate) {struct r} : dstate * (Z * Z) :=
  let local_path := join local_base_path (basename remote_path) in
  match r with
  | Unreachable msg =>
      (deliver cb (note error ("Error downloading " +:+ remote_path +:+ ": " +:+ msg)) d,
       (0, 0))
  | Missing =>
      (deliver cb (note warning ("Path does not exist: " +:+ remote_path)) d, (0, 0))
  | RFile size get =>
      if excluded remote_path then
        (deliver cb (note warning ("Skipping locked database file: " +:+ remote_path)) d,
         (0, 0))
      else
        let announced :=
          if cb then
            match floordiv (files_processed * 60) total_files with
            | Ret q =>
                Ret (deliver cb (Event info ("Downloading: " +:+ remote_path)
                                   (Some (15 + q)) (Some remote_path) None) d)
            | Exn msg => Exn msg
            end
          else Ret d in
        match announced with
        | Exn msg =>
            (deliver cb (note error ("Error downloading " +:+ remote_path +:+ ": " +:+ msg)) d,
             (0, 0))
        | Ret d1 =>
            match sftp_get size get local_path (staging d1) with
            | (st, Ret file_size) =>
                (deliver cb (note success ("Downloaded: " +:+ remote_path +:+ " ("
                                             +:+ str_Z file_size +:+ " bytes)"))
                   (DState st (delivered d1)),
                 (1, file_size))
            | (st, Exn msg) =>
                (deliver cb (note warning ("Skipped locked file: " +:+ remote_path
                                             +:+ " - " +:+ msg))
                   (DState st (delivered d1)),
                 (0, 0))
            end
        end
  | RDir children =>
      match mkdir_exist_ok local_path (staging d) with
      | (st, Exn msg) =>
          (deliver cb (note error ("Error downloading " +:+ remote_path +:+ ": " +:+ msg))
             (DState st (delivered d)),
           (0, 0))
      | (st, Ret _) =>
          download_children cb total_files remote_path children local_path
            files_processed 0 0 (DState st (delivered d))
      end
  | RDenied msg =>
      match mkdir_exist_ok local_path (staging d) with
      | (st, Exn msg') =>
          (deliver cb (note error ("Error downloading " +:+ remote_path +:+ ": " +:+ msg'))
             (DState st (delivered d)),
           (0, 0))
      | (st, Ret _) =>
          (deliver cb (note error ("Error accessing directory " +:+ remote_path
                                     +:+ ": " +:+ msg))
             (DState st (delivered d)),
           (0, 0))
      end
  end
(** The loop [for file in files] of lines 323-330, with its two
    accumulators. *)
with download_children (cb : bool) (total_files : Z) (remote_path : string)
    (files : entries) (local_path : list string)
    (files_processed files_downloaded total_size : Z) (d : dstate)
    {struct files} : dstate * (Z * Z) :=
  match files with
  | ENil => (d, (files_downloaded, total_size))
  | ECons file r rest =>
      let file_path := remote_path +:+ "/" +:+ file in
      let '(d1, (sub_files, sub_size)) :=
        _download_path_with_progress cb total_files file_path r local_path
          (files_processed + files_downloaded) d in
      download_children cb total_files remote_path rest local_path
        files_processed (files_downloaded + sub_files) (total_size + sub_size) d1
  end.

(** ** The state-and-exception monad of the [try] blocks *)

Definition M (S A : Type) : Type := S → S * outcome A.

Definition ret {S A : Type} (a : A) : M S A := λ s, (s, Ret a).

Definition raise {S A : Type} (msg : string) : M S A := λ s, (s, Exn msg).

Definition bind {S A B : Type} (m : M S A) (k : A → M S B) : M S B :=
  λ s, match m s with
       | (s', Ret a) => k a s'
       | (s', Exn msg) => (s', Exn msg)
       end.

Definition modify {S : Type} (f : S → S) : M S unit := λ s, (f s, Ret tt).

Definition when {S : Type} (b : bool) (m : M S unit) : M S unit :=
  if b then m else ret tt.

Global Instance M_bind {S : Type} : MBind (M S) := λ A B k m, bind m k.
Global Instance M_ret {S : Type} : MRet (M S) := λ A a, ret a.

(** ** The backup root on disk *)

Record metadata : Type := Metadata {
  server_name : string;
  server_address : string;
  backup_name : string;
  backup_paths : list string;
  created_at : string;
  size_bytes : Z;
  files_count : Z
}.

(** What a file holds: an archive with its entry names, a document that
    [json.load] reads back as a metadata mapping, or anything else. *)
Inductive content : Type :=
| Zip (arcnames : list string)
| Json (m : metadata)
| Garbage.

(** A file of a host directory; [st_mtime] is a number of clock ticks. *)
Record node : Type := Node {
  st_mtime : Z;
  body : content
}.

Definition FileNotFoundError : string := "No such file or directory".

(** [Path.unlink()]: the file must exist, and the operating system may
    refuse ([refuses name] is then the message of the [OSError]). *)
Definition unlink (refuses : string → option string) (name : string)
  : M (gmap string node) unit :=
  λ d, match d !! name with
       | None => (d, Exn FileNotFoundError)
       | Some _ =>
           match refuses name with
           | Some msg => (d, Exn msg)
           | None => (delete name d, Ret tt)
           end
       end.

(** [Path.exists()]. *)
Definition file_exists (name : string) (d : gmap string node) : bool :=
  bool_decide (is_Some (d !! name)).

(** [if f.exists(): f.unlink()]. *)
Definition unlink_if_exists (refuses : string → option string) (name : string)
  : M (gmap string node) unit :=
  λ d, when (file_exists name d) (unlink refuses name) d.

(** [server_backup_dir.glob(pattern)]: the matching files, in the order
    the directory yields them. *)
Definition glob (pattern : string → bool) (d : gmap string node)
  : list (string * node) :=
  filter (λ e, pattern e.1 = true) (map_to_list d).

(** ** Sorting and slicing *)

(** [list.sort(reverse=True)]: a stable sort into descending order, [lt]
    being the [<] of the keys.  An element is put before the first one it
    is not smaller than, so equal keys keep their order. *)
Fixpoint insert_desc {A : Type} (lt : A → A → bool) (x : A) (l : list A) : list A :=
  match l with
  | [] => [x]
  | y :: l' => if lt x y then y :: insert_desc lt x l' else x :: l
  end.

Definition sort_reverse {A : Type} (lt : A → A → bool) (l : list A) : list A :=
  foldr (insert_desc lt) [] l.

(** [<] on the tuples [(st_mtime, path)] of [_cleanup_old_backups]. *)
Definition tuple_lt (a b : Z * string) : bool :=
  (a.1 <? b.1) || ((a.1 =? b.1) && String.ltb a.2 b.2).

(** [l[k:]], with Python's reading of a negative [k]. *)
Definition slice_from {A : Type} (k : Z) (l : list A) : list A :=
  if k <? 0 then drop (Z.to_nat (Z.max 0 (Z.of_nat (length l) + k))) l
  else drop (Z.to_nat k) l.

(** ** Retention *)

(** The loop of lines 355-360 over the entries beyond the keep-count. *)
Fixpoint remove_old (refuses : string → option string) (old : list (Z * string))
  : M (gmap string node) unit :=
  match old with
  | [] => ret tt
  | (_, backup_file) :: rest =>
      unlink refuses backup_file ;;
      unlink_if_exists refuses (with_suffix backup_file ".zip.json") ;;
      remove_old refuses rest
  end.

Definition backup_files (d : gmap string node) : list (Z * string) :=
  (λ e, (st_mtime e.2, e.1)) <$> glob glob_zip d.

(** [_cleanup_old_backups], lines 342-363: the directory afterwards and
    the lines printed. *)
Definition _cleanup_old_backups (refuses : string → option string)
    (keep_count : Z) (server_backup_dir : gmap string node)
  : gmap string node * list string :=
  let sorted := sort_reverse tuple_lt (backup_files server_backup_dir) in
  match remove_old refuses (slice_from keep_count sorted) server_backup_dir with
  | (d, Ret _) => (d, [])
  | (d, Exn msg) => (d, ["Error cleaning up old backups: " +:+ msg])
  end.

(** ** Listing and deleting backups *)

(** An element of the result of [get_backups]: the metadata mapping with
    its added ['file_path'], kept as the host directory and the file name
    it is built from.  (['size_mb'] is a rounded float and is left out.) *)
Record backup : Type := Backup {
  meta : metadata;
  file_path : string * string
}.

(** The body of the loop of lines 380-393 for one metadata file; a
    document that does not load is skipped. *)
Definition load_backup (server : string) (server_dir : gmap string node)
    (metadata_file : string * node) : option backup :=
  match body metadata_file.2 with
  | Json m =>
      if file_exists (backup_name m) server_dir
      then Some (Backup m (server, backup_name m))
      else None
  | _ => None
  end.

(** [get_backups], lines 365-397; an absent or empty [server_name] scans
    every host directory. *)
Definition get_backups (server : option string)
    (root : gmap string (gmap string node)) : list backup :=
  let server_dirs :=
    match server with
    | Some s =>
        if decide (s = "") then map_to_list root
        else match root !! s with Some d => [(s, d)] | None => [] end
    | None => map_to_list root
    end in
  let backups :=
    server_dirs ≫= (λ sd, omap (load_backup sd.1 sd.2) (glob glob_json sd.2)) in
  sort_reverse (λ a b, String.ltb (created_at (meta a)) (created_at (meta b))) backups.

(** Run an action of one host directory on the backup root. *)
Definition in_dir {A : Type} (server : string) (m : M (gmap string node) A)
  : M (gmap string (gmap string node)) A :=
  λ root, match root !! server with
          | Some d => let '(d', r) := m d in (<[server := d']> root, r)
          | None => let '(_, r) := m ∅ in (root, r)
          end.

(** [delete_backup], lines 399-429. *)
Definition delete_backup (refuses : string → option string) (backup_id : string)
    (root : gmap string (gmap string node))
  : gmap string (gmap string node) * (bool * string) :=
  let backups := get_backups None root in
  match List.find (λ b, bool_decide (created_at (meta b) = backup_id)) backups with
  | None => (root, (false, "Backup not found"))
  | Some backup_to_delete =>
      let '(server, backup_file) := file_path backup_to_delete in
      let metadata_file := with_suffix backup_file ".zip.json" in
      let deletion :=
        unlink_if_exists refuses backup_file ;;
        unlink_if_exists refuses metadata_file in
      match in_dir server deletion root with
      | (root', Ret _) => (root', (true, "Backup deleted successfully"))
      | (root', Exn msg) => (root', (false, "Error deleting backup: " +:+ msg))
      end
  end.

(** ** The environment of a backup run *)

(** The operations of [_perform_backup] that can raise without being
    caught on the spot, in program order. *)
Inductive stage : Type :=
| ssh_connect | open_sftp | mkdir_host | make_tempdir | zip_open | zip_close
| tempdir_cleanup | stat_archive | metadata_open | metadata_dump
| sftp_close | ssh_close.

Record env : Type := Env {
  (** what the remote host holds at a requested path *)
  remote_at : string → remote;
  (** the reply to [find ... | wc -l], [None] when the command or the
      parsing of its output raises *)
  count_reply : string → option Z;
  (** [fault s = Some msg]: stage [s] raises an exception with that text *)
  fault : stage → option string;
  (** [zipf.write] refusing a staged file *)
  zip_refuses : string → option string;
  (** [unlink] refusing a file of the host directory *)
  unlink_refuses : string → option string;
  (** [datetime.now()] as [strftime('%Y%m%d_%H%M%S')] and as [isoformat()] *)
  stamp : string;
  created_now : string;
  completed_now : string;
  (** modification time given to the files written by this run *)
  mtime : Z;
  (** [backup_path.stat().st_size] *)
  archive_size : Z;
  (** [str(self.backup_dir)] *)
  root_path : string
}.

(** The process state a run reads and writes. *)
Record world : Type := World {
  active_backups : gmap string job;
  backup_dir : gmap string (gmap string node);
  events : list event;
  stdout : list string
}.

Definition with_jobs (f : gmap string job → gmap string job) (w : world) : world :=
  World (f (active_backups w)) (backup_dir w) (events w) (stdout w).

Definition with_root
    (f : gmap string (gmap string node) → gmap string (gmap string node))
    (w : world) : world :=
  World (active_backups w) (f (backup_dir w)) (events w) (stdout w).

Definition with_events (f : list event → list event) (w : world) : world :=
  World (active_backups w) (backup_dir w) (f (events w)) (stdout w).

Definition print (line : string) (w : world) : world :=
  World (active_backups w) (backup_dir w) (events w) (stdout w ++ [line]).

Definition say (cb : bool) (e : event) : M world unit :=
  modify (with_events (emit cb e)).

Definition step (E : env) (s : stage) : M world unit :=
  λ w, match fault E s with
       | Some msg => (w, Exn msg)
       | None => (w, Ret tt)
       end.

(** [if server_name in self.active_backups: self.active_backups[server_name][...] = ...]. *)
Definition update_job (server : string) (f : job → job) : M world unit :=
  modify (with_jobs (alter f server)).

Definition host_dir (server : string) (root : gmap string (gmap string node))
  : gmap string node :=
  default ∅ (root !! server).

(** [server_backup_dir.mkdir(exist_ok=True)], the directory being
    [backup_dir / server_name]: the entry of the root under the server
    name, for a name that is a single path component. *)
Definition make_host_dir (server : string) : M world unit :=
  modify (with_root (λ root,
    match root !! server with
    | Some _ => root
    | None => <[server := ∅]> root
    end)).

(** Creating or overwriting a file of the host directory. *)
Definition write_file (server name : string) (n : node) : M world unit :=
  modify (with_root (λ root, <[server := <[name := n]> (host_dir server root)]> root)).

(** ** Analysis *)

(** [_count_files], lines 250-257. *)
Definition _count_files (E : env) (remote_path : string) : Z :=
  default 0 (count_reply E remote_path).

(** The loop of lines 122-127.  [file_list] is never read afterwards and
    [_get_file_list] cannot raise, so only the count is kept. *)
Definition count_total (E : env) (paths : list string) : Z :=
  foldl (λ total path, total + _count_files E path) 0 paths.

(** ** The download loop of the pipeline *)

Definition download (E : env) (cb : bool) (total : Z) (path : string)
    (processed : Z) (st : gmap (list string) lnode)
  : M world (gmap (list string) lnode * (Z * Z)) :=
  λ w, let '(d, r) :=
         _download_path_with_progress cb total path (remote_at E path) []
           processed (DState st (events w)) in
       (with_events (λ _, delivered d) w, Ret (staging d, r)).

Definition record_progress (processed size : Z) (j : job) : job :=
  {| job_status := job_status j; started_at := started_at j; progress := progress j;
     current_file := current_file j; files_processed := processed;
     total_files := total_files j; data_size := size;
     completed_at := completed_at j; backup_file := backup_file j;
     job_error := job_error j |}.

(** Lines 145-166, [n] being [len(paths)] and [i] the index reached.  The
    [except] of line 163 has nothing to catch, the downloader returning
    in every case. *)
Fixpoint download_paths (E : env) (cb : bool) (server : string) (total n i : Z)
    (paths : list string) (processed size : Z) (st : gmap (list string) lnode)
  : M world (gmap (list string) lnode * (Z * Z)) :=
  match paths with
  | [] => mret (st, (processed, size))
  | path :: rest =>
      say cb (Event info ("Processing path: " +:+ path)
                (Some (15 + i * 60 / n)) (Some path) None) ;;
      '(st1, (files_in_path, size_in_path)) ← download E cb total path processed st;
      update_job server (record_progress (processed + files_in_path)
                           (size + size_in_path)) ;;
      download_paths E cb server total n (i + 1) rest
        (processed + files_in_path) (size + size_in_path) st1
  end.

(** ** The archiver *)

(** [os.walk(temp_path)]: the staged files, as paths relative to the
    staging root. *)
Definition files_to_zip (st : gmap (list string) lnode) : list (list string) :=
  omap (λ e, match e.2 with LFile _ => Some e.1 | LDir => None end) (map_to_list st).

Definition arcname (file_path : list string) : string := String.concat "/" file_path.

(** Lines 178-191: the names written to the archive and the events,
    [n] being [len(files_to_zip)]. *)
Fixpoint compress_loop (E : env) (cb : bool) (n i : Z) (files : list (list string))
    (written : list string) (evs : list event) : list string * list event :=
  match files with
  | [] => (written, evs)
  | f :: rest =>
      match zip_refuses E (arcname f) with
      | Some msg =>
          compress_loop E cb n (i + 1) rest written
            (emit cb (note warning ("Skipped file during compression: "
                                      +:+ arcname f +:+ " - " +:+ msg)) evs)
      | None =>
          compress_loop E cb n (i + 1) rest (written ++ [arcname f])
            (if decide (i `mod` 10 = 0)
             then emit cb (Event info ("Compressing: " +:+ arcname f)
                             (Some (80 + i * 15 / n)) (Some (arcname f)) None) evs
             else evs)
      end
  end.

Definition compress (E : env) (cb : bool) (files : list (list string))
  : M world (list string) :=
  λ w, let '(written, evs) :=
         compress_loop E cb (Z.of_nat (length files)) 0 files [] (events w) in
       (with_events (λ _, evs) w, Ret written).

(** [with tempfile.TemporaryDirectory() as temp_dir: ...]: the directory
    is removed on the way out, whether the block raised or not. *)
Definition leaving_tempdir {A : Type} (E : env) (m : M world A) : M world A :=
  λ w, let '(w', r) := m w in
       match fault E tempdir_cleanup with
       | Some msg => (w', Exn msg)
       | None => (w', r)
       end.

Definition with_tempdir {A : Type} (E : env) (m : M world A) : M world A :=
  step E make_tempdir ;; leaving_tempdir E m.

(** ** The pipeline *)

Definition backup_path (E : env) (server name : string) : string :=
  root_path E +:+ "/" +:+ server +:+ "/" +:+ name.

Definition finish (now archive : string) (j : job) : job :=
  {| job_status := completed; started_at := started_at j; progress := 100;
     current_file := current_file j; files_processed := files_processed j;
     total_files := total_files j; data_size := data_size j;
     completed_at := Some now; backup_file := Some archive;
     job_error := job_error j |}.

Definition fail (msg : string) (j : job) : job :=
  {| job_status := failed; started_at := started_at j; progress := progress j;
     current_file := current_file j; files_processed := files_processed j;
     total_files := total_files j; data_size := data_size j;
     completed_at := completed_at j; backup_file := backup_file j;
     job_error := Some msg |}.

Definition record_total (total : Z) (j : job) : job :=
  {| job_status := job_status j; started_at := started_at j; progress := progress j;
     current_file := current_file j; files_processed := files_processed j;
     total_files := total; data_size := data_size j;
     completed_at := completed_at j; backup_file := backup_file j;
     job_error := job_error j |}.

(** [self._cleanup_old_backups(server_backup_dir)], line 238. *)
Definition prune_host (E : env) (server : string) : M world unit :=
  modify (λ w,
    match backup_dir w !! server with
    | Some d =>
        let '(d', lines) := _cleanup_old_backups (unlink_refuses E) 7 d in
        World (active_backups w) (<[server := d']> (backup_dir w)) (events w)
          (stdout w ++ lines)
    | None => w
    end).

(** The staging part of the run, lines 137-202: download every root,
    then write the archive.  Its value is [(files_processed, total_size)]. *)
Definition stage_and_zip (E : env) (cb : bool) (server : string) (paths : list string)
    (total : Z) (name : string) : M world (Z * Z) :=
  '(st, counters) ← download_paths E cb server total (Z.of_nat (length paths)) 0
                      paths 0 0 {[ [] := LDir ]};
  say cb (Event info "Creating ZIP archive..." (Some 80) None None) ;;
  step E zip_open ;;
  write_file server name (Node (mtime E) Garbage) ;;
  written ← compress E cb (files_to_zip st);
  step E zip_close ;;
  write_file server name (Node (mtime E) (Zip written)) ;;
  mret counters.

(** The [try] block of [_perform_backup], lines 90-238. *)
Definition try_body (E : env) (cb : bool) (server address : string)
    (paths : list string) : M world unit :=
  say cb (Event info ("Connecting to server " +:+ address +:+ "...")
            (Some 0) None None) ;;
  step E ssh_connect ;;
  say cb (Event success "Connected successfully!" (Some 5) None None) ;;
  step E open_sftp ;;
  step E mkdir_host ;;
  make_host_dir server ;;
  let name := "backup_" +:+ stamp E +:+ ".zip" in
  say cb (Event info "Analyzing files and directories..." (Some 10) None None) ;;
  let total := count_total E paths in
  say cb (Event info ("Found " +:+ str_Z total +:+ " files to backup")
            (Some 15) None (Some (StatsTotal total))) ;;
  update_job server (record_total total) ;;
  '(processed, size) ← with_tempdir E (stage_and_zip E cb server paths total name);
  step E stat_archive ;;
  let metadata :=
    {| server_name := server; server_address := address; backup_name := name;
       backup_paths := paths; created_at := created_now E;
       size_bytes := archive_size E; files_count := processed |} in
  let metadata_path := name +:+ ".json" in
  step E metadata_open ;;
  write_file server metadata_path (Node (mtime E) Garbage) ;;
  step E metadata_dump ;;
  write_file server metadata_path (Node (mtime E) (Json metadata)) ;;
  step E sftp_close ;;
  step E ssh_close ;;
  say cb (Event success ("Backup completed successfully! " +:+ str_Z processed
                           +:+ " files backed up.")
            (Some 100) None
            (Some (StatsDone processed size (backup_path E server name)))) ;;
  update_job server (finish (completed_now E) (backup_path E server name)) ;;
  prune_host E server.

(** [_perform_backup], lines 85-248: the [try] block and its handler. *)
Definition _perform_backup (E : env) (cb : bool) (server address : string)
    (paths : list string) (w : world) : world :=
  match try_body E cb server address paths w with
  | (w', Ret _) => w'
  | (w', Exn msg) =>
      let error_msg := "Backup failed for server " +:+ server +:+ ": " +:+ msg in
      with_jobs (alter (fail msg) server)
        (with_events (emit cb (note error error_msg)) (print error_msg w'))
  end.

(** ** Starting a backup, with its worker *)


(** ** Vocabulary of the statements *)

(** The host directory once the archives of [old] and their metadata
    records are gone. *)
Definition wipe (old : list (Z * string)) (d : gmap string node) : gmap string node :=
  foldl (λ d a, delete (a.2 +:+ ".json") (delete a.2 d)) d old.

(** [a] was modified no earlier than [b]. *)
Definition newer (a b : Z * string) : Prop := b.1 ≤ a.1.

(** The regular files of a remote tree: an upper bound on what the
    downloader can transfer from it. *)
Fixpoint leaves (r : remote) : Z :=
  match r with
  | RFile _ _ => 1
  | RDir children => leaves_in children
  | _ => 0
  end
with leaves_in (files : entries) : Z :=
  match files with
  | ENil => 0
  | ECons _ r rest => leaves r + leaves_in rest
  end.

Definition leaves_total (E : env) (paths : list string) : Z :=
  foldr (λ path n, leaves (remote_at E path) + n) 0 paths.

Scheme remote_entries_ind := Induction for remote Sort Prop
  with entries_remote_ind := Induction for entries Sort Prop.
Combined Scheme remote_mutind from remote_entries_ind, entries_remote_ind.

(** The name of the archive a run writes, and the metadata record that
    goes with it. *)
Definition archive_name (E : env) : string := "backup_" +:+ stamp E +:+ ".zip".

Definition metadata_of (E : env) (server address : string) (paths : list string)
    (processed : Z) : metadata :=
  {| server_name := server; server_address := address;
     backup_name := archive_name E; backup_paths := paths;
     created_at := created_now E; size_bytes := archive_size E;
     files_count := processed |}.

(** The names [compress] writes to the archive for a staging tree. *)
Definition zipped (E : env) (cb : bool) (st : gmap (list string) lnode)
    (evs : list event) : list string :=
  (compress_loop E cb (Z.of_nat (length (files_to_zip st))) 0 (files_to_zip st) []
     (emit cb (Event info "Creating ZIP archive..." (Some 80) None None) evs)).1.

(** The host directory of a run just before pruning. *)
Definition written_dir (E : env) (server address : string) (paths : list string)
    (processed : Z) (arcnames : list string) (d : gmap string node)
  : gmap string node :=
  <[archive_name E +:+ ".json" :=
      Node (mtime E) (Json (metadata_of E server address paths processed))]>
    (<[archive_name E := Node (mtime E) (Zip arcnames)]> d).

(** A host directory whose archives and metadata records come in pairs:
    every archive [a] has the record [a.json], and every file that
    matches the pattern of the records is [a.json] for an archive [a]
    of the directory, which it names if it can be loaded. *)
Definition paired (d : gmap string node) : Prop :=
  (∀ a, glob_zip a = true → is_Some (d !! a) → is_Some (d !! (a +:+ ".json"))) ∧
  (∀ f n, glob_json f = true → d !! f = Some n →
     ∃ a, f = a +:+ ".json" ∧ glob_zip a = true ∧ is_Some (d !! a) ∧
          ∀ m, body n = Json m → backup_name m = a).

Definition paired_root (root : gmap string (gmap string node)) : Prop :=
  ∀ server d, root !! server = Some d → paired d.

(** A metadata record of the backup root with the given [created_at]. *)
Definition recorded (root : gmap string (gmap string node)) (backup_id : string)
    (server : string) (d : gmap string node) (f : string) (m : metadata) : Prop :=
  root !! server = Some d ∧ glob_json f = true ∧
  (∃ n, d !! f = Some n ∧ body n = Json m) ∧ created_at m = backup_id.

(** The operations that create and delete backups, when no deletion is
    refused: a run of the pipeline that ends normally, [delete_backup],
    and a pruning of a host directory. *)
Inductive quiet_step : world → world → Prop :=
| step_run (E : env) (cb : bool) (server address : string) (paths : list string)
    (w : world) :
    (∀ name, unlink_refuses E name = None) →
    (try_body E cb server address paths w).2 = Ret tt →
    quiet_step w (_perform_backup E cb server address paths w)
| step_delete (refuses : string → option string) (backup_id : string) (w : world) :
    (∀ name, refuses name = None) →
    quiet_step w (with_root (λ root, (delete_backup refuses backup_id root).1) w)
| step_prune (refuses : string → option string) (keep_count : Z) (server : string)
    (d : gmap string node) (w : world) :
    (∀ name, refuses name = None) →
    backup_dir w !! server = Some d →
    quiet_step w
      (with_root (<[server := (_cleanup_old_backups refuses keep_count d).1]>) w).

(** ** Sample data *)

(** The record of a run of host [web1] that has ended. *)
Definition web1_done : job :=
  {| job_status := completed; started_at := "2024-01-01T12:00:00"; progress := 100;
     current_file := None; files_processed := 3; total_files := 3;
     data_size := 12288; completed_at := Some "2024-01-01T12:00:05";
     backup_file := Some "/srv/backup/web1/backup_20240101_120000.zip";
     job_error := None |}.

(** A host directory with three backups, oldest first, and an operating
    system that refuses to delete the second archive. *)
Definition old_dir : gmap string node :=
  list_to_map
    [("backup_20240101_000000.zip", Node 10 (Zip ["a"]));
     ("backup_20240101_000000.zip.json", Node 10 Garbage);
     ("backup_20240102_000000.zip", Node 20 (Zip ["a"]));
     ("backup_20240102_000000.zip.json", Node 20 Garbage);
     ("backup_20240103_000000.zip", Node 30 (Zip ["a"]));
     ("backup_20240103_000000.zip.json", Node 30 Garbage)].

Definition protect_second (name : string) : option string :=
  if decide (name = "backup_20240102_000000.zip") then Some "Permission denied" else None.

(** The same directory when it is the metadata record of the second
    archive that cannot be deleted. *)
Definition protect_second_record (name : string) : option string :=
  if decide (name = "backup_20240102_000000.zip.json") then Some "Permission denied"
  else None.

(** An environment in which nothing is refused, for given answers of the
    remote host and given faults. *)
Definition sample_env (remote : string → remote) (count : string → option Z)
    (faults : stage → option string) : env :=
  {| remote_at := remote; count_reply := count; fault := faults;
     zip_refuses := λ _, None; unlink_refuses := λ _, None;
     stamp := "20240101_120000"; created_now := "2024-01-01T12:00:03";
     completed_now := "2024-01-01T12:00:04"; mtime := 100;
     archive_size := 4096; root_path := "/srv/backup" |}.

(** The process right after [start_backup] has accepted a first request
    for [server]. *)
Definition started (server : string) : world :=
  World (start_backup "2024-01-01T12:00:00" server ∅).1 ∅ [] [].




(** A host on which every requested path is a regular file that
    transfers, and whose count command answers 1. *)
Definition plain_env : env :=
  sample_env (λ _, RFile 10 GetOk) (λ _, Some 1) (λ _, None).

(** A directory whose name ends like a database file. *)
Definition cache_dir : remote := RDir (ECons "page" (RFile 5 GetOk) ENil).

(** A local disk on which the metadata record cannot be created. *)
Definition full_disk_env : env :=
  sample_env (λ _, RFile 10 GetOk) (λ _, Some 1)
    (λ s, match s with
          | metadata_open => Some "No space left on device"
          | _ => None
          end).

(** A backup root with one host directory holding one backup. *)
Definition one_backup : gmap string (gmap string node) :=
  {[ "web1" := written_dir plain_env "web1" "10.0.0.1" ["/etc/hosts"] 1 ["hosts"] ∅ ]}.

(** ** Further vocabulary: the downloader *)

(** The bytes of the regular files of a remote tree. *)
Fixpoint volume (r : remote) : Z :=
  match r with
  | RFile size _ => size
  | RDir children => volume_in children
  | _ => 0
  end
with volume_in (files : entries) : Z :=
  match files with
  | ENil => 0
  | ECons _ r rest => volume r + volume_in rest
  end.

(** No regular file of the tree has a negative size. *)
Fixpoint sized (r : remote) : Prop :=
  match r with
  | RFile size _ => 0 ≤ size
  | RDir children => sized_in children
  | _ => True
  end
with sized_in (files : entries) : Prop :=
  match files with
  | ENil => True
  | ECons _ r rest => sized r ∧ sized_in rest
  end.

(** Every entry of [st] is still there in [st'], and what was a
    directory still is one. *)
Definition kept (st st' : gmap (list string) lnode) : Prop :=
  ∀ k, (is_Some (st !! k) → is_Some (st' !! k)) ∧
       (st !! k = Some LDir → st' !! k = Some LDir).

(** ** Further vocabulary: the life of the process *)

(** What changes the live-job dictionary while the process runs: a call
    of [start_backup], and a run of [_perform_backup] from its first line
    to its last. *)
Inductive life_step : world → world → Prop :=
| life_start (now server : string) (w : world) :
    life_step w (with_jobs (λ jobs, (start_backup now server jobs).1) w)
| life_run (E : env) (cb : bool) (server address : string) (paths : list string)
    (w : world) :
    life_step w (_perform_backup E cb server address paths w).

(** The last event of a run that ends normally. *)
Definition completion_event (E : env) (server : string) (processed size : Z) : event :=
  Event success ("Backup completed successfully! " +:+ str_Z processed
                   +:+ " files backed up.")
    (Some 100) None
    (Some (StatsDone processed size (backup_path E server (archive_name E)))).

(** A host whose paths cannot be listed, whose count command fails, and
    on which nothing of the pipeline itself goes wrong. *)
Definition locked_env : env :=
  sample_env (λ _, RDenied "Permission denied") (λ _, None) (λ _, None).

(** ** Further vocabulary: listings *)

(** [a] does not come before [b] in the order of the listing: the
    [created_at] of [a] is not smaller than that of [b]. *)
Definition not_older (a b : backup) : Prop :=
  String.ltb (created_at (meta a)) (created_at (meta b)) = false.

(** A disk on which every deletion is refused with the same message. *)
Definition read_only (msg : string) (name : string) : option string := Some msg.

(** ** The web application *)

(** [serve_static], [app.py] lines 25-32: the directory and the file name
    handed to [send_from_directory]. *)
Definition serve_static (path : string) : string * string :=
  if startswith path "css/" then ("../frontend/css", text (drop 4 (chars path)))
  else if startswith path "js/" then ("../frontend/js", text (drop 3 (chars path)))
  else ("../frontend", path).

(** A value of [active_sessions]: [data.get('serverName')] and the
    constant status. *)
Record session : Type := Session {
  session_server : option string;
  session_status : string
}.

(** [handle_start_backup_session], lines 47-55, for the client [sid]. *)
Definition handle_start_backup_session (sid : string) (server_name : option string)
    (active_sessions : gmap string session) : gmap string session :=
  <[sid := Session server_name "active"]> active_sessions.

(** [handle_disconnect], lines 40-45. *)
Definition handle_disconnect (sid : string) (active_sessions : gmap string session)
  : gmap string session :=
  if decide (is_Some (active_sessions !! sid)) then delete sid active_sessions
  else active_sessions.

(** What a client sends over its socket. *)
Inductive socket_event : Type :=
| Connect (sid : string)
| Disconnect (sid : string)
| StartSession (sid : string) (server_name : option string).

Definition handle (e : socket_event) (active_sessions : gmap string session)
  : gmap string session :=
  match e with
  | Connect _ => active_sessions
  | Disconnect sid => handle_disconnect sid active_sessions
  | StartSession sid server_name =>
      handle_start_backup_session sid server_name active_sessions
  end.

(** The registry after the events of [trace], from the empty one the
    module starts with. *)
Definition replay (trace : list socket_event) : gmap string session :=
  foldl (λ sessions e, handle e sessions) ∅ trace.

(** The event neither opens nor closes a session of [sid]. *)
Definition leaves_open (sid : string) (e : socket_event) : Prop :=
  e ≠ Disconnect sid ∧ ∀ server_name, e ≠ StartSession sid server_name.

(** ** Further vocabulary: a remote tree that transfers completely *)

(** A name as [sftp.listdir] returns them: not empty, not a dot entry,
    without a slash. *)
Definition plain_name (name : string) : bool :=
  bool_decide (name ≠ "" ∧ name ≠ "." ∧ name ≠ ".." ∧ "/"%char ∉ chars name).

Fixpoint names (files : entries) : list string :=
  match files with
  | ENil => []
  | ECons name _ rest => name :: names rest
  end.

(** Nothing in the tree at [path] stands in the way of a transfer: every
    path can be probed and listed, every regular file transfers and has
    none of the excluded extensions, and the names of a directory are
    plain and distinct. *)
Fixpoint healthy (path : string) (r : remote) : bool :=
  match r with
  | RFile _ GetOk => negb (excluded path)
  | RDir children => healthy_in path children
  | _ => false
  end
with healthy_in (path : string) (files : entries) : bool :=
  match files with
  | ENil => true
  | ECons name r rest =>
      plain_name name && bool_decide (name ∉ names rest)
      && healthy (path +:+ "/" +:+ name) r && healthy_in path rest
  end.

(** The remote tree [r] copied to [local] in a staging tree. *)
Fixpoint mirror (local : list string) (r : remote) (st : gmap (list string) lnode)
  : gmap (list string) lnode :=
  match r with
  | RFile size _ => <[local := LFile size]> st
  | RDir children => mirror_in local children (<[local := LDir]> st)
  | _ => st
  end
with mirror_in (local : list string) (files : entries) (st : gmap (list string) lnode)
  : gmap (list string) lnode :=
  match files with
  | ENil => st
  | ECons name r rest => mirror_in local rest (mirror (local ++ [name]) r st)
  end.

(** A web root with a page and a directory of one style sheet. *)
Definition site : remote :=
  RDir (ECons "index.html" (RFile 120 GetOk)
       (ECons "css" (RDir (ECons "site.css" (RFile 30 GetOk) ENil)) ENil)).

(** ** Further vocabulary: the backups of the root *)

(** A backup as [get_backups] finds it: a metadata record with the given
    [created_at] whose archive is in the same host directory. *)
Definition listed (root : gmap string (gmap string node)) (backup_id : string)
    (server : string) (d : gmap string node) (f : string) (m : metadata) : Prop :=
  recorded root backup_id server d f m ∧ is_Some (d !! backup_name m).

(** The metadata records are named as the pipeline names them: the record
    of the archive [backup_<stamp>.zip] is [backup_<stamp>.zip.json]. *)
Definition named_by_pipeline (root : gmap string (gmap string node)) : Prop :=
  ∀ server d f n m,
    root !! server = Some d → glob_json f = true → d !! f = Some n →
    body n = Json m →
    glob_zip (backup_name m) = true ∧ f = backup_name m +:+ ".json".

(** What changes the backup root: a run of the pipeline for a host whose
    name is a single path component, whatever its outcome, and a call of
    [delete_backup], whatever is refused. *)
Inductive disk_step : world → world → Prop :=
| disk_run (E : env) (cb : bool) (server address : string) (paths : list string)
    (w : world) :
    plain_name server = true →
    disk_step w (_perform_backup E cb server address paths w)
| disk_delete (refuses : string → option string) (backup_id : string) (w : world) :
    disk_step w (with_root (λ root, (delete_backup refuses backup_id root).1) w).

(** The backup root [one_backup] after its archive has been lost. *)
Definition orphan_record : gmap string (gmap string node) :=
  {[ "web1" := delete (archive_name plain_env)
                 (written_dir plain_env "web1" "10.0.0.1" ["/etc/hosts"] 1 ["hosts"] ∅) ]}.

(** ** Further sample data and vocabulary *)

(** Two hosts: [db1] has a finished job and three backups on disk,
    [web1] has just been registered. *)
Definition two_hosts : world :=
  World (<["db1" := web1_done]> (active_backups (started "web1")))
    {[ "db1" := old_dir ]} [] [].

(** Host [web1] just registered, with three older backups on disk. *)
Definition with_old_backups : world :=
  World (active_backups (started "web1")) {[ "web1" := old_dir ]} [] [].

(** Two worlds that differ at most in the events delivered. *)
Definition same_outcome (w w' : world) : Prop :=
  active_backups w = active_backups w' ∧ backup_dir w = backup_dir w' ∧
  stdout w = stdout w'.

(** * Properties *)

(** ** File names *)

Lemma chars_app (a b : string) : chars (a +:+ b) = chars a ++ chars b.
Proof. induction a as [|c a IH]; simpl; [done|]. by rewrite <- IH. Qed.

Lemma chars_inj (a b : string) : chars a = chars b → a = b.
Proof.
  intros H. rewrite <- (String.string_of_list_ascii_of_string a), H.
  apply String.string_of_list_ascii_of_string.
Qed.

Lemma text_app (k l : list ascii) : text (k ++ l) = text k +:+ text l.
Proof. apply chars_inj. by rewrite chars_app, !String.list_ascii_of_string_of_list_ascii. Qed.

Lemma endswith_true (s suf : string) :
  endswith s suf = true ↔ ∃ k, chars s = k ++ chars suf.
Proof. unfold endswith. rewrite bool_decide_eq_true. done. Qed.

Lemma startswith_true (s pre : string) :
  startswith s pre = true ↔ ∃ k, chars s = chars pre ++ k.
Proof. unfold startswith. rewrite bool_decide_eq_true. done. Qed.

Lemma glob_zip_chars (a : string) :
  glob_zip a = true → ∃ c k, chars a = (c :: k) ++ chars ".zip".
Proof.
  unfold glob_zip. rewrite andb_true_iff, startswith_true, endswith_true.
  intros [[k1 H1] [k2 H2]]. destruct k2 as [|c k]; [|eauto].
  rewrite H2 in H1. discriminate.
Qed.

Lemma glob_zip_with_suffix (a : string) :
  glob_zip a = true → with_suffix a ".zip.json" = a +:+ ".json".
Proof.
  intros (c & k & H)%glob_zip_chars. unfold with_suffix.
  rewrite H, reverse_app. cbn [chars]. 
  change (reverse ["."; "z"; "i"; "p"]%char) with ["p"; "i"; "z"; "."]%char.
  cbn [app after_last]. 
  repeat (case_decide; [discriminate|]). case_decide; [|done].
  destruct (reverse (c :: k)) as [|x r] eqn:Hr.
  { apply (f_equal reverse) in Hr. rewrite reverse_involutive in Hr. discriminate. }
  rewrite <- Hr, reverse_involutive. apply chars_inj.
  rewrite !chars_app, String.list_ascii_of_string_of_list_ascii, H.
  by rewrite <- app_assoc.
Qed.

Lemma app_json_inj (a b : string) : a +:+ ".json" = b +:+ ".json" → a = b.
Proof.
  intros H. apply chars_inj. apply (f_equal chars) in H.
  rewrite !chars_app in H. by apply app_inv_tail in H.
Qed.

Lemma last_chars_app (a suf : string) c :
  last (chars suf) = Some c → last (chars (a +:+ suf)) = Some c.
Proof.
  intros H. rewrite chars_app. destruct (chars suf) as [|x l] eqn:E; [done|].
  rewrite last_app. by rewrite H.
Qed.

Lemma endswith_last (s suf : string) c :
  endswith s suf = true → last (chars suf) = Some c → last (chars s) = Some c.
Proof.
  intros [k Hk]%endswith_true H. rewrite Hk, last_app. by rewrite H.
Qed.

Lemma glob_zip_not_json (a : string) : glob_zip a = true → glob_json a = false.
Proof.
  unfold glob_zip, glob_json. intros [_ H]%andb_true_iff.
  apply andb_false_iff. right. apply not_true_is_false. intros H'.
  pose proof (endswith_last _ _ "p"%char H eq_refl) as H1.
  pose proof (endswith_last _ _ "n"%char H' eq_refl) as H2.
  congruence.
Qed.

Lemma glob_zip_ne_json (a b : string) : glob_zip a = true → a ≠ b +:+ ".json".
Proof.
  intros [_ H]%andb_true_iff ->.
  pose proof (endswith_last _ _ "p"%char H eq_refl) as H1.
  rewrite (last_chars_app b ".json" "n"%char eq_refl) in H1. discriminate.
Qed.

Lemma glob_zip_json (a : string) : glob_zip a = true → glob_json (a +:+ ".json") = true.
Proof.
  unfold glob_zip, glob_json. rewrite !andb_true_iff, !startswith_true, !endswith_true.
  intros [[k Hk] _]. split.
  - exists (k ++ chars ".json"). by rewrite chars_app, Hk, <- app_assoc.
  - exists (chars a). by rewrite chars_app.
Qed.

Lemma glob_zip_stamp (s : string) : glob_zip ("backup_" +:+ s +:+ ".zip") = true.
Proof.
  unfold glob_zip. rewrite andb_true_iff, startswith_true, endswith_true. split.
  - exists (chars (s +:+ ".zip")). by rewrite chars_app.
  - exists (chars ("backup_" +:+ s)). rewrite !chars_app. by rewrite <- app_assoc.
Qed.

Lemma glob_json_unjson (f : string) :
  glob_json f = true → ∃ a, f = a +:+ ".json".
Proof.
  intros [_ [k Hk]%endswith_true]%andb_true_iff. exists (text k).
  apply chars_inj. by rewrite chars_app, String.list_ascii_of_string_of_list_ascii.
Qed.

(** ** Starting a backup *)

Lemma start_backup_registered (now server : string) (jobs : gmap string job) (j : job) :
  jobs !! server = Some j →
  start_backup now server jobs
  = (jobs, (false, "Backup already in progress for this server")).
Proof. intros H. unfold start_backup. by rewrite H. Qed.

Lemma start_backup_absent (now server : string) (jobs : gmap string job) :
  jobs !! server = None →
  start_backup now server jobs
  = (<[server := fresh_job now]> jobs, (true, "Backup started successfully")).
Proof. intros H. unfold start_backup. by rewrite H. Qed.

(** C1.  The guard of [start_backup] tests whether the host has a record,
    not whether that record is ['running']: with the record of [web1] in
    status ['completed'], a new start request is refused with the
    "already in progress" message and nothing is registered. *)
Theorem start_backup_refuses_after_completion :
  job_status web1_done = completed ∧
  start_backup "2024-01-02T08:00:00" "web1" {[ "web1" := web1_done ]}
  = ({[ "web1" := web1_done ]},
     (false, "Backup already in progress for this server")).
Proof.
  split; [done|]. apply start_backup_registered with web1_done.
  apply lookup_singleton_eq.
Qed.

(** ** The downloader on a regular file *)

Lemma floordiv_nonzero (a b : Z) : b ≠ 0 → floordiv a b = Ret (a / b).
Proof. intros H. unfold floordiv. by case_decide. Qed.

Lemma download_progress_bounds (processed total : Z) :
  0 < total → 0 ≤ processed ≤ total → 15 ≤ 15 + processed * 60 / total ≤ 75.
Proof.
  intros Ht [H0 H1].
  assert (0 ≤ processed * 60 / total) by (apply Z.div_pos; lia).
  assert (processed * 60 / total ≤ 60).
  { apply Z.div_le_upper_bound; lia. }
  lia.
Qed.

(** C9.  With a progress sink, the download of a regular file that is
    not excluded first delivers the event ['Downloading: ...'] whose
    progress is [15 + floor(files_processed * 60 / total_files)], followed
    by one closing event; for [0 <= files_processed <= total_files] and
    [total_files > 0] that value lies between 15 and 75. *)
Theorem download_progress_in_band (total processed size : Z) (get : transfer)
    (remote_path : string) (base : list string) (d : dstate) :
  0 < total → 0 ≤ processed ≤ total → excluded remote_path = false →
  (∃ closing,
     delivered (_download_path_with_progress true total remote_path
                  (RFile size get) base processed d).1
     = delivered d
       ++ [Event info ("Downloading: " +:+ remote_path)
             (Some (15 + processed * 60 / total)) (Some remote_path) None;
           closing]) ∧
  15 ≤ 15 + processed * 60 / total ≤ 75.
Proof.
  intros Ht Hp Hx. split; [|by apply download_progress_bounds].
  cbn [_download_path_with_progress]. rewrite Hx.
  rewrite floordiv_nonzero by lia.
  destruct (sftp_get _ _ _ _) as [st [file_size|msg]]; cbn;
    rewrite <- app_assoc; eauto.
Qed.

Lemma download_progress_in_band_witness :
  (0 < 3 ∧ 0 ≤ 1 ≤ 3 ∧ excluded "/etc/hosts" = false) ∧
  (∃ closing,
     delivered (_download_path_with_progress true 3 "/etc/hosts" (RFile 120 GetOk)
                  [] 1 (DState {[ [] := LDir ]} [])).1
     = delivered (DState {[ [] := LDir ]} [])
       ++ [Event info ("Downloading: " +:+ "/etc/hosts")
             (Some (15 + 1 * 60 / 3)) (Some "/etc/hosts") None;
           closing]) ∧
  15 ≤ 15 + 1 * 60 / 3 ≤ 75.
Proof.
  assert (H0 : 0 < 3) by lia.
  assert (H1 : 0 ≤ 1 ≤ 3) by lia.
  assert (H2 : excluded "/etc/hosts" = false) by (vm_compute; reflexivity).
  split; [exact (conj H0 (conj H1 H2))|].
  exact (download_progress_in_band 3 1 120 GetOk "/etc/hosts" []
           (DState {[ [] := LDir ]} []) H0 H1 H2).
Defined.



(** ** Sorting *)

Lemma insert_desc_perm {A : Type} (lt : A → A → bool) (x : A) (l : list A) :
  insert_desc lt x l ≡ₚ x :: l.
Proof.
  induction l as [|y l IH]; simpl; [done|].
  destruct (lt x y); [|done]. rewrite IH. apply Permutation_swap.
Qed.

Lemma sort_reverse_perm {A : Type} (lt : A → A → bool) (l : list A) :
  sort_reverse lt l ≡ₚ l.
Proof.
  induction l as [|x l IH]; simpl; [done|].
  unfold sort_reverse in *. simpl. by rewrite insert_desc_perm, IH.
Qed.

Lemma tuple_lt_le (a b : Z * string) : tuple_lt a b = true → a.1 ≤ b.1.
Proof.
  unfold tuple_lt. intros [H|[H _]%andb_true_iff]%orb_true_iff; lia.
Qed.

Lemma tuple_not_lt_ge (a b : Z * string) : tuple_lt a b = false → b.1 ≤ a.1.
Proof.
  unfold tuple_lt. intros [H _]%orb_false_iff. lia.
Qed.

Lemma insert_desc_sorted (x : Z * string) (l : list (Z * string)) :
  StronglySorted newer l → StronglySorted newer (insert_desc tuple_lt x l).
Proof.
  induction 1 as [|y l Hs IH Hy]; simpl; [repeat constructor|].
  destruct (tuple_lt x y) eqn:Hxy.
  - constructor; [done|]. rewrite insert_desc_perm. constructor; [|done].
    by apply tuple_lt_le.
  - apply tuple_not_lt_ge in Hxy. constructor; [by constructor|].
    constructor; [done|]. eapply Forall_impl; [exact Hy|].
    unfold newer. intros z Hz. lia.
Qed.

Lemma sort_reverse_sorted (l : list (Z * string)) :
  StronglySorted newer (sort_reverse tuple_lt l).
Proof.
  induction l as [|x l IH]; [constructor|]. by apply insert_desc_sorted.
Qed.

Lemma string_ltb_asym (a b : string) : String.ltb a b = true → String.ltb b a = false.
Proof.
  unfold String.ltb. rewrite (String.compare_antisym a b).
  by destruct (String.compare b a).
Qed.

Lemma tuple_lt_asym (a b : Z * string) : tuple_lt a b = true → tuple_lt b a = false.
Proof.
  unfold tuple_lt.
  intros [H|[H1 H2]%andb_true_iff]%orb_true_iff; apply orb_false_iff.
  - split; [lia|]. apply andb_false_iff. left. lia.
  - split; [lia|]. apply andb_false_iff. right. by apply string_ltb_asym.
Qed.

(** The result of the sort is in descending order of the tuples: no
    entry is smaller than the one that follows it. *)
Lemma sort_reverse_descending (l : list (Z * string)) :
  Sorted (λ a b, tuple_lt a b = false) (sort_reverse tuple_lt l).
Proof.
  induction l as [|x l IH]; [constructor|].
  change (sort_reverse tuple_lt (x :: l))
    with (insert_desc tuple_lt x (sort_reverse tuple_lt l)).
  induction IH as [|y l' Hs IH' Hhd]; cbn; [repeat constructor|].
  destruct (tuple_lt x y) eqn:Hxy.
  - constructor; [done|]. destruct Hhd as [|z l'' Hz]; cbn.
    + constructor. by apply tuple_lt_asym.
    + destruct (tuple_lt x z); constructor; [done|by apply tuple_lt_asym].
  - constructor; [by constructor|]. by constructor.
Qed.

(** ** Retention *)

Lemma elem_of_backup_files (d : gmap string node) (a : Z * string) :
  a ∈ backup_files d ↔
  glob_zip a.2 = true ∧ ∃ n, d !! a.2 = Some n ∧ st_mtime n = a.1.
Proof.
  unfold backup_files, glob. rewrite list_elem_of_fmap. split.
  - intros ([name n] & -> & [Hg Hn%elem_of_map_to_list]%list_elem_of_filter).
    simpl in *. eauto.
  - intros [Hg (n & Hn & Hm)]. exists (a.2, n). destruct a as [m name]; simpl in *.
    split; [by rewrite Hm|]. apply list_elem_of_filter. split; [done|].
    by apply elem_of_map_to_list.
Qed.

Lemma NoDup_backup_files (d : gmap string node) : NoDup (backup_files d).*2.
Proof.
  unfold backup_files, glob. rewrite <- list_fmap_compose.
  eapply (NoDup_fmap_2_strong _).
  2:{ apply NoDup_filter, NoDup_map_to_list. }
  intros [n1 x1] [n2 x2] [_ H1%elem_of_map_to_list]%list_elem_of_filter
    [_ H2%elem_of_map_to_list]%list_elem_of_filter Heq.
  simpl in *. subst. congruence.
Qed.

Lemma slice_from_drop {A : Type} (k : Z) (l : list A) :
  ∃ n, slice_from k l = drop n l.
Proof. unfold slice_from. destruct (k <? 0); eauto. Qed.

Lemma slice_from_nonneg {A : Type} (k : Z) (l : list A) :
  0 ≤ k → slice_from k l = drop (Z.to_nat k) l.
Proof. intros H. unfold slice_from. destruct (k <? 0) eqn:E; [lia|done]. Qed.

Lemma unlink_present refuses name (d : gmap string node) :
  is_Some (d !! name) → refuses name = None →
  unlink refuses name d = (delete name d, Ret tt).
Proof. intros [n Hn] Hr. unfold unlink. by rewrite Hn, Hr. Qed.

Lemma unlink_refused refuses name msg (d : gmap string node) :
  is_Some (d !! name) → refuses name = Some msg →
  unlink refuses name d = (d, Exn msg).
Proof. intros [n Hn] Hr. unfold unlink. by rewrite Hn, Hr. Qed.

Lemma unlink_if_exists_ok refuses name (d : gmap string node) :
  refuses name = None →
  unlink_if_exists refuses name d = (delete name d, Ret tt).
Proof.
  intros Hr. unfold unlink_if_exists, file_exists, when.
  case_bool_decide as H.
  - by apply unlink_present.
  - rewrite delete_id; [done|]. by apply eq_None_not_Some.
Qed.

Lemma lookup_wipe_ne (old : list (Z * string)) (d : gmap string node) (n : string) :
  n ∉ old.*2 → (∀ a, a ∈ old → n ≠ a.2 +:+ ".json") →
  wipe old d !! n = d !! n.
Proof.
  revert d. induction old as [|a old IH]; intros d Hn Hm; [done|].
  cbn [wipe foldl]. fold (wipe old (delete (a.2 +:+ ".json") (delete a.2 d))).
  rewrite IH.
  - rewrite !lookup_delete_ne; [done|..]; intros E;
      first [ apply Hn; rewrite <- E; simpl; left | by eapply Hm; [left|] ].
  - intros H. apply Hn. simpl. by right.
  - intros b Hb. apply Hm. by right.
Qed.

Lemma wipe_lookup_mono (old : list (Z * string)) (d : gmap string node) (n : string) x :
  wipe old d !! n = Some x → d !! n = Some x.
Proof.
  revert d. induction old as [|a old IH]; intros d; [done|].
  cbn [wipe foldl]. fold (wipe old (delete (a.2 +:+ ".json") (delete a.2 d))).
  intros H%IH. by do 2 apply lookup_delete_Some in H as [_ H].
Qed.

Lemma lookup_wipe_gone (old : list (Z * string)) (d : gmap string node) (a : Z * string) :
  a ∈ old → wipe old d !! a.2 = None ∧ wipe old d !! (a.2 +:+ ".json") = None.
Proof.
  revert d. induction old as [|b old IH]; intros d; [by intros ?%elem_of_nil|].
  cbn [wipe foldl]. fold (wipe old (delete (b.2 +:+ ".json") (delete b.2 d))).
  intros [->|H]%elem_of_cons; [|by apply IH].
  split; apply eq_None_not_Some; intros [x Hx%wipe_lookup_mono].
  - apply lookup_delete_Some in Hx as [_ Hx]. by rewrite lookup_delete_eq in Hx.
  - by rewrite lookup_delete_eq in Hx.
Qed.

Lemma remove_old_cons refuses (a : Z * string) rest (d : gmap string node) :
  remove_old refuses (a :: rest) d
  = match unlink refuses a.2 d with
    | (d1, Ret _) =>
        match unlink_if_exists refuses (with_suffix a.2 ".zip.json") d1 with
        | (d2, Ret _) => remove_old refuses rest d2
        | (d2, Exn msg) => (d2, Exn msg)
        end
    | (d1, Exn msg) => (d1, Exn msg)
    end.
Proof.
  destruct a as [m name]. cbn [remove_old]. unfold mbind, M_bind, bind. simpl.
  destruct (unlink refuses name d) as [d1 [[]|msg]]; [|done].
  by destruct (unlink_if_exists _ _ d1) as [d2 [[]|msg]].
Qed.

Lemma remove_old_fails refuses (before : list (Z * string)) (x : Z * string)
    (after : list (Z * string)) (msg : string) (d : gmap string node) :
  (∀ a, a ∈ before → refuses a.2 = None ∧ refuses (a.2 +:+ ".json") = None) →
  refuses x.2 = Some msg →
  (∀ a, a ∈ before ++ x :: after → glob_zip a.2 = true ∧ is_Some (d !! a.2)) →
  NoDup (before ++ x :: after).*2 →
  remove_old refuses (before ++ x :: after) d = (wipe before d, Exn msg).
Proof.
  revert d. induction before as [|a before IH]; intros d Hok Hx Hin Hnd.
  - cbn [app]. rewrite remove_old_cons, (unlink_refused _ _ msg); [done| |done].
    apply Hin. left.
  - cbn [app]. rewrite remove_old_cons.
    destruct (Hok a) as [Ha1 Ha2]; [left|].
    destruct (Hin a) as [Hg Hs]; [left|].
    rewrite unlink_present by done.
    rewrite glob_zip_with_suffix by done.
    rewrite unlink_if_exists_ok by done.
    cbn [fmap list_fmap app] in Hnd. apply NoDup_cons in Hnd as [Hna Hnd].
    rewrite IH; [done| | | |done].
    + intros b Hb. apply Hok. by right.
    + done.
    + intros b Hb. destruct (Hin b) as [Hgb Hsb]; [by right|]. split; [done|].
      rewrite !lookup_delete_ne; [done|..]; intros E;
        first [ by apply (glob_zip_ne_json b.2 a.2 Hgb)
              | apply Hna; rewrite E; by apply list_elem_of_fmap_2 ].
Qed.

Lemma remove_old_ok refuses (old : list (Z * string)) (d : gmap string node) :
  (∀ a, a ∈ old → refuses a.2 = None ∧ refuses (a.2 +:+ ".json") = None) →
  (∀ a, a ∈ old → glob_zip a.2 = true ∧ is_Some (d !! a.2)) →
  NoDup old.*2 →
  remove_old refuses old d = (wipe old d, Ret tt).
Proof.
  revert d. induction old as [|a old IH]; intros d Hok Hin Hnd; [done|].
  rewrite remove_old_cons.
  destruct (Hok a) as [Ha1 Ha2]; [left|].
  destruct (Hin a) as [Hg Hs]; [left|].
  rewrite unlink_present by done.
  rewrite glob_zip_with_suffix by done.
  rewrite unlink_if_exists_ok by done.
  cbn [fmap list_fmap] in Hnd. apply NoDup_cons in Hnd as [Hna Hnd].
  rewrite IH; [done| | |done].
  - intros b Hb. apply Hok. by right.
  - intros b Hb. destruct (Hin b) as [Hgb Hsb]; [by right|]. split; [done|].
    rewrite !lookup_delete_ne; [done|..]; intros E;
      first [ by apply (glob_zip_ne_json b.2 a.2 Hgb)
            | apply Hna; rewrite E; by apply list_elem_of_fmap_2 ].
Qed.

Lemma sorted_files_spec (d : gmap string node) (a : Z * string) :
  a ∈ sort_reverse tuple_lt (backup_files d) ↔ a ∈ backup_files d.
Proof. by rewrite sort_reverse_perm. Qed.

Lemma NoDup_sorted_files (d : gmap string node) :
  NoDup (sort_reverse tuple_lt (backup_files d)).*2.
Proof.
  rewrite sort_reverse_perm. apply NoDup_backup_files.
Qed.

Lemma elem_of_drop_1 {A : Type} (x : A) (n : nat) (l : list A) :
  x ∈ drop n l → x ∈ l.
Proof. apply subseteq_drop. Qed.

Lemma elem_of_take_1 {A : Type} (x : A) (n : nat) (l : list A) :
  x ∈ take n l → x ∈ l.
Proof. apply subseteq_take. Qed.

Lemma sorted_files_split (d : gmap string node) (n : nat) (a b : Z * string) :
  a ∈ take n (sort_reverse tuple_lt (backup_files d)) →
  b ∈ drop n (sort_reverse tuple_lt (backup_files d)) →
  a.2 ≠ b.2 ∧ b.1 ≤ a.1.
Proof.
  intros Ha Hb. pose proof (NoDup_sorted_files d) as Hnd.
  pose proof (sort_reverse_sorted (backup_files d)) as Hs.
  rewrite <- (take_drop n (sort_reverse tuple_lt (backup_files d))) in Hnd, Hs.
  rewrite fmap_app in Hnd. apply NoDup_app in Hnd as (_ & Hdis & _). split.
  - intros E. apply (Hdis a.2); [by apply list_elem_of_fmap_2|].
    rewrite E. by apply list_elem_of_fmap_2.
  - by apply (StronglySorted_app_1_elem_of newer _ _ a b Hs).
Qed.

Lemma elem_of_sorted_drop (d : gmap string node) (n : nat) (a : Z * string) :
  a ∈ drop n (sort_reverse tuple_lt (backup_files d)) →
  glob_zip a.2 = true ∧ is_Some (d !! a.2).
Proof.
  intros Ha%elem_of_drop_1%sorted_files_spec%elem_of_backup_files.
  destruct Ha as [Hg (x & Hx & _)]. eauto.
Qed.

Lemma NoDup_sorted_drop (d : gmap string node) (n : nat) :
  NoDup (drop n (sort_reverse tuple_lt (backup_files d))).*2.
Proof.
  pose proof (NoDup_sorted_files d) as Hnd.
  rewrite <- (take_drop n (sort_reverse tuple_lt (backup_files d))), fmap_app in Hnd.
  by apply NoDup_app in Hnd as (_ & _ & ?).
Qed.

(** C3, as the code has it.  When no deletion is refused, pruning with
    [keep_count = k >= 0] prints nothing and leaves exactly the first [k]
    archives of the list sorted by modification time, newest first: at
    most [k] archives
    remain, every older archive is gone together with its metadata
    record, the kept archives and their metadata records are untouched,
    and no kept archive is older than a deleted one. *)
Theorem cleanup_keeps_most_recent (refuses : string → option string) (k : Z)
    (d : gmap string node) :
  0 ≤ k → (∀ name, refuses name = None) →
  let sorted := sort_reverse tuple_lt (backup_files d) in
  let kept := take (Z.to_nat k) sorted in
  let old := drop (Z.to_nat k) sorted in
  let d' := (_cleanup_old_backups refuses k d).1 in
  (_cleanup_old_backups refuses k d).2 = [] ∧
  backup_files d' ≡ₚ kept ∧
  (length (backup_files d') ≤ Z.to_nat k)%nat ∧
  (∀ a, a ∈ old → d' !! a.2 = None ∧ d' !! (a.2 +:+ ".json") = None) ∧
  (∀ a, a ∈ kept →
        d' !! a.2 = d !! a.2 ∧ d' !! (a.2 +:+ ".json") = d !! (a.2 +:+ ".json")) ∧
  (∀ a b, a ∈ kept → b ∈ old → b.1 ≤ a.1).
Proof.
  intros Hk Hr sorted kept old d'.
  assert (Hrun : _cleanup_old_backups refuses k d = (wipe old d, [])).
  { unfold _cleanup_old_backups. rewrite slice_from_nonneg by done.
    fold sorted. fold old. rewrite remove_old_ok; [done| | |].
    - intros a _. by rewrite !Hr.
    - intros a Ha. by apply (elem_of_sorted_drop d (Z.to_nat k)).
    - apply NoDup_sorted_drop. }
  assert (Hkept : ∀ a, a ∈ kept →
     d' !! a.2 = d !! a.2 ∧ d' !! (a.2 +:+ ".json") = d !! (a.2 +:+ ".json")).
  { intros a Ha. subst d'. rewrite Hrun. cbn [fst].
    split; apply lookup_wipe_ne.
    - intros (b & E & Hb)%list_elem_of_fmap.
      by destruct (sorted_files_split d _ a b Ha Hb).
    - intros b Hb. apply glob_zip_ne_json.
      apply elem_of_take_1, sorted_files_spec, elem_of_backup_files in Ha. tauto.
    - intros (b & E & Hb)%list_elem_of_fmap.
      destruct (elem_of_sorted_drop d _ b Hb) as [Hg _].
      by apply (glob_zip_ne_json b.2 a.2 Hg).
    - intros b Hb E%app_json_inj.
      by destruct (sorted_files_split d _ a b Ha Hb). }
  assert (Hold : ∀ a, a ∈ old → d' !! a.2 = None ∧ d' !! (a.2 +:+ ".json") = None).
  { intros a Ha. subst d'. rewrite Hrun. by apply lookup_wipe_gone. }
  assert (Hperm : backup_files d' ≡ₚ kept).
  { apply NoDup_Permutation.
    - eapply NoDup_fmap_1, NoDup_backup_files.
    - eapply (NoDup_fmap_1 snd). 
      pose proof (NoDup_sorted_files d) as Hnd. fold sorted in Hnd.
      rewrite <- (take_drop (Z.to_nat k) sorted), fmap_app in Hnd.
      by apply NoDup_app in Hnd as (? & _ & _).
    - intros a. split.
      + intros Ha. pose proof Ha as [Hg (x & Hx & Hm)]%elem_of_backup_files.
        assert (Hd : d !! a.2 = Some x).
        { subst d'. rewrite Hrun in Hx. by apply wipe_lookup_mono in Hx. }
        assert (Hs : a ∈ sorted).
        { apply sorted_files_spec, elem_of_backup_files. eauto. }
        rewrite <- (take_drop (Z.to_nat k) sorted) in Hs.
        apply elem_of_app in Hs as [Hs|Hs]; [done|].
        destruct (Hold a Hs) as [Hn _]. congruence.
      + intros Ha. destruct (Hkept a Ha) as [E _].
        pose proof Ha as [Hg (x & Hx & Hm)]%elem_of_take_1%sorted_files_spec%elem_of_backup_files.
        apply elem_of_backup_files. split; [done|]. exists x. by rewrite E. }
  split; [by rewrite Hrun|]. split; [done|]. split.
  { rewrite Hperm. subst kept. rewrite length_take. lia. }
  split; [done|]. split; [done|].
  intros a b Ha Hb. by destruct (sorted_files_split d _ a b Ha Hb).
Qed.

Lemma cleanup_keeps_most_recent_witness :
  0 ≤ 1 ∧ (∀ name : string, (λ _ : string, @None string) name = None) ∧
  backup_files (_cleanup_old_backups (λ _, None) 1 old_dir).1
  ≡ₚ take (Z.to_nat 1) (sort_reverse tuple_lt (backup_files old_dir)).
Proof.
  assert (H0 : 0 ≤ 1) by lia.
  assert (H1 : ∀ name : string, (λ _ : string, @None string) name = None)
    by reflexivity.
  split; [exact H0|]. split; [exact H1|].
  pose proof (cleanup_keeps_most_recent (λ _, None) 1 old_dir H0 H1) as H.
  cbn zeta in H. destruct H as (_ & H & _). exact H.
Defined.

(** C3, counterexample.  Three archives, one to keep, and an operating
    system that refuses to delete the second newest: pruning gives up at
    that refusal, so three archives remain instead of one, the oldest
    among them with its metadata record. *)
Lemma refused_deletion_keeps_old_archives :
  length (backup_files old_dir) = 3%nat ∧
  length (backup_files (_cleanup_old_backups protect_second 1 old_dir).1) = 3%nat ∧
  ¬ (length (backup_files (_cleanup_old_backups protect_second 1 old_dir).1)
     ≤ Z.to_nat 1)%nat ∧
  (_cleanup_old_backups protect_second 1 old_dir).1 !! "backup_20240101_000000.zip"
  = Some (Node 10 (Zip ["a"])) ∧
  (_cleanup_old_backups protect_second 1 old_dir).1 !! "backup_20240101_000000.zip.json"
  = Some (Node 10 Garbage).
Proof.
  assert (H : length (backup_files (_cleanup_old_backups protect_second 1 old_dir).1)
              = 3%nat) by (vm_compute; reflexivity).
  split; [vm_compute; reflexivity|]. split; [exact H|]. split.
  - rewrite H. cbn. lia.
  - split; vm_compute; reflexivity.
Qed.

Lemma remove_old_fails_record refuses (before : list (Z * string)) (x : Z * string)
    (after : list (Z * string)) (msg : string) (d : gmap string node) :
  (∀ a, a ∈ before → refuses a.2 = None ∧ refuses (a.2 +:+ ".json") = None) →
  refuses x.2 = None → is_Some (d !! (x.2 +:+ ".json")) →
  refuses (x.2 +:+ ".json") = Some msg →
  (∀ a, a ∈ before ++ x :: after → glob_zip a.2 = true ∧ is_Some (d !! a.2)) →
  NoDup (before ++ x :: after).*2 →
  remove_old refuses (before ++ x :: after) d = (delete x.2 (wipe before d), Exn msg).
Proof.
  revert d. induction before as [|a before IH]; intros d Hok Hx Hrec Hxj Hin Hnd.
  - cbn [app]. destruct (Hin x) as [Hg Hs]; [left|].
    rewrite remove_old_cons, unlink_present by done.
    rewrite glob_zip_with_suffix by done.
    unfold unlink_if_exists, when, file_exists.
    rewrite bool_decide_eq_true_2.
    + rewrite (unlink_refused _ _ msg); [done| |done].
      rewrite lookup_delete_ne; [done|]. by apply glob_zip_ne_json.
    + rewrite lookup_delete_ne; [done|]. by apply glob_zip_ne_json.
  - cbn [app]. rewrite remove_old_cons.
    destruct (Hok a) as [Ha1 Ha2]; [left|].
    destruct (Hin a) as [Hg Hs]; [left|].
    destruct (Hin x) as [Hgx _]; [apply elem_of_app; right; left|].
    rewrite unlink_present by done.
    rewrite glob_zip_with_suffix by done.
    rewrite unlink_if_exists_ok by done.
    cbn [fmap list_fmap app] in Hnd. apply NoDup_cons in Hnd as [Hna Hnd].
    assert (Hax : a.2 ≠ x.2).
    { intros E. apply Hna. rewrite E. apply list_elem_of_fmap_2.
      apply elem_of_app. right. left. }
    rewrite IH; [done| |done| |done| |done].
    + intros b Hb. apply Hok. by right.
    + rewrite !lookup_delete_ne; [done|..];
        first [ by apply glob_zip_ne_json | intros E%app_json_inj; by apply Hax ].
    + intros b Hb. destruct (Hin b) as [Hgb Hsb]; [by right|]. split; [done|].
      rewrite !lookup_delete_ne; [done|..]; intros E;
        first [ by apply (glob_zip_ne_json b.2 a.2 Hgb)
              | apply Hna; rewrite E; by apply list_elem_of_fmap_2 ].
Qed.

(** C6, as the code has it.  The [try] of [_cleanup_old_backups] encloses
    the whole loop: the first deletion that is refused, of an archive or
    of the metadata record of an archive, is printed and pruning ends
    there.  The entries before the failing one are gone with their
    metadata records; an archive whose deletion is refused stays with its
    record; an archive whose record cannot be deleted is gone while the
    record stays; every entry after the failing one is left as it
    was. *)
Theorem cleanup_stops_at_first_refusal (refuses : string → option string) (k : Z)
    (d : gmap string node) (before : list (Z * string)) (x : Z * string)
    (after : list (Z * string)) (msg : string) :
  slice_from k (sort_reverse tuple_lt (backup_files d)) = before ++ x :: after →
  (∀ a, a ∈ before → refuses a.2 = None ∧ refuses (a.2 +:+ ".json") = None) →
  refuses x.2 = Some msg ∨
  (refuses x.2 = None ∧ is_Some (d !! (x.2 +:+ ".json")) ∧
   refuses (x.2 +:+ ".json") = Some msg) →
  let d' := (_cleanup_old_backups refuses k d).1 in
  (_cleanup_old_backups refuses k d).2 = ["Error cleaning up old backups: " +:+ msg] ∧
  (∀ a, a ∈ before → d' !! a.2 = None ∧ d' !! (a.2 +:+ ".json") = None) ∧
  d' !! x.2 = match refuses x.2 with Some _ => d !! x.2 | None => None end ∧
  d' !! (x.2 +:+ ".json") = d !! (x.2 +:+ ".json") ∧
  (∀ a, a ∈ after →
        d' !! a.2 = d !! a.2 ∧ d' !! (a.2 +:+ ".json") = d !! (a.2 +:+ ".json")).
Proof.
  intros Hslice Hok Hx d'.
  destruct (slice_from_drop k (sort_reverse tuple_lt (backup_files d))) as [n Hn].
  assert (Hin : ∀ a, a ∈ before ++ x :: after → glob_zip a.2 = true ∧ is_Some (d !! a.2)).
  { intros a Ha. apply (elem_of_sorted_drop d n). by rewrite <- Hn, Hslice. }
  assert (Hnd : NoDup (before ++ x :: after).*2).
  { rewrite <- Hslice, Hn. apply NoDup_sorted_drop. }
  assert (Hrun : _cleanup_old_backups refuses k d
                 = (match refuses x.2 with
                    | Some _ => wipe before d
                    | None => delete x.2 (wipe before d)
                    end,
                    ["Error cleaning up old backups: " +:+ msg])).
  { unfold _cleanup_old_backups. rewrite Hslice.
    destruct Hx as [Hx|(Hx & Hrec & Hxj)]; rewrite Hx.
    - by rewrite (remove_old_fails refuses before x after msg).
    - by rewrite (remove_old_fails_record refuses before x after msg). }
  pose proof Hnd as Hnd'.
  rewrite fmap_app in Hnd. apply NoDup_app in Hnd as (_ & Hdis & Hnd).
  cbn [fmap list_fmap] in Hnd. apply NoDup_cons in Hnd as [Hxa _].
  assert (Hkeep : ∀ a, a ∈ x :: after →
    wipe before d !! a.2 = d !! a.2 ∧
    wipe before d !! (a.2 +:+ ".json") = d !! (a.2 +:+ ".json")).
  { intros a Ha.
    assert (Ha' : a ∈ before ++ x :: after) by (apply elem_of_app; by right).
    destruct (Hin a Ha') as [Hg _].
    split; apply lookup_wipe_ne.
    - intros Hb. apply (Hdis a.2 Hb). by apply list_elem_of_fmap_2.
    - intros b _. by apply glob_zip_ne_json.
    - intros (b & E & Hb)%list_elem_of_fmap.
      destruct (Hin b) as [Hgb _]; [apply elem_of_app; by left|].
      by apply (glob_zip_ne_json b.2 a.2 Hgb).
    - intros b Hb E%app_json_inj. apply (Hdis a.2).
      + rewrite E. by apply list_elem_of_fmap_2.
      + by apply list_elem_of_fmap_2. }
  destruct (Hin x) as [Hgx _]; [apply elem_of_app; right; left|].
  subst d'. rewrite Hrun. cbn [fst snd]. split; [done|].
  destruct (refuses x.2) as [m|] eqn:Hrx.
  - split; [intros a Ha; by apply lookup_wipe_gone|].
    destruct (Hkeep x) as [H1 H2]; [left|].
    split; [done|]. split; [done|]. intros a Ha. apply Hkeep. by right.
  - split.
    { intros a Ha. destruct (lookup_wipe_gone before d a Ha) as [H1 H2].
      split.
      - rewrite lookup_delete_ne; [done|].
        intros E. apply (Hdis a.2); [by apply list_elem_of_fmap_2|].
        rewrite <- E. left.
      - rewrite lookup_delete_ne; [done|]. by apply glob_zip_ne_json. }
    destruct (Hkeep x) as [H1 H2]; [left|].
    split; [by rewrite lookup_delete_eq|].
    split; [rewrite lookup_delete_ne; [done|by apply glob_zip_ne_json]|].
    intros a Ha. destruct (Hkeep a) as [H3 H4]; [by right|].
    destruct (Hin a) as [Hga _]; [apply elem_of_app; right; by right|].
    split.
    + rewrite lookup_delete_ne; [done|].
      intros E. apply Hxa. rewrite E. by apply list_elem_of_fmap_2.
    + rewrite lookup_delete_ne; [done|]. by apply glob_zip_ne_json.
Qed.

Lemma cleanup_stops_at_first_refusal_witness :
  (slice_from 1 (sort_reverse tuple_lt (backup_files old_dir))
   = [] ++ (20, "backup_20240102_000000.zip") :: [(10, "backup_20240101_000000.zip")] ∧
   (protect_second_record (20, "backup_20240102_000000.zip").2 = None ∧
    is_Some (old_dir !! ((20, "backup_20240102_000000.zip").2 +:+ ".json")) ∧
    protect_second_record ((20, "backup_20240102_000000.zip").2 +:+ ".json")
    = Some "Permission denied")) ∧
  (_cleanup_old_backups protect_second_record 1 old_dir).2
  = ["Error cleaning up old backups: " +:+ "Permission denied"] ∧
  (_cleanup_old_backups protect_second_record 1 old_dir).1
    !! (20, "backup_20240102_000000.zip").2 = None ∧
  (_cleanup_old_backups protect_second_record 1 old_dir).1
    !! ((20, "backup_20240102_000000.zip").2 +:+ ".json")
  = old_dir !! ((20, "backup_20240102_000000.zip").2 +:+ ".json").
Proof.
  assert (H0 : slice_from 1 (sort_reverse tuple_lt (backup_files old_dir))
    = [] ++ (20, "backup_20240102_000000.zip") :: [(10, "backup_20240101_000000.zip")])
    by (vm_compute; reflexivity).
  assert (H1 : protect_second_record (20, "backup_20240102_000000.zip").2 = None)
    by (vm_compute; reflexivity).
  assert (H2 : is_Some (old_dir !! ((20, "backup_20240102_000000.zip").2 +:+ ".json"))).
  { exists (Node 20 Garbage). vm_compute. reflexivity. }
  assert (H3 : protect_second_record ((20, "backup_20240102_000000.zip").2 +:+ ".json")
               = Some "Permission denied") by (vm_compute; reflexivity).
  split; [exact (conj H0 (conj H1 (conj H2 H3)))|].
  pose proof (cleanup_stops_at_first_refusal protect_second_record 1 old_dir []
                (20, "backup_20240102_000000.zip")
                [(10, "backup_20240101_000000.zip")] "Permission denied" H0) as H.
  cbn zeta in H. destruct H as (Hp & _ & Hx & Hj & _).
  - intros a Ha. exfalso. exact (proj1 (elem_of_nil a) Ha).
  - right. exact (conj H1 (conj H2 H3)).
  - split; [exact Hp|]. split; [|exact Hj].
    exact (eq_trans Hx
             (f_equal (λ o : option string,
                         match o with
                         | Some _ => old_dir !! (20, "backup_20240102_000000.zip").2
                         | None => None
                         end) H1)).
Defined.

(** C6, counterexample.  With one archive to keep, the two older ones are
    to be pruned; the deletion of the first is refused, and the second,
    which nothing protects, is never tried and stays on disk. *)
Lemma cleanup_abandons_later_entries :
  slice_from 1 (sort_reverse tuple_lt (backup_files old_dir))
  = [(20, "backup_20240102_000000.zip"); (10, "backup_20240101_000000.zip")] ∧
  protect_second "backup_20240101_000000.zip" = None ∧
  protect_second "backup_20240101_000000.zip.json" = None ∧
  (_cleanup_old_backups protect_second 1 old_dir).1 !! "backup_20240101_000000.zip"
  = Some (Node 10 (Zip ["a"])) ∧
  (_cleanup_old_backups protect_second 1 old_dir).2
  = ["Error cleaning up old backups: Permission denied"].
Proof. vm_compute. repeat split. Qed.

(** ** What the downloader counts *)

Lemma download_count_bounds :
  (∀ r cb total path base processed d,
     0 ≤ (_download_path_with_progress cb total path r base processed d).2.1
       ≤ leaves r) ∧
  (∀ files cb total path base processed downloaded size d,
     downloaded
     ≤ (download_children cb total path files base processed downloaded size d).2.1
     ≤ downloaded + leaves_in files).
Proof.
  apply remote_mutind.
  - intros; cbn; lia.
  - intros; cbn; lia.
  - intros size get cb total path base processed d.
    cbn [_download_path_with_progress leaves].
    destruct (excluded path); [cbn; lia|].
    destruct cb.
    + destruct (floordiv _ _); [|cbn; lia].
      destruct (sftp_get _ _ _ _) as [st [n|msg]]; cbn; lia.
    + destruct (sftp_get _ _ _ _) as [st [n|msg]]; cbn; lia.
  - intros files IH cb total path base processed d.
    cbn [_download_path_with_progress leaves].
    destruct (mkdir_exist_ok _ _) as [st [[]|msg]].
    + specialize (IH cb total path (join base (basename path)) processed 0 0
                    (DState st (delivered d))). lia.
    + cbn. specialize (IH cb total path base processed 0 0 d). lia.
  - intros msg cb total path base processed d.
    cbn [_download_path_with_progress leaves].
    destruct (mkdir_exist_ok _ _) as [st [[]|msg']]; cbn; lia.
  - intros; cbn; lia.
  - intros name r IHr rest IHrest cb total path base processed downloaded size d.
    cbn [download_children leaves_in].
    specialize (IHr cb total (path +:+ "/" +:+ name) base (processed + downloaded) d).
    destruct (_download_path_with_progress _ _ _ r _ _ _) as [d1 [sub_files sub_size]].
    cbn [snd fst] in IHr.
    specialize (IHrest cb total path base processed (downloaded + sub_files)
                  (size + sub_size) d1).
    lia.
Qed.

(** ** The download loop *)

Lemma record_progress_twice (p s p' s' : Z) (j : job) :
  record_progress p s (record_progress p' s' j) = record_progress p s j.
Proof. done. Qed.

Lemma alter_record_progress_twice (server : string) (p s p' s' : Z)
    (jobs : gmap string job) :
  alter (record_progress p s) server (alter (record_progress p' s') server jobs)
  = alter (record_progress p s) server jobs.
Proof.
  rewrite alter_alter_eq. apply alter_ext. intros j _. apply record_progress_twice.
Qed.

Lemma download_paths_spec (E : env) (cb : bool) (server : string) (total n : Z)
    (paths : list string) :
  ∀ (i p0 s0 : Z) (st : gmap (list string) lnode) (w : world),
  ∃ w1 st1 p1 s1,
    download_paths E cb server total n i paths p0 s0 st w = (w1, Ret (st1, (p1, s1))) ∧
    backup_dir w1 = backup_dir w ∧ stdout w1 = stdout w ∧
    active_backups w1
    = match paths with
      | [] => active_backups w
      | _ => alter (record_progress p1 s1) server (active_backups w)
      end ∧
    p0 ≤ p1 ≤ p0 + leaves_total E paths.
Proof.
  induction paths as [|path rest IH]; intros i p0 s0 st w.
  - exists w, st, p0, s0. cbn. repeat split; lia.
  - cbn [download_paths]. unfold mbind, M_bind, bind, say, update_job, modify, download.
    pose proof (proj1 download_count_bounds (remote_at E path) cb total path []
                  p0 (DState st (events (with_events
                     (emit cb (Event info ("Processing path: " +:+ path)
                                 (Some (15 + i * 60 / n)) (Some path) None)) w))))
      as Hb.
    destruct (_download_path_with_progress _ _ _ _ _ _ _) as [d [files size]].
    cbn [fst snd] in Hb. cbn beta iota.
    match goal with
    | |- context [download_paths E cb server total n (i + 1) rest ?p ?s ?st' ?w'] =>
        destruct (IH (i + 1) p s st' w') as (w1 & st1 & p1 & s1 & Hrun & Hd & Ho & Hj & Hp)
    end.
    exists w1, st1, p1, s1. rewrite Hrun. split; [done|].
    cbn [backup_dir stdout active_backups with_jobs with_events] in Hd, Ho, Hj.
    split; [done|]. split; [done|]. split.
    + destruct rest; [|by rewrite Hj, alter_record_progress_twice].
      cbn in Hrun. injection Hrun as <- <- <- <-. done.
    + cbn [leaves_total foldr]. fold (leaves_total E rest). lia.
Qed.

(** ** The pipeline *)

Lemma host_dir_insert (server : string) (d : gmap string node)
    (root : gmap string (gmap string node)) :
  host_dir server (<[server := d]> root) = d.
Proof. unfold host_dir. by rewrite lookup_insert_eq. Qed.

Lemma host_dir_mkdir (server : string) (root : gmap string (gmap string node)) :
  host_dir server
    (match root !! server with Some _ => root | None => <[server := ∅]> root end)
  = host_dir server root.
Proof.
  unfold host_dir. destruct (root !! server) eqn:H; [by rewrite H|].
  by rewrite lookup_insert_eq.
Qed.

Lemma try_body_ret (E : env) (cb : bool) (server address : string)
    (paths : list string) (w w' : world) :
  try_body E cb server address paths w = (w', Ret tt) →
  ∃ w0 w1 st p1 s1,
    active_backups w0
    = alter (record_total (count_total E paths)) server (active_backups w) ∧
    backup_dir w0
    = match backup_dir w !! server with
      | Some _ => backup_dir w
      | None => <[server := ∅]> (backup_dir w)
      end ∧
    stdout w0 = stdout w ∧
    download_paths E cb server (count_total E paths) (Z.of_nat (length paths)) 0
      paths 0 0 {[ [] := LDir ]} w0 = (w1, Ret (st, (p1, s1))) ∧
    let d1 := written_dir E server address paths p1 (zipped E cb st (events w1))
                (host_dir server (backup_dir w)) in
    active_backups w'
    = alter (finish (completed_now E) (backup_path E server (archive_name E)))
        server (active_backups w1) ∧
    backup_dir w'
    = <[server := (_cleanup_old_backups (unlink_refuses E) 7 d1).1]> (backup_dir w) ∧
    stdout w' = stdout w ++ (_cleanup_old_backups (unlink_refuses E) 7 d1).2.
Proof.
  unfold try_body, with_tempdir, leaving_tempdir, stage_and_zip.
  unfold mbind, M_bind, bind, mret, M_ret, ret, say, step, update_job, make_host_dir,
    write_file, compress, prune_host, modify.
  destruct (fault E ssh_connect); [discriminate|].
  destruct (fault E open_sftp); [discriminate|].
  destruct (fault E mkdir_host); [discriminate|].
  destruct (fault E make_tempdir); [discriminate|].
  match goal with
  | |- context [download_paths E cb server ?t ?n 0 paths 0 0 ?s ?x] =>
      set (w0 := x);
      destruct (download_paths_spec E cb server t n paths 0 0 0 s w0)
        as (w1 & st & p1 & s1 & Hrun & Hd & Ho & Hj & Hp)
  end.
  rewrite Hrun. cbn beta iota.
  destruct (fault E zip_open).
  { destruct (fault E tempdir_cleanup); discriminate. }
  cbn beta iota.
  destruct (compress_loop _ _ _ _ _ _ _) as [written evs] eqn:Hzip.
  cbn beta iota.
  destruct (fault E zip_close).
  { destruct (fault E tempdir_cleanup); discriminate. }
  cbn beta iota.
  destruct (fault E tempdir_cleanup); [discriminate|].
  destruct (fault E stat_archive); [discriminate|].
  destruct (fault E metadata_open); [discriminate|].
  destruct (fault E metadata_dump); [discriminate|].
  destruct (fault E sftp_close); [discriminate|].
  destruct (fault E ssh_close); [discriminate|].
  assert (Hroot : backup_dir w0
                  = match backup_dir w !! server with
                    | Some _ => backup_dir w
                    | None => <[server := ∅]> (backup_dir w)
                    end) by reflexivity.
  assert (Hwritten : written = zipped E cb st (events w1)).
  { unfold zipped. cbn [events with_events with_root] in Hzip. by rewrite Hzip. }
  cbn [backup_dir with_root with_events with_jobs active_backups stdout events].
  rewrite !host_dir_insert, !insert_insert_eq, lookup_insert_eq, Hd, Hroot,
    host_dir_mkdir.
  fold (archive_name E). fold (metadata_of E server address paths p1).
  fold (written_dir E server address paths p1 written (host_dir server (backup_dir w))).
  rewrite Hwritten.
  destruct (_cleanup_old_backups _ _ _) as [d' lines] eqn:Hc.
  assert (Hc' : _cleanup_old_backups (unlink_refuses E) 7
                   (written_dir E server address paths p1
                      (zipped E cb st (events w1)) (host_dir server (backup_dir w)))
                = (d', lines)) by exact Hc.
  intros [= <-]. exists w0, w1, st, p1, s1.
  cbn [backup_dir with_root with_events with_jobs active_backups stdout events fst snd].
  rewrite insert_insert_eq, Ho, Hc'.
  repeat split; try done.
  destruct (backup_dir w !! server) eqn:Hs; [done|]. by rewrite insert_insert_eq.
Qed.

Lemma download_paths_jobs (E : env) (cb : bool) (server : string) (total n i : Z)
    (paths : list string) (p0 s0 : Z) (st : gmap (list string) lnode)
    (w : world) (j : job) :
  active_backups w !! server = Some j →
  ∃ j', active_backups (download_paths E cb server total n i paths p0 s0 st w).1
        !! server = Some j' ∧
        job_status j' = job_status j ∧ total_files j' = total_files j ∧
        job_error j' = job_error j.
Proof.
  intros H.
  destruct (download_paths_spec E cb server total n paths i p0 s0 st w)
    as (w1 & st1 & p1 & s1 & Hrun & _ & _ & Hj & _).
  rewrite Hrun. cbn [fst]. rewrite Hj. destruct paths; [eauto|].
  rewrite lookup_alter_eq, H. cbn. eauto.
Qed.




Lemma alter_absent (f : job → job) (server : string) (jobs : gmap string job) :
  jobs !! server = None → alter f server jobs = jobs.
Proof.
  intros H. apply map_eq. intros s. destruct (decide (server = s)) as [<-|Hne].
  - by rewrite lookup_alter_eq, H.
  - by rewrite lookup_alter_ne.
Qed.

Ltac jobs_same H :=
  cbn [fst active_backups with_jobs with_events with_root print];
  rewrite ?H, ?(alter_absent _ _ _ H); try reflexivity.

(** The updates of the record are all guarded by [if server_name in
    self.active_backups]: a run whose host has no record, as when the
    worker thread started by [start_backup] ends before the line that
    registers the record, leaves the dictionary as it found it. *)
Lemma perform_backup_unregistered (E : env) (cb : bool) (server address : string)
    (paths : list string) (w : world) :
  active_backups w !! server = None →
  active_backups (_perform_backup E cb server address paths w) = active_backups w.
Proof.
  intros H.
  assert (Hbody : active_backups (try_body E cb server address paths w).1
                  = active_backups w).
  { unfold try_body, with_tempdir, leaving_tempdir, stage_and_zip.
    unfold mbind, M_bind, bind, mret, M_ret, ret, say, step, update_job, make_host_dir,
      write_file, compress, prune_host, modify.
    destruct (fault E ssh_connect); [jobs_same H|].
    destruct (fault E open_sftp); [jobs_same H|].
    destruct (fault E mkdir_host); [jobs_same H|].
    destruct (fault E make_tempdir); [jobs_same H|].
    match goal with
    | |- context [download_paths E cb server ?t ?n 0 paths 0 0 ?s ?x] =>
        destruct (download_paths_spec E cb server t n paths 0 0 0 s x)
          as (w1 & st & p1 & s1 & Hrun & _ & _ & Hj & _)
    end.
    rewrite Hrun. cbn beta iota.
    assert (H1 : active_backups w1 = active_backups w).
    { rewrite Hj. destruct paths; jobs_same H. }
    assert (H1' : active_backups w1 !! server = None) by (by rewrite H1).
    destruct (fault E zip_open).
    { destruct (fault E tempdir_cleanup); jobs_same H1'; exact H1. }
    cbn beta iota.
    destruct (compress_loop _ _ _ _ _ _ _) as [written evs].
    cbn beta iota.
    destruct (fault E zip_close).
    { destruct (fault E tempdir_cleanup); jobs_same H1'; exact H1. }
    cbn beta iota.
    destruct (fault E tempdir_cleanup); [jobs_same H1'; exact H1|].
    destruct (fault E stat_archive); [jobs_same H1'; exact H1|].
    destruct (fault E metadata_open); [jobs_same H1'; exact H1|].
    destruct (fault E metadata_dump); [jobs_same H1'; exact H1|].
    destruct (fault E sftp_close); [jobs_same H1'; exact H1|].
    destruct (fault E ssh_close); [jobs_same H1'; exact H1|].
    cbn [fst].
    match goal with
    | |- context [match ?o with Some _ => _ | None => _ end] => destruct o
    end; [|jobs_same H1'; exact H1].
    destruct (_cleanup_old_backups _ _ _). jobs_same H1'. exact H1. }
  unfold _perform_backup.
  destruct (try_body E cb server address paths w) as [w' [[]|msg]];
    cbn [fst] in Hbody; [done|].
  cbn [active_backups with_jobs with_events print].
  rewrite alter_absent; [done|]. by rewrite Hbody.
Qed.

Lemma try_body_no_fault (E : env) (cb : bool) (server address : string)
    (paths : list string) (w : world) :
  (∀ s, fault E s = None) → (try_body E cb server address paths w).2 = Ret tt.
Proof.
  intros Hq.
  unfold try_body, with_tempdir, leaving_tempdir, stage_and_zip.
  unfold mbind, M_bind, bind, mret, M_ret, ret, say, step, update_job, make_host_dir,
    write_file, compress, prune_host, modify.
  rewrite !Hq.
  match goal with
  | |- context [download_paths E cb server ?t ?n 0 paths 0 0 ?s ?x] =>
      destruct (download_paths_spec E cb server t n paths 0 0 0 s x)
        as (w1 & st & p1 & s1 & Hrun & _)
  end.
  rewrite Hrun. cbn beta iota.
  destruct (compress_loop _ _ _ _ _ _ _) as [written evs].
  reflexivity.
Qed.






(** ** Runs over a single path that the downloader skips *)



Lemma archive_name_ne_json (E : env) : archive_name E +:+ ".json" ≠ archive_name E.
Proof.
  intros H. by apply (glob_zip_ne_json (archive_name E) (archive_name E)
                         (glob_zip_stamp (stamp E))).
Qed.

Lemma written_dir_archive (E : env) (server address : string) (paths : list string)
    (processed : Z) (arcnames : list string) (d : gmap string node) :
  written_dir E server address paths processed arcnames d !! archive_name E
  = Some (Node (mtime E) (Zip arcnames)).
Proof.
  unfold written_dir.
  rewrite lookup_insert_ne by apply archive_name_ne_json. apply lookup_insert_eq.
Qed.

Lemma written_dir_metadata (E : env) (server address : string) (paths : list string)
    (processed : Z) (arcnames : list string) (d : gmap string node) :
  written_dir E server address paths processed arcnames d
    !! (archive_name E +:+ ".json")
  = Some (Node (mtime E) (Json (metadata_of E server address paths processed))).
Proof. unfold written_dir. apply lookup_insert_eq. Qed.


(** ** Excluded files *)




(** ** A run whose analysis counted no file *)



(** ** Counters of a completed run *)




(** ** Listing and deleting *)

Lemma elem_of_glob (pattern : string → bool) (d : gmap string node)
    (e : string * node) :
  e ∈ glob pattern d ↔ pattern e.1 = true ∧ d !! e.1 = Some e.2.
Proof.
  unfold glob. rewrite list_elem_of_filter. destruct e as [f n]. cbn.
  by rewrite elem_of_map_to_list.
Qed.

Lemma elem_of_get_backups (root : gmap string (gmap string node)) (b : backup) :
  b ∈ get_backups None root ↔
  ∃ server d f n,
    root !! server = Some d ∧ glob_json f = true ∧ d !! f = Some n ∧
    body n = Json (meta b) ∧ is_Some (d !! backup_name (meta b)) ∧
    file_path b = (server, backup_name (meta b)).
Proof.
  unfold get_backups. rewrite sort_reverse_perm, list_elem_of_bind. split.
  - intros ([server d] & Hb & Hd%elem_of_map_to_list). cbn in Hb.
    apply list_elem_of_omap in Hb as ([f n] & [Hg Hf]%elem_of_glob & Hload).
    unfold load_backup, file_exists in Hload. cbn in *.
    destruct (body n) as [|m|] eqn:Hbody; try discriminate.
    case_bool_decide as Hex; [|discriminate]. injection Hload as <-.
    exists server, d, f, n. cbn. by rewrite Hbody.
  - intros (server & d & f & n & Hd & Hg & Hf & Hbody & Hex & Hpath).
    exists (server, d). split; [|by apply elem_of_map_to_list].
    cbn. apply list_elem_of_omap. exists (f, n). split; [by apply elem_of_glob|].
    unfold load_backup, file_exists. cbn. rewrite Hbody.
    rewrite bool_decide_eq_true_2 by done. destruct b as [m p]. cbn in *.
    by rewrite Hpath.
Qed.

Lemma find_matching {A : Type} (p : A → bool) (l : list A) :
  (List.find p l = None ∧ ∀ x, x ∈ l → p x = false) ∨
  (∃ x, List.find p l = Some x ∧ x ∈ l ∧ p x = true).
Proof.
  destruct (List.find p l) as [x|] eqn:H.
  - right. exists x. apply find_some in H as [Hin Hp].
    by rewrite list_elem_of_In.
  - left. split; [done|]. intros x Hx. apply (find_none _ _ H).
    by apply list_elem_of_In.
Qed.

Lemma in_dir_present {A : Type} (server : string) (m : M (gmap string node) A)
    (root : gmap string (gmap string node)) (d : gmap string node) :
  root !! server = Some d →
  in_dir server m root = (<[server := (m d).1]> root, (m d).2).
Proof. intros H. unfold in_dir. rewrite H. by destruct (m d). Qed.

(** What [delete_backup] does on a paired backup root when nothing
    refuses a deletion: either no listed backup has the identifier and
    nothing changes, or the archive and the record of one backup with
    that identifier are removed from its host directory. *)
Lemma delete_backup_effect (refuses : string → option string) (backup_id : string)
    (root : gmap string (gmap string node)) :
  paired_root root → (∀ name, refuses name = None) →
  ((∀ b, b ∈ get_backups None root → created_at (meta b) ≠ backup_id) ∧
   delete_backup refuses backup_id root = (root, (false, "Backup not found"))) ∨
  (∃ server d a m,
     recorded root backup_id server d (a +:+ ".json") m ∧
     glob_zip a = true ∧ is_Some (d !! a) ∧
     delete_backup refuses backup_id root
     = (<[server := delete (a +:+ ".json") (delete a d)]> root,
        (true, "Backup deleted successfully"))).
Proof.
  intros Hp Hq. unfold delete_backup.
  destruct (find_matching (λ b, bool_decide (created_at (meta b) = backup_id))
              (get_backups None root)) as [[-> Hnone]|(b & -> & Hb & Hid)].
  - left. split; [|done]. intros b Hb. specialize (Hnone b Hb).
    by apply bool_decide_eq_false in Hnone.
  - right. apply bool_decide_eq_true in Hid.
    apply elem_of_get_backups in Hb
      as (server & d & f & n & Hd & Hg & Hf & Hbody & Hex & Hpath).
    destruct (Hp server d Hd) as [_ Hrec].
    destruct (Hrec f n Hg Hf) as (a & -> & Hga & Ha & Hname).
    specialize (Hname _ Hbody). rewrite Hpath, Hname.
    exists server, d, a, (meta b). split.
    { split; [done|]. split; [done|]. split; [eauto|done]. }
    split; [done|]. split; [done|].
    rewrite (in_dir_present _ _ _ d Hd).
    unfold mbind, M_bind, bind.
    rewrite unlink_if_exists_ok by done.
    rewrite glob_zip_with_suffix by done.
    rewrite unlink_if_exists_ok by done. done.
Qed.

(** ** Paired directories *)

Lemma json_ne_glob_zip (a b : string) : glob_zip a = true → b +:+ ".json" ≠ a.
Proof. intros Hg E. by apply (glob_zip_ne_json a b Hg). Qed.

Lemma paired_empty : paired ∅.
Proof.
  split.
  - intros a _ [n Hn]. by rewrite lookup_empty in Hn.
  - intros f n _ Hn. by rewrite lookup_empty in Hn.
Qed.

Lemma paired_wipe (old : list (Z * string)) (d : gmap string node) :
  paired d → (∀ b, b ∈ old → glob_zip b.2 = true) → paired (wipe old d).
Proof.
  intros [Hp1 Hp2] Hold. split.
  - intros a Hg [n Hn]. pose proof (wipe_lookup_mono _ _ _ _ Hn) as Hd.
    destruct (Hp1 a Hg (mk_is_Some _ _ Hd)) as [x Hx].
    exists x. rewrite lookup_wipe_ne; [done| |].
    + intros (b & E & Hb)%list_elem_of_fmap.
      by apply (glob_zip_ne_json b.2 a (Hold b Hb)).
    + intros b Hb E%app_json_inj. subst a.
      destruct (lookup_wipe_gone old d b Hb) as [Hgone _]. congruence.
  - intros f n Hg Hn. pose proof (wipe_lookup_mono _ _ _ _ Hn) as Hd.
    destruct (Hp2 f n Hg Hd) as (a & -> & Hga & [x Hx] & Hname).
    exists a. split; [done|]. split; [done|]. split; [|done].
    exists x. rewrite lookup_wipe_ne; [done| |].
    + intros (b & E & Hb)%list_elem_of_fmap. subst a.
      destruct (lookup_wipe_gone old d b Hb) as [_ Hgone]. congruence.
    + intros b Hb. by apply glob_zip_ne_json.
Qed.

Lemma wipe_one (m : Z) (a : string) (d : gmap string node) :
  wipe [(m, a)] d = delete (a +:+ ".json") (delete a d).
Proof. done. Qed.

Lemma paired_root_insert (server : string) (d : gmap string node)
    (root : gmap string (gmap string node)) :
  paired_root root → paired d → paired_root (<[server := d]> root).
Proof.
  intros Hr Hd s d' [[-> <-]|[_ H]]%lookup_insert_Some; [done|]. by apply (Hr s).
Qed.

Lemma paired_host_dir (server : string) (root : gmap string (gmap string node)) :
  paired_root root → paired (host_dir server root).
Proof.
  intros Hr. unfold host_dir. destruct (root !! server) as [d|] eqn:H; cbn.
  - by apply (Hr server).
  - apply paired_empty.
Qed.

Lemma paired_written_dir (E : env) (server address : string) (paths : list string)
    (processed : Z) (arcnames : list string) (d : gmap string node) :
  paired d → paired (written_dir E server address paths processed arcnames d).
Proof.
  intros [Hp1 Hp2]. pose proof (glob_zip_stamp (stamp E)) as HA.
  fold (archive_name E) in HA. unfold written_dir. split.
  - intros a Hg Ha. destruct (decide (a = archive_name E)) as [->|Hne].
    { rewrite lookup_insert_eq. eauto. }
    rewrite lookup_insert_ne in Ha by (by apply json_ne_glob_zip).
    rewrite lookup_insert_ne in Ha by done.
    destruct (Hp1 a Hg Ha) as [x Hx].
    destruct (decide (archive_name E +:+ ".json" = a +:+ ".json")) as [E'|Hne'].
    { rewrite E', lookup_insert_eq. eauto. }
    rewrite lookup_insert_ne by done.
    rewrite lookup_insert_ne by (by apply glob_zip_ne_json). eauto.
  - intros f n Hg Hf. destruct (decide (f = archive_name E +:+ ".json")) as [->|Hne].
    { rewrite lookup_insert_eq in Hf. injection Hf as <-.
      exists (archive_name E). split; [done|]. split; [done|]. split.
      - rewrite lookup_insert_ne by apply archive_name_ne_json.
        rewrite lookup_insert_eq. eauto.
      - intros m [= <-]. done. }
    rewrite lookup_insert_ne in Hf by done.
    assert (f ≠ archive_name E).
    { intros ->. apply glob_zip_not_json in HA. congruence. }
    rewrite lookup_insert_ne in Hf by done.
    destruct (Hp2 f n Hg Hf) as (a & -> & Hga & Ha & Hname).
    exists a. split; [done|]. split; [done|]. split; [|done].
    rewrite lookup_insert_ne by (by apply json_ne_glob_zip).
    destruct (decide (archive_name E = a)) as [<-|Hne'].
    + rewrite lookup_insert_eq. eauto.
    + by rewrite lookup_insert_ne.
Qed.

Lemma cleanup_quiet (refuses : string → option string) (k : Z) (d : gmap string node) :
  (∀ name, refuses name = None) →
  _cleanup_old_backups refuses k d
  = (wipe (slice_from k (sort_reverse tuple_lt (backup_files d))) d, []).
Proof.
  intros Hq. unfold _cleanup_old_backups.
  destruct (slice_from_drop k (sort_reverse tuple_lt (backup_files d))) as [n ->].
  rewrite remove_old_ok; [done| | |].
  - intros a _. by rewrite !Hq.
  - intros a Ha. by apply (elem_of_sorted_drop d n).
  - apply NoDup_sorted_drop.
Qed.

Lemma paired_cleanup (refuses : string → option string) (k : Z) (d : gmap string node) :
  (∀ name, refuses name = None) → paired d →
  paired (_cleanup_old_backups refuses k d).1.
Proof.
  intros Hq Hp. rewrite cleanup_quiet by done. cbn [fst].
  apply paired_wipe; [done|]. intros b Hb.
  destruct (slice_from_drop k (sort_reverse tuple_lt (backup_files d))) as [n Hn].
  rewrite Hn in Hb. by destruct (elem_of_sorted_drop d n b Hb).
Qed.

Lemma paired_one_backup : paired_root one_backup.
Proof.
  unfold one_backup. intros server d [<- <-]%lookup_singleton_Some.
  apply paired_written_dir, paired_empty.
Qed.

Lemma recorded_one_backup :
  recorded one_backup "2024-01-01T12:00:03" "web1"
    (written_dir plain_env "web1" "10.0.0.1" ["/etc/hosts"] 1 ["hosts"] ∅)
    (archive_name plain_env +:+ ".json")
    (metadata_of plain_env "web1" "10.0.0.1" ["/etc/hosts"] 1).
Proof.
  split; [unfold one_backup; apply lookup_singleton_eq|]. split.
  { apply glob_zip_json, glob_zip_stamp. }
  split; [|reflexivity]. eexists. split; [apply written_dir_metadata|reflexivity].
Qed.

(** ** The pairing of archives and metadata records *)

Lemma quiet_step_paired (w w' : world) :
  quiet_step w w' → paired_root (backup_dir w) → paired_root (backup_dir w').
Proof.
  intros Hstep Hp. destruct Hstep as [E cb server address paths w Hq Hret
                                     |refuses backup_id w Hq
                                     |refuses keep_count server d w Hq Hd].
  - unfold _perform_backup.
    destruct (try_body E cb server address paths w) as [w' r] eqn:Hrun.
    cbn [snd] in Hret. subst r.
    apply try_body_ret in Hrun as (w0 & w1 & st & p1 & s1 & _ & _ & _ & _ & _ & Hd' & _).
    rewrite Hd'. apply paired_root_insert; [done|].
    apply paired_cleanup; [done|]. by apply paired_written_dir, paired_host_dir.
  - cbn [backup_dir with_root].
    destruct (delete_backup_effect refuses backup_id (backup_dir w) Hp Hq)
      as [[_ ->]|(server & d & a & m & (Hd & _) & Hg & _ & ->)]; [done|].
    cbn [fst]. apply paired_root_insert; [done|].
    rewrite <- (wipe_one 0). apply paired_wipe; [by apply (Hp server)|].
    by intros b ->%list_elem_of_singleton.
  - cbn [backup_dir with_root]. apply paired_root_insert; [done|].
    apply paired_cleanup; [done|]. by apply (Hp server).
Qed.

(** C4, as the code has it.  Starting from a backup root whose archives
    and metadata records are paired, any sequence of pipeline runs that
    end normally, [delete_backup] calls and prunings in which no deletion
    is refused leaves them paired: every archive has the record of the
    same base name, and every record has its archive. *)
Theorem pairing_preserved (w w' : world) :
  paired_root (backup_dir w) → rtc quiet_step w w' → paired_root (backup_dir w').
Proof.
  intros Hp Hsteps. induction Hsteps as [w|w w1 w' Hstep _ IH]; [done|].
  apply IH. by apply (quiet_step_paired w).
Qed.

Lemma paired_root_empty : paired_root ∅.
Proof. intros server d H. by rewrite lookup_empty in H. Qed.

Lemma pairing_preserved_witness :
  (paired_root (backup_dir (started "web1")) ∧
   rtc quiet_step (started "web1")
     (_perform_backup plain_env true "web1" "10.0.0.1" ["/etc/hosts"]
        (started "web1"))) ∧
  paired_root (backup_dir (_perform_backup plain_env true "web1" "10.0.0.1"
                             ["/etc/hosts"] (started "web1"))).
Proof.
  assert (H1 : paired_root (backup_dir (started "web1"))) by exact paired_root_empty.
  assert (H2 : (try_body plain_env true "web1" "10.0.0.1" ["/etc/hosts"]
                  (started "web1")).2 = Ret tt) by (vm_compute; reflexivity).
  assert (H3 : rtc quiet_step (started "web1")
                 (_perform_backup plain_env true "web1" "10.0.0.1" ["/etc/hosts"]
                    (started "web1"))).
  { apply rtc_once. apply step_run; [intros name; reflexivity|exact H2]. }
  split; [exact (conj H1 H3)|].
  exact (pairing_preserved _ _ H1 H3).
Defined.

(** C4, counterexample.  The archive is written before its metadata
    record.  When the record cannot be created the run ends ['failed']
    and the archive stays on disk without a record. *)
Lemma failed_run_leaves_orphan_archive :
  paired_root (backup_dir (started "web1")) ∧
  (∃ j', active_backups (_perform_backup full_disk_env true "web1" "10.0.0.1"
                           ["/etc/hosts"] (started "web1")) !! "web1" = Some j' ∧
         job_status j' = failed) ∧
  (∃ d, backup_dir (_perform_backup full_disk_env true "web1" "10.0.0.1"
                      ["/etc/hosts"] (started "web1")) !! "web1" = Some d ∧
        glob_zip "backup_20240101_120000.zip" = true ∧
        d !! "backup_20240101_120000.zip" = Some (Node 100 (Zip ["hosts"])) ∧
        d !! "backup_20240101_120000.zip.json" = None) ∧
  ¬ paired_root (backup_dir (_perform_backup full_disk_env true "web1" "10.0.0.1"
                               ["/etc/hosts"] (started "web1"))).
Proof.
  assert (Hd : ∃ d, backup_dir (_perform_backup full_disk_env true "web1" "10.0.0.1"
                      ["/etc/hosts"] (started "web1")) !! "web1" = Some d ∧
        glob_zip "backup_20240101_120000.zip" = true ∧
        d !! "backup_20240101_120000.zip" = Some (Node 100 (Zip ["hosts"])) ∧
        d !! "backup_20240101_120000.zip.json" = None).
  { eexists. split; [vm_compute; reflexivity|]. vm_compute. repeat split. }
  split; [exact paired_root_empty|]. split.
  { eexists. split; [vm_compute; reflexivity|]. reflexivity. }
  split; [exact Hd|].
  destruct Hd as (d & Hd & Hg & Ha & Hm). intros Hp.
  destruct (Hp "web1" d Hd) as [Hp1 _].
  destruct (Hp1 _ Hg (mk_is_Some _ _ Ha)) as [x Hx].
  change ("backup_20240101_120000.zip" +:+ ".json")
    with "backup_20240101_120000.zip.json" in Hx.
  congruence.
Qed.

(** * Further properties *)

(** ** The downloader: events, staging tree and byte count *)

Lemma emit_prefix (cb : bool) (e : event) (l : list event) :
  l `prefix_of` emit cb e l.
Proof. destruct cb; cbn; [by apply prefix_app_r|done]. Qed.

Ltac ev_prefix :=
  first [ apply emit_prefix | by apply prefix_app_r | done
        | etrans; [eassumption|]; first [apply emit_prefix | by apply prefix_app_r] ].

Lemma kept_refl (st : gmap (list string) lnode) : kept st st.
Proof. by intros k. Qed.

Lemma kept_trans (st1 st2 st3 : gmap (list string) lnode) :
  kept st1 st2 → kept st2 st3 → kept st1 st3.
Proof.
  intros H12 H23 k. destruct (H12 k) as [Ha Hb], (H23 k) as [Hc Hd]. split; auto.
Qed.

Lemma kept_sftp_get (size : Z) (get : transfer) (local_path : list string)
    (st : gmap (list string) lnode) :
  kept st (sftp_get size get local_path st).1.
Proof.
  unfold sftp_get. destruct (st !! local_path) as [[n|]|] eqn:H;
    [|apply kept_refl|]; (destruct get as [|msg [n'|]]; cbn [fst];
      [|..|apply kept_refl]); intros k;
    (destruct (decide (local_path = k)) as [<-|Hne];
      [rewrite lookup_insert_eq, H; split; [eauto|done]
      |rewrite lookup_insert_ne by done; done]).
Qed.

Lemma kept_mkdir (local_path : list string) (st : gmap (list string) lnode) :
  kept st (mkdir_exist_ok local_path st).1.
Proof.
  unfold mkdir_exist_ok. destruct (st !! local_path) as [[n|]|] eqn:H;
    cbn [fst]; try apply kept_refl.
  intros k. destruct (decide (local_path = k)) as [<-|Hne].
  - rewrite lookup_insert_eq, H. split; [eauto|done].
  - by rewrite lookup_insert_ne.
Qed.

Lemma deliver_prefix (cb : bool) (e : event) (d : dstate) :
  delivered d `prefix_of` delivered (deliver cb e d).
Proof. apply emit_prefix. Qed.

Lemma deliver_staging (cb : bool) (e : event) (d : dstate) :
  staging (deliver cb e d) = staging d.
Proof. done. Qed.

Lemma download_adds :
  (∀ r cb total path base processed d,
     let d' := (_download_path_with_progress cb total path r base processed d).1 in
     delivered d `prefix_of` delivered d' ∧ kept (staging d) (staging d')) ∧
  (∀ files cb total path base processed downloaded size d,
     let d' := (download_children cb total path files base processed downloaded
                  size d).1 in
     delivered d `prefix_of` delivered d' ∧ kept (staging d) (staging d')).
Proof.
  apply remote_mutind.
  - intros msg cb total path base processed d. cbn.
    split; [ev_prefix|apply kept_refl].
  - intros cb total path base processed d. cbn.
    split; [ev_prefix|apply kept_refl].
  - intros size get cb total path base processed d.
    cbn [_download_path_with_progress].
    destruct (excluded path); [cbn; split; [ev_prefix|apply kept_refl]|].
    assert (Hget : ∀ d1 : dstate,
      delivered d `prefix_of` delivered d1 → staging d1 = staging d →
      let d' := (match sftp_get size get (join base (basename path)) (staging d1) with
                 | (st, Ret file_size) =>
                     (deliver cb (note success ("Downloaded: " +:+ path +:+ " ("
                                                  +:+ str_Z file_size +:+ " bytes)"))
                        (DState st (delivered d1)), (1, file_size))
                 | (st, Exn msg) =>
                     (deliver cb (note warning ("Skipped locked file: " +:+ path
                                                  +:+ " - " +:+ msg))
                        (DState st (delivered d1)), (0, 0))
                 end).1 in
      delivered d `prefix_of` delivered d' ∧ kept (staging d) (staging d')).
    { intros d1 Hpre Hst.
      pose proof (kept_sftp_get size get (join base (basename path)) (staging d1)) as Hk.
      rewrite Hst in Hk at 1.
      destruct (sftp_get _ _ _ _) as [st [n|msg]]; cbn in *;
        (split; [|done]); ev_prefix. }
    destruct cb.
    + destruct (floordiv _ _) as [q|msg].
      * apply Hget; [ev_prefix|done].
      * cbn. split; [ev_prefix|apply kept_refl].
    + apply Hget; done.
  - intros files IH cb total path base processed d.
    cbn [_download_path_with_progress].
    pose proof (kept_mkdir (join base (basename path)) (staging d)) as Hk.
    destruct (mkdir_exist_ok _ _) as [st [[]|msg]]; cbn [fst] in Hk.
    + destruct (IH cb total path (join base (basename path)) processed 0 0
                  (DState st (delivered d))) as [Hp Hs]. cbn in Hp, Hs.
      split; [done|]. by apply (kept_trans _ st).
    + cbn. split; [ev_prefix|done].
  - intros msg cb total path base processed d.
    cbn [_download_path_with_progress].
    pose proof (kept_mkdir (join base (basename path)) (staging d)) as Hk.
    destruct (mkdir_exist_ok _ _) as [st [[]|msg']]; cbn [fst] in Hk; cbn;
      (split; [ev_prefix|done]).
  - intros cb total path base processed downloaded size d. cbn.
    split; [done|apply kept_refl].
  - intros name r IHr rest IHrest cb total path base processed downloaded size d.
    cbn [download_children].
    destruct (IHr cb total (path +:+ "/" +:+ name) base (processed + downloaded) d)
      as [Hp Hs].
    destruct (_download_path_with_progress _ _ _ r _ _ _) as [d1 [sub_files sub_size]].
    cbn [fst] in Hp, Hs.
    destruct (IHrest cb total path base processed (downloaded + sub_files)
                (size + sub_size) d1) as [Hp' Hs'].
    split; [by etrans|by apply (kept_trans _ (staging d1))].
Qed.

(** The downloader only adds to what it is given: the events delivered
    before the call are a prefix of those delivered after it, every
    entry of the staging tree is still there, and no staged directory
    has become a file. *)
Theorem download_only_adds :
  (∀ r cb total path base processed d,
     let d' := (_download_path_with_progress cb total path r base processed d).1 in
     delivered d `prefix_of` delivered d' ∧ kept (staging d) (staging d')) ∧
  (∀ files cb total path base processed downloaded size d,
     let d' := (download_children cb total path files base processed downloaded
                  size d).1 in
     delivered d `prefix_of` delivered d' ∧ kept (staging d) (staging d')).
Proof. exact download_adds. Qed.

(** The byte count returned is that of transferred files only: when no
    regular file has a negative size it lies between [0] and the bytes of
    the regular files of the tree. *)
Theorem download_size_bounds :
  (∀ r cb total path base processed d,
     sized r →
     0 ≤ (_download_path_with_progress cb total path r base processed d).2.2
       ≤ volume r) ∧
  (∀ files cb total path base processed downloaded size d,
     sized_in files →
     size
     ≤ (download_children cb total path files base processed downloaded size d).2.2
     ≤ size + volume_in files).
Proof.
  apply remote_mutind.
  - intros; cbn; lia.
  - intros; cbn; lia.
  - intros size get cb total path base processed d Hs.
    cbn [_download_path_with_progress volume]. cbn in Hs.
    assert (Hget : ∀ n st, (sftp_get size get (join base (basename path)) st).2 = Ret n →
                           n = size).
    { intros n st. unfold sftp_get.
      destruct (st !! _) as [[?|]|]; destruct get as [|? [?|]]; cbn; congruence. }
    destruct (excluded path); [cbn; lia|].
    destruct cb.
    + destruct (floordiv _ _); [|cbn; lia].
      destruct (sftp_get _ _ _ _) as [st [n|msg]] eqn:E; cbn; [|lia].
      rewrite (Hget n _ (f_equal snd E)). lia.
    + destruct (sftp_get _ _ _ _) as [st [n|msg]] eqn:E; cbn; [|lia].
      rewrite (Hget n _ (f_equal snd E)). lia.
  - intros files IH cb total path base processed d Hs.
    cbn [_download_path_with_progress volume]. cbn in Hs.
    destruct (mkdir_exist_ok _ _) as [st [[]|msg]].
    + specialize (IH cb total path (join base (basename path)) processed 0 0
                    (DState st (delivered d)) Hs). lia.
    + cbn. specialize (IH cb total path base processed 0 0 d Hs). lia.
  - intros msg cb total path base processed d _.
    cbn [_download_path_with_progress volume].
    destruct (mkdir_exist_ok _ _) as [st [[]|msg']]; cbn; lia.
  - intros; cbn; lia.
  - intros name r IHr rest IHrest cb total path base processed downloaded size d
      [Hs Hs'].
    cbn [download_children volume_in].
    specialize (IHr cb total (path +:+ "/" +:+ name) base (processed + downloaded) d Hs).
    destruct (_download_path_with_progress _ _ _ r _ _ _) as [d1 [sub_files sub_size]].
    cbn [snd fst] in IHr.
    specialize (IHrest cb total path base processed (downloaded + sub_files)
                  (size + sub_size) d1 Hs').
    lia.
Qed.

(** The zero-total failure of the progress computation needs a sink:
    with none attached the division is never evaluated, and a regular
    file that is not excluded is transferred for every value of
    [total_files], [0] included, unless a directory is in its place in
    the staging tree. *)
Theorem download_file_without_sink (total size processed : Z) (path : string)
    (base : list string) (d : dstate) :
  excluded path = false →
  staging d !! join base (basename path) ≠ Some LDir →
  _download_path_with_progress false total path (RFile size GetOk) base processed d
  = (DState (<[join base (basename path) := LFile size]> (staging d)) (delivered d),
     (1, size)).
Proof.
  intros Hx Hfree. cbn [_download_path_with_progress]. rewrite Hx.
  unfold sftp_get. by destruct (staging d !! _) as [[n|]|].
Qed.

Lemma download_file_without_sink_witness :
  (excluded "/etc/hosts" = false ∧
   (DState {[ [] := LDir ]} []).(staging) !! join [] (basename "/etc/hosts")
   ≠ Some LDir) ∧
  (_download_path_with_progress false 0 "/etc/hosts" (RFile 120 GetOk) [] 0
     (DState {[ [] := LDir ]} [])).2 = (1, 120).
Proof.
  assert (H1 : excluded "/etc/hosts" = false) by (vm_compute; reflexivity).
  assert (H2 : (DState {[ [] := LDir ]} []).(staging) !! join [] (basename "/etc/hosts")
               ≠ Some LDir) by (vm_compute; discriminate).
  split; [exact (conj H1 H2)|].
  exact (f_equal snd (download_file_without_sink 0 120 0 "/etc/hosts" []
                        (DState {[ [] := LDir ]} []) H1 H2)).
Defined.

Lemma download_size_bounds_witness :
  sized cache_dir ∧
  0 ≤ (_download_path_with_progress true 1 "/srv/cache.db" cache_dir [] 0
         (DState {[ [] := LDir ]} [])).2.2 ≤ volume cache_dir.
Proof.
  assert (H : sized cache_dir) by (cbn; lia).
  split; [exact H|].
  exact (proj1 download_size_bounds cache_dir true 1 "/srv/cache.db" [] 0
           (DState {[ [] := LDir ]} []) H).
Defined.

(** ** The archiver *)

Lemma compress_loop_written (E : env) (cb : bool) (n : Z) (files : list (list string)) :
  ∀ i written evs,
    (compress_loop E cb n i files written evs).1
    = written ++ filter (λ a, zip_refuses E a = None) (arcname <$> files).
Proof.
  induction files as [|f files IH]; intros i written evs; cbn [compress_loop].
  - cbn. by rewrite app_nil_r.
  - cbn [fmap list_fmap]. rewrite filter_cons.
    destruct (zip_refuses E (arcname f)) as [msg|] eqn:Hz.
    + rewrite IH. by rewrite decide_False.
    + rewrite IH, decide_True by done. by rewrite <- app_assoc.
Qed.

(** The entries of the archive are the staged files whose write is not
    refused, in the order of the walk: a file that cannot be added is
    left out, the others are all written, and the archiver does not
    raise. *)
Theorem archive_holds_unrefused_files (E : env) (cb : bool)
    (files : list (list string)) (w : world) :
  (compress E cb files w).2
  = Ret (filter (λ a, zip_refuses E a = None) (arcname <$> files)).
Proof.
  unfold compress.
  pose proof (compress_loop_written E cb (Z.of_nat (length files)) files 0 []
                (events w)) as H.
  destruct (compress_loop _ _ _ _ _ _ _) as [written evs]. cbn in *. by rewrite H.
Qed.

Lemma compress_loop_events (E : env) (cb : bool) (n : Z) (files : list (list string)) :
  ∀ i written evs,
    0 ≤ i → i + Z.of_nat (length files) ≤ n →
    ∃ new,
      (compress_loop E cb n i files written evs).2 = evs ++ new ∧
      (cb = false → new = []) ∧
      Forall (λ e, match ev_progress e with
                   | Some p => ev_type e = info ∧ 80 ≤ p < 95
                   | None => ev_type e = warning
                   end) new.
Proof.
  induction files as [|f files IH]; intros i written evs Hi Hn; cbn [compress_loop].
  - exists []. cbn. by rewrite app_nil_r.
  - cbn [length] in Hn.
    assert (Hp : 80 ≤ 80 + i * 15 / n < 95).
    { assert (0 ≤ i * 15 / n) by (apply Z.div_pos; lia).
      assert (i * 15 / n < 15) by (apply Z.div_lt_upper_bound; lia). lia. }
    destruct (zip_refuses E (arcname f)) as [msg|].
    + destruct (IH (i + 1) written
                  (emit cb (note warning ("Skipped file during compression: "
                                            +:+ arcname f +:+ " - " +:+ msg)) evs))
        as (new & -> & Hcb & Hall); [lia..|].
      destruct cb; cbn [emit].
      * eexists. rewrite <- app_assoc. split; [done|]. split; [done|].
        constructor; [done|exact Hall].
      * exists new. split; [done|]. split; [done|exact Hall].
    + case_decide.
      * destruct (IH (i + 1) (written ++ [arcname f])
                    (emit cb (Event info ("Compressing: " +:+ arcname f)
                                (Some (80 + i * 15 / n)) (Some (arcname f)) None) evs))
          as (new & -> & Hcb & Hall); [lia..|].
        destruct cb; cbn [emit].
        -- eexists. rewrite <- app_assoc. split; [done|]. split; [done|].
           constructor; [done|exact Hall].
        -- exists new. split; [done|]. split; [done|exact Hall].
      * apply IH; lia.
Qed.

(** During compression a sink receives only warnings about skipped
    files, without a progress value, and ['Compressing'] events whose
    progress lies in the band from 80 up to, but not including, 95;
    the events delivered before are kept, and nothing is delivered when
    no sink is attached. *)
Theorem compress_events_in_band (E : env) (cb : bool) (files : list (list string))
    (w : world) :
  ∃ new,
    events (compress E cb files w).1 = events w ++ new ∧
    (cb = false → new = []) ∧
    Forall (λ e, match ev_progress e with
                 | Some p => ev_type e = info ∧ 80 ≤ p < 95
                 | None => ev_type e = warning
                 end) new.
Proof.
  unfold compress.
  destruct (compress_loop_events E cb (Z.of_nat (length files)) files 0 [] (events w))
    as (new & Hev & Hcb & Hall); [lia..|].
  destruct (compress_loop _ _ _ _ _ _ _) as [written evs]. cbn in *.
  exists new. by rewrite Hev.
Qed.

(** ** The pipeline: what a run leaves alone *)

Lemma download_paths_events (E : env) (cb : bool) (server : string) (total n : Z)
    (paths : list string) :
  ∀ (i p0 s0 : Z) (st : gmap (list string) lnode) (w : world),
    events w `prefix_of` events (download_paths E cb server total n i paths p0 s0 st w).1.
Proof.
  induction paths as [|path rest IH]; intros i p0 s0 st w; [done|].
  cbn [download_paths]. unfold mbind, M_bind, bind, say, update_job, modify, download.
  match goal with
  | |- context [_download_path_with_progress cb total path ?r [] p0 ?d] =>
      pose proof (proj1 (proj1 download_adds r cb total path [] p0 d)) as Hp
  end.
  cbn zeta in Hp.
  destruct (_download_path_with_progress _ _ _ _ _ _ _) as [d [files size]].
  cbn [fst delivered] in Hp. cbn beta iota.
  match goal with
  | |- context [download_paths E cb server total n (i + 1) rest ?p ?s ?st' ?w'] =>
      pose proof (IH (i + 1) p s st' w') as IH1
  end.
  cbn [events with_events with_jobs] in IH1.
  etrans; [|exact IH1]. etrans; [|exact Hp]. apply emit_prefix.
Qed.

Lemma alter_same (g : job → job) (server : string) (jobs : gmap string job) :
  ∃ g', jobs = alter g' server jobs.
Proof. exists id. symmetry. by apply alter_id. Qed.

Lemma host_dir_other (server s : string) (d : gmap string node)
    (root : gmap string (gmap string node)) :
  s ≠ server → <[server := d]> root !! s = root !! s.
Proof. intros H. by rewrite lookup_insert_ne. Qed.

Lemma mkdir_other (server s : string) (root : gmap string (gmap string node)) :
  s ≠ server →
  match root !! server with Some _ => root | None => <[server := ∅]> root end !! s
  = root !! s.
Proof. intros H. destruct (root !! server); [done|]. by rewrite lookup_insert_ne. Qed.

(** The six facts of [try_body_frame] for a world reached in one branch. *)
Ltac frame_close Hj Hd Hh Hev Ho :=
  cbn [fst snd];
  split;
  [ cbn [active_backups with_jobs with_events with_root];
    rewrite ?Hj, ?alter_alter_eq;
    first [ by eexists | by apply (alter_same id) ]
  | split;
    [ intros ? ?;
      cbn [backup_dir with_jobs with_events with_root];
      rewrite ?lookup_insert_ne by done;
      first [ by apply Hd | by apply mkdir_other | done ]
    | split;
      [ cbn [events with_jobs with_events with_root];
        repeat (etrans; [|apply emit_prefix]);
        first [ exact Hev | done ]
      | split;
        [ cbn [stdout with_jobs with_events with_root];
          first [ by rewrite Ho | done ]
        | split; [|intros [=]];
          intros ? ?; split;
          [ cbn [stdout with_jobs with_events with_root];
            first [ by rewrite Ho | done ]
          | intros ? ? ?;
            cbn [backup_dir with_jobs with_events with_root];
            rewrite ?host_dir_insert;
            rewrite ?lookup_insert_ne by (first [by symmetry | done]);
            first [ by rewrite Hh | by rewrite host_dir_mkdir | done ] ] ] ] ] ].

Lemma try_body_frame (E : env) (cb : bool) (server address : string)
    (paths : list string) (w : world) :
  let r := try_body E cb server address paths w in
  (∃ g, active_backups r.1 = alter g server (active_backups w)) ∧
  (∀ s, s ≠ server → backup_dir r.1 !! s = backup_dir w !! s) ∧
  events w `prefix_of` events r.1 ∧
  stdout w `prefix_of` stdout r.1 ∧
  (∀ msg, r.2 = Exn msg →
     stdout r.1 = stdout w ∧
     ∀ name, name ≠ archive_name E → name ≠ archive_name E +:+ ".json" →
       host_dir server (backup_dir r.1) !! name
       = host_dir server (backup_dir w) !! name) ∧
  (r.2 = Ret tt →
     ∃ evs processed size,
       events w `prefix_of` evs ∧
       events r.1 = emit cb (completion_event E server processed size) evs).
Proof.
  unfold completion_event, archive_name.
  unfold try_body, with_tempdir, leaving_tempdir, stage_and_zip.
  unfold mbind, M_bind, bind, mret, M_ret, ret, say, step, update_job, make_host_dir,
    write_file, compress, prune_host, modify.
  cbn zeta.
  destruct (fault E ssh_connect); [frame_close I I I I I|].
  destruct (fault E open_sftp); [frame_close I I I I I|].
  destruct (fault E mkdir_host); [frame_close I I I I I|].
  destruct (fault E make_tempdir); [frame_close I I I I I|].
  match goal with
  | |- context [download_paths E cb server ?t ?n 0 paths 0 0 ?s ?x] =>
      set (w0 := x);
      destruct (download_paths_spec E cb server t n paths 0 0 0 s w0)
        as (w1 & st & p1 & s1 & Hrun & Hd & Ho & Hj & _);
      pose proof (download_paths_events E cb server t n paths 0 0 0 s w0) as Hev
  end.
  rewrite Hrun in Hev |- *. cbn [fst] in Hev. cbn beta iota.
  assert (Hj1 : ∃ g1, active_backups w1 = alter g1 server (active_backups w)).
  { rewrite Hj. subst w0. cbn [active_backups with_jobs with_events with_root].
    destruct paths; rewrite ?alter_alter_eq; eauto. }
  destruct Hj1 as [g1 Hj1].
  assert (Hd1 : ∀ s, s ≠ server → backup_dir w1 !! s = backup_dir w !! s).
  { intros s Hs. rewrite Hd. subst w0. cbn [backup_dir with_jobs with_events with_root].
    by apply mkdir_other. }
  assert (Hh1 : host_dir server (backup_dir w1) = host_dir server (backup_dir w)).
  { rewrite Hd. subst w0. cbn [backup_dir with_jobs with_events with_root].
    apply host_dir_mkdir. }
  assert (Hev1 : events w `prefix_of` events w1).
  { etrans; [|exact Hev]. subst w0. cbn [events with_jobs with_events with_root].
    repeat (etrans; [|apply emit_prefix]). done. }
  assert (Ho1 : stdout w1 = stdout w) by (by rewrite Ho).
  clear Hrun Hd Ho Hj Hev. clearbody w0.
  destruct (fault E zip_open).
  { destruct (fault E tempdir_cleanup); frame_close Hj1 Hd1 Hh1 Hev1 Ho1. }
  cbn beta iota.
  match goal with
  | |- context [compress_loop E cb ?n 0 ?fs [] ?e] =>
      destruct (compress_loop_events E cb n fs 0 [] e) as (new & Hz & _); [lia..|]
  end.
  destruct (compress_loop _ _ _ _ _ _ _) as [written evs].
  cbn [snd] in Hz. cbn beta iota.
  assert (Hevz : events w `prefix_of` evs).
  { rewrite Hz. cbn [events with_jobs with_events with_root].
    etrans; [exact Hev1|]. etrans; [apply emit_prefix|]. by apply prefix_app_r. }
  clear Hz.
  destruct (fault E zip_close).
  { destruct (fault E tempdir_cleanup); frame_close Hj1 Hd1 Hh1 Hevz Ho1. }
  cbn beta iota.
  destruct (fault E tempdir_cleanup); [frame_close Hj1 Hd1 Hh1 Hevz Ho1|].
  destruct (fault E stat_archive); [frame_close Hj1 Hd1 Hh1 Hevz Ho1|].
  destruct (fault E metadata_open); [frame_close Hj1 Hd1 Hh1 Hevz Ho1|].
  destruct (fault E metadata_dump); [frame_close Hj1 Hd1 Hh1 Hevz Ho1|].
  destruct (fault E sftp_close); [frame_close Hj1 Hd1 Hh1 Hevz Ho1|].
  destruct (fault E ssh_close); [frame_close Hj1 Hd1 Hh1 Hevz Ho1|].
  cbn [fst snd backup_dir with_jobs with_events with_root].
  rewrite lookup_insert_eq.
  destruct (_cleanup_old_backups _ _ _) as [d' lines].
  cbn [active_backups backup_dir events stdout with_jobs with_events with_root].
  split; [rewrite Hj1, alter_alter_eq; by eexists|].
  split; [intros s Hs; rewrite !lookup_insert_ne by done; by apply Hd1|].
  split; [repeat (etrans; [|apply emit_prefix]); exact Hevz|].
  split; [rewrite Ho1; by apply prefix_app_r|].
  split; [intros msg [=]|].
  intros _. by exists evs, p1, s1.
Qed.

(** Nothing that happens on the remote side is fatal: when no stage of
    the pipeline itself raises, a run over a registered host ends
    ['completed'] for every remote tree, every answer of the count
    command and every refusal met while compressing or pruning. *)
Theorem remote_errors_are_not_fatal (E : env) (cb : bool) (server address : string)
    (paths : list string) (w : world) (j : job) :
  (∀ s, fault E s = None) → active_backups w !! server = Some j →
  ∃ j', active_backups (_perform_backup E cb server address paths w) !! server
        = Some j' ∧
        job_status j' = completed ∧ job_error j' = job_error j.
Proof.
  intros Hq Hj.
  pose proof (try_body_no_fault E cb server address paths w Hq) as Hret.
  unfold _perform_backup.
  destruct (try_body E cb server address paths w) as [w' r] eqn:Hrun.
  cbn [snd] in Hret. subst r.
  apply try_body_ret in Hrun
    as (w0 & w1 & st & p1 & s1 & Hj0 & _ & _ & Hdl & Hj' & _).
  destruct (download_paths_jobs E cb server (count_total E paths)
              (Z.of_nat (length paths)) 0 paths 0 0 {[ [] := LDir ]} w0
              (record_total (count_total E paths) j))
    as (j1 & Hj1 & _ & _ & He).
  { by rewrite Hj0, lookup_alter_eq, Hj. }
  rewrite Hdl in Hj1. cbn [fst] in Hj1.
  exists (finish (completed_now E) (backup_path E server (archive_name E)) j1).
  rewrite Hj', lookup_alter_eq, Hj1. done.
Qed.

Lemma remote_errors_are_not_fatal_witness :
  ((∀ s, fault locked_env s = None) ∧
   active_backups (started "web1") !! "web1" = Some (fresh_job "2024-01-01T12:00:00")) ∧
  ∃ j', active_backups (_perform_backup locked_env true "web1" "10.0.0.1" ["/root"]
                          (started "web1")) !! "web1" = Some j' ∧
        job_status j' = completed ∧
        job_error j' = job_error (fresh_job "2024-01-01T12:00:00").
Proof.
  assert (H1 : ∀ s, fault locked_env s = None) by (intros s; reflexivity).
  assert (H2 : active_backups (started "web1") !! "web1"
               = Some (fresh_job "2024-01-01T12:00:00")) by (vm_compute; reflexivity).
  split; [exact (conj H1 H2)|].
  exact (remote_errors_are_not_fatal locked_env true "web1" "10.0.0.1" ["/root"]
           (started "web1") (fresh_job "2024-01-01T12:00:00") H1 H2).
Defined.

(** A run that fails deletes nothing and prints one line: apart from the
    archive and the metadata record of its own time stamp, every file of
    the host directory is as it was, so in particular no older backup has
    been pruned. *)
Theorem failed_run_never_prunes (E : env) (cb : bool) (server address : string)
    (paths : list string) (w : world) (msg : string) :
  (try_body E cb server address paths w).2 = Exn msg →
  stdout (_perform_backup E cb server address paths w)
  = stdout w ++ ["Backup failed for server " +:+ server +:+ ": " +:+ msg] ∧
  ∀ name, name ≠ archive_name E → name ≠ archive_name E +:+ ".json" →
    host_dir server (backup_dir (_perform_backup E cb server address paths w)) !! name
    = host_dir server (backup_dir w) !! name.
Proof.
  intros Hexn.
  destruct (try_body_frame E cb server address paths w) as (_ & _ & _ & _ & Hf & _).
  cbn zeta in Hf. specialize (Hf msg Hexn) as [Ho Hh].
  unfold _perform_backup.
  destruct (try_body E cb server address paths w) as [w' r].
  cbn [fst snd] in *. subst r.
  cbn [stdout backup_dir with_jobs with_events print].
  by rewrite Ho.
Qed.

Lemma failed_run_never_prunes_witness :
  (try_body full_disk_env true "web1" "10.0.0.1" ["/etc/hosts"]
     (World (active_backups (started "web1")) {[ "web1" := old_dir ]} [] [])).2
  = Exn "No space left on device" ∧
  host_dir "web1"
    (backup_dir (_perform_backup full_disk_env true "web1" "10.0.0.1" ["/etc/hosts"]
                   (World (active_backups (started "web1")) {[ "web1" := old_dir ]}
                      [] []))) !! "backup_20240101_000000.zip"
  = host_dir "web1" {[ "web1" := old_dir ]} !! "backup_20240101_000000.zip".
Proof.
  assert (H : (try_body full_disk_env true "web1" "10.0.0.1" ["/etc/hosts"]
                 (World (active_backups (started "web1")) {[ "web1" := old_dir ]}
                    [] [])).2
              = Exn "No space left on device") by (vm_compute; reflexivity).
  assert (N1 : "backup_20240101_000000.zip" ≠ archive_name full_disk_env)
    by discriminate.
  assert (N2 : "backup_20240101_000000.zip" ≠ archive_name full_disk_env +:+ ".json")
    by discriminate.
  split; [exact H|].
  exact (proj2 (failed_run_never_prunes full_disk_env true "web1" "10.0.0.1"
                  ["/etc/hosts"]
                  (World (active_backups (started "web1")) {[ "web1" := old_dir ]} [] [])
                  "No space left on device" H)
           "backup_20240101_000000.zip" N1 N2).
Defined.

(** With a sink attached, a run keeps every event delivered before it and
    ends with exactly one terminal event: the completion event with
    progress 100 and the path of the archive when the run ends normally,
    the error event with the failure message when it does not. *)
Theorem perform_backup_last_event (E : env) (server address : string)
    (paths : list string) (w : world) :
  ∃ new e,
    events (_perform_backup E true server address paths w) = events w ++ new ++ [e] ∧
    match (try_body E true server address paths w).2 with
    | Ret _ => ∃ processed size, e = completion_event E server processed size
    | Exn msg => e = note error ("Backup failed for server " +:+ server +:+ ": " +:+ msg)
    end.
Proof.
  destruct (try_body_frame E true server address paths w)
    as (_ & _ & Hev & _ & _ & Hret).
  cbn zeta in Hev, Hret. unfold _perform_backup.
  destruct (try_body E true server address paths w) as [w' [[]|msg]];
    cbn [fst snd] in *.
  - destruct (Hret eq_refl) as (evs & p & s & [new Hnew] & He).
    exists new, (completion_event E server p s). split; [|by eexists _, _].
    rewrite He, Hnew. cbn [emit]. by rewrite <- app_assoc.
  - destruct Hev as [new Hnew].
    exists new, (note error ("Backup failed for server " +:+ server +:+ ": " +:+ msg)).
    split; [|done].
    cbn [events with_jobs with_events print emit]. rewrite Hnew.
    by rewrite <- app_assoc.
Qed.

(** Nothing ever removes a record of the live-job dictionary: over any
    sequence of calls of [start_backup] and runs of the pipeline a host
    that has a record keeps one, so every later request to start a backup
    of that host is refused. *)
Theorem record_is_never_removed (w w' : world) (server : string) :
  rtc life_step w w' → is_Some (active_backups w !! server) →
  is_Some (active_backups w' !! server) ∧
  ∀ now, start_backup now server (active_backups w')
         = (active_backups w', (false, "Backup already in progress for this server")).
Proof.
  intros Hsteps Hin.
  assert (H : is_Some (active_backups w' !! server)).
  { induction Hsteps as [w|w w1 w' Hstep _ IH]; [done|]. apply IH. clear IH.
    destruct Hstep as [now s w|E cb s address paths w].
    - cbn [active_backups with_jobs]. unfold start_backup.
      destruct (active_backups w !! s) eqn:Hs; cbn [fst]; [done|].
      destruct (decide (server = s)) as [->|Hne].
      + by rewrite lookup_insert_eq.
      + by rewrite lookup_insert_ne.
    - destruct (try_body_frame E cb s address paths w) as ([g Hg] & _).
      cbn zeta in Hg. unfold _perform_backup.
      destruct (try_body E cb s address paths w) as [w2 [[]|msg]]; cbn [fst] in Hg.
      + rewrite Hg, lookup_alter_is_Some. done.
      + cbn [active_backups with_jobs with_events print].
        rewrite lookup_alter_is_Some, Hg, lookup_alter_is_Some. done. }
  split; [done|]. intros now. unfold start_backup. by destruct H as [j ->].
Qed.

Lemma record_is_never_removed_witness :
  (rtc life_step (started "web1")
     (_perform_backup plain_env true "web1" "10.0.0.1" ["/etc/hosts"] (started "web1")) ∧
   is_Some (active_backups (started "web1") !! "web1")) ∧
  is_Some (active_backups (_perform_backup plain_env true "web1" "10.0.0.1"
                             ["/etc/hosts"] (started "web1")) !! "web1").
Proof.
  assert (H1 : rtc life_step (started "web1")
                 (_perform_backup plain_env true "web1" "10.0.0.1" ["/etc/hosts"]
                    (started "web1"))).
  { apply rtc_once. apply life_run. }
  assert (H2 : is_Some (active_backups (started "web1") !! "web1")).
  { exists (fresh_job "2024-01-01T12:00:00"). vm_compute. reflexivity. }
  split; [exact (conj H1 H2)|].
  exact (proj1 (record_is_never_removed (started "web1")
                  (_perform_backup plain_env true "web1" "10.0.0.1" ["/etc/hosts"]
                     (started "web1")) "web1" H1 H2)).
Defined.

(** ** Retention: what pruning leaves alone *)

Lemma remove_old_only_removes refuses (old : list (Z * string)) :
  (∀ a, a ∈ old → glob_zip a.2 = true) →
  ∀ d : gmap string node,
    (remove_old refuses old d).1 ⊆ d ∧
    ∀ name, glob_zip name = false →
      (∀ a, glob_zip a = true → name ≠ a +:+ ".json") →
      (remove_old refuses old d).1 !! name = d !! name.
Proof.
  induction old as [|a rest IH]; intros Hg d; [done|].
  assert (Ha : glob_zip a.2 = true) by (apply Hg; left).
  assert (Hrest : ∀ b, b ∈ rest → glob_zip b.2 = true) by (intros b Hb; apply Hg; by right).
  assert (Hne : ∀ name, glob_zip name = false → name ≠ a.2) by (intros name H ->; congruence).
  rewrite remove_old_cons, (glob_zip_with_suffix _ Ha).
  unfold unlink.
  destruct (d !! a.2) as [n|] eqn:Hn; [|by cbn [fst]].
  destruct (refuses a.2); [by cbn [fst]|].
  unfold unlink_if_exists, when, file_exists.
  case_bool_decide as Hex.
  - unfold unlink. destruct Hex as [m Hm]. rewrite Hm.
    destruct (refuses (a.2 +:+ ".json")).
    + cbn [fst]. split; [apply delete_subseteq|].
      intros name H1 _. apply lookup_delete_ne. intros E. by apply (Hne name).
    + destruct (IH Hrest (delete (a.2 +:+ ".json") (delete a.2 d))) as [Hs Hl].
      split.
      * etrans; [exact Hs|]. etrans; apply delete_subseteq.
      * intros name H1 H2. rewrite (Hl name H1 H2).
        rewrite !lookup_delete_ne; [done|..]; intros E; subst name.
        -- by apply (Hne _ H1).
        -- by apply (H2 a.2).
  - unfold ret. destruct (IH Hrest (delete a.2 d)) as [Hs Hl].
    split.
    + etrans; [exact Hs|]. apply delete_subseteq.
    + intros name H1 H2. rewrite (Hl name H1 H2).
      apply lookup_delete_ne. intros E. by apply (Hne name).
Qed.

(** Pruning only ever deletes: whatever the keep-count and whatever the
    operating system refuses, every file left in the host directory was
    there before with the same content, and a file that is neither an
    archive [backup_*.zip] nor the record [a.json] of such an archive is
    never touched. *)
Theorem cleanup_spares_foreign_files (refuses : string → option string) (k : Z)
    (d : gmap string node) :
  (_cleanup_old_backups refuses k d).1 ⊆ d ∧
  ∀ name, glob_zip name = false →
    (∀ a, glob_zip a = true → name ≠ a +:+ ".json") →
    (_cleanup_old_backups refuses k d).1 !! name = d !! name.
Proof.
  unfold _cleanup_old_backups.
  destruct (slice_from_drop k (sort_reverse tuple_lt (backup_files d))) as [n ->].
  pose proof (remove_old_only_removes refuses
                (drop n (sort_reverse tuple_lt (backup_files d)))) as H.
  destruct (H (λ a Ha, proj1 (elem_of_sorted_drop d n a Ha)) d) as [Hs Hl].
  by destruct (remove_old _ _ _) as [d' [[]|msg]].
Qed.

Lemma cleanup_spares_foreign_files_witness :
  (glob_zip "notes.txt" = false ∧
   ∀ a, glob_zip a = true → "notes.txt" ≠ a +:+ ".json") ∧
  (_cleanup_old_backups protect_second 1
     (<["notes.txt" := Node 5 Garbage]> old_dir)).1 !! "notes.txt"
  = <["notes.txt" := Node 5 Garbage]> old_dir !! "notes.txt".
Proof.
  assert (H1 : glob_zip "notes.txt" = false) by reflexivity.
  assert (H2 : ∀ a, glob_zip a = true → "notes.txt" ≠ a +:+ ".json").
  { intros a _ E. apply (f_equal chars) in E. rewrite chars_app in E.
    apply (f_equal (λ l, last l)) in E. rewrite last_app in E. discriminate. }
  split; [exact (conj H1 H2)|].
  exact (proj2 (cleanup_spares_foreign_files protect_second 1
                  (<["notes.txt" := Node 5 Garbage]> old_dir)) "notes.txt" H1 H2).
Defined.

(** A host directory with no more archives than the keep-count is left as
    it is, and nothing is printed, whatever deletions would be refused. *)
Theorem cleanup_within_keep_is_noop (refuses : string → option string) (k : Z)
    (d : gmap string node) :
  Z.of_nat (length (backup_files d)) ≤ k →
  _cleanup_old_backups refuses k d = (d, []).
Proof.
  intros Hk. unfold _cleanup_old_backups.
  rewrite slice_from_nonneg by lia.
  rewrite drop_ge; [done|].
  rewrite (sort_reverse_perm tuple_lt (backup_files d)). lia.
Qed.

Lemma cleanup_within_keep_is_noop_witness :
  Z.of_nat (length (backup_files old_dir)) ≤ 7 ∧
  _cleanup_old_backups protect_second 7 old_dir = (old_dir, []).
Proof.
  assert (H : Z.of_nat (length (backup_files old_dir)) ≤ 7)
    by (vm_compute; discriminate).
  split; [exact H|].
  exact (cleanup_within_keep_is_noop protect_second 7 old_dir H).
Defined.

Lemma cleanup_run (refuses : string → option string) (k : Z) (d : gmap string node) :
  0 ≤ k → (∀ name, refuses name = None) →
  _cleanup_old_backups refuses k d
  = (wipe (drop (Z.to_nat k) (sort_reverse tuple_lt (backup_files d))) d, []).
Proof.
  intros Hk Hr. rewrite cleanup_quiet by done. by rewrite slice_from_nonneg.
Qed.

Lemma cleanup_kept (refuses : string → option string) (k : Z) (d : gmap string node)
    (a : Z * string) :
  0 ≤ k → (∀ name, refuses name = None) →
  a ∈ take (Z.to_nat k) (sort_reverse tuple_lt (backup_files d)) →
  (_cleanup_old_backups refuses k d).1 !! a.2 = d !! a.2 ∧
  (_cleanup_old_backups refuses k d).1 !! (a.2 +:+ ".json") = d !! (a.2 +:+ ".json").
Proof.
  intros Hk Hr Ha. rewrite cleanup_run by done. cbn [fst].
  split; apply lookup_wipe_ne.
  - intros (b & E & Hb)%list_elem_of_fmap.
    by destruct (sorted_files_split d _ a b Ha Hb).
  - intros b Hb. apply glob_zip_ne_json.
    apply elem_of_take_1, sorted_files_spec, elem_of_backup_files in Ha. tauto.
  - intros (b & E & Hb)%list_elem_of_fmap.
    destruct (elem_of_sorted_drop d _ b Hb) as [Hg _].
    by apply (glob_zip_ne_json b.2 a.2 Hg).
  - intros b Hb E%app_json_inj.
    by destruct (sorted_files_split d _ a b Ha Hb).
Qed.

Lemma cleanup_files (refuses : string → option string) (k : Z) (d : gmap string node) :
  0 ≤ k → (∀ name, refuses name = None) →
  backup_files (_cleanup_old_backups refuses k d).1
  ≡ₚ take (Z.to_nat k) (sort_reverse tuple_lt (backup_files d)).
Proof.
  intros Hk Hr.
  set (sorted := sort_reverse tuple_lt (backup_files d)).
  apply NoDup_Permutation.
  - eapply NoDup_fmap_1, NoDup_backup_files.
  - eapply (NoDup_fmap_1 snd).
    pose proof (NoDup_sorted_files d) as Hnd. fold sorted in Hnd.
    rewrite <- (take_drop (Z.to_nat k) sorted), fmap_app in Hnd.
    by apply NoDup_app in Hnd as (? & _ & _).
  - intros a. split.
    + intros Ha. pose proof Ha as [Hg (x & Hx & Hm)]%elem_of_backup_files.
      rewrite cleanup_run in Hx by done. cbn [fst] in Hx.
      assert (Hd : d !! a.2 = Some x) by (by apply wipe_lookup_mono in Hx).
      assert (Hs : a ∈ sorted).
      { apply sorted_files_spec, elem_of_backup_files. eauto. }
      rewrite <- (take_drop (Z.to_nat k) sorted) in Hs.
      apply elem_of_app in Hs as [Hs|Hs]; [done|].
      destruct (lookup_wipe_gone _ d a Hs) as [Hn _]. fold sorted in Hx. congruence.
    + intros Ha. destruct (cleanup_kept refuses k d a Hk Hr Ha) as [E _].
      pose proof Ha as [Hg (x & Hx & Hm)]%elem_of_take_1%sorted_files_spec%elem_of_backup_files.
      apply elem_of_backup_files. split; [done|]. exists x. by rewrite E.
Qed.

Lemma cleanup_length (refuses : string → option string) (k : Z) (d : gmap string node) :
  0 ≤ k → (∀ name, refuses name = None) →
  Z.of_nat (length (backup_files (_cleanup_old_backups refuses k d).1)) ≤ k.
Proof.
  intros Hk Hr. rewrite (cleanup_files refuses k d Hk Hr), length_take. lia.
Qed.

(** Pruning twice is pruning once: when no deletion is refused, a second
    pass over the pruned directory deletes nothing more. *)
Theorem cleanup_idempotent (refuses : string → option string) (k : Z)
    (d : gmap string node) :
  0 ≤ k → (∀ name, refuses name = None) →
  _cleanup_old_backups refuses k (_cleanup_old_backups refuses k d).1
  = ((_cleanup_old_backups refuses k d).1, []).
Proof.
  intros Hk Hr.
  pose proof (cleanup_length refuses k d Hk Hr) as Hlen.
  unfold _cleanup_old_backups at 1.
  rewrite slice_from_nonneg by done.
  rewrite drop_ge; [done|].
  rewrite (sort_reverse_perm tuple_lt). lia.
Qed.

Lemma cleanup_idempotent_witness :
  (0 ≤ 1 ∧ ∀ name, (λ _ : string, @None string) name = None) ∧
  _cleanup_old_backups (λ _, None) 1 (_cleanup_old_backups (λ _, None) 1 old_dir).1
  = ((_cleanup_old_backups (λ _, None) 1 old_dir).1, []).
Proof.
  assert (H1 : 0 ≤ 1) by lia.
  assert (H2 : ∀ name, (λ _ : string, @None string) name = None)
    by (intros name; reflexivity).
  split; [exact (conj H1 H2)|].
  exact (cleanup_idempotent (λ _, None) 1 old_dir H1 H2).
Defined.

(** ** The pipeline and retention together *)

Lemma take_inhabited {A : Type} (x : A) (l : list A) (n : nat) :
  x ∈ l → ∃ b, b ∈ take (S n) l.
Proof.
  destruct l as [|b l]; [by intros ?%elem_of_nil|]. intros _. exists b. left.
Qed.

(** After a run that ends normally the host directory holds at most seven
    archives, when no deletion is refused. *)
Theorem completed_run_keeps_at_most_seven (E : env) (cb : bool)
    (server address : string) (paths : list string) (w : world) :
  (try_body E cb server address paths w).2 = Ret tt →
  (∀ name, unlink_refuses E name = None) →
  (length (backup_files
             (host_dir server
                (backup_dir (_perform_backup E cb server address paths w)))) ≤ 7)%nat.
Proof.
  intros Hret Hr. unfold _perform_backup.
  destruct (try_body E cb server address paths w) as [w' r] eqn:Hrun.
  cbn [snd] in Hret. subst r.
  apply try_body_ret in Hrun
    as (w0 & w1 & st & p1 & s1 & _ & _ & _ & _ & _ & Hd' & _).
  rewrite Hd', host_dir_insert.
  match goal with
  | |- context [_cleanup_old_backups ?f 7 ?d] =>
      pose proof (cleanup_length f 7 d ltac:(lia) Hr)
  end.
  lia.
Qed.

Lemma completed_run_keeps_at_most_seven_witness :
  ((try_body plain_env true "web1" "10.0.0.1" ["/etc/hosts"] (started "web1")).2
   = Ret tt ∧
   ∀ name, unlink_refuses plain_env name = None) ∧
  (length (backup_files
             (host_dir "web1"
                (backup_dir (_perform_backup plain_env true "web1" "10.0.0.1"
                               ["/etc/hosts"] (started "web1"))))) ≤ 7)%nat.
Proof.
  assert (H1 : (try_body plain_env true "web1" "10.0.0.1" ["/etc/hosts"]
                  (started "web1")).2 = Ret tt) by (vm_compute; reflexivity).
  assert (H2 : ∀ name, unlink_refuses plain_env name = None)
    by (intros name; reflexivity).
  split; [exact (conj H1 H2)|].
  exact (completed_run_keeps_at_most_seven plain_env true "web1" "10.0.0.1"
           ["/etc/hosts"] (started "web1") H1 H2).
Defined.

(** ** Listing and deleting *)

Lemma string_compare_lt_trans (a b c : string) :
  String.compare a b = Lt → String.compare b c = Lt → String.compare a c = Lt.
Proof.
  revert b c. induction a as [|x a IH]; intros [|y b] [|z c];
    cbn [String.compare]; try done.
  unfold Ascii.compare.
  destruct (N.compare (N_of_ascii x) (N_of_ascii y)) eqn:Hxy; try done.
  - apply N.compare_eq_iff in Hxy. rewrite Hxy.
    destruct (N.compare (N_of_ascii y) (N_of_ascii z)); try done. apply IH.
  - intros _. destruct (N.compare (N_of_ascii y) (N_of_ascii z)) eqn:Hyz; try done.
    + apply N.compare_eq_iff in Hyz. by rewrite <- Hyz, Hxy.
    + intros _. apply N.compare_lt_iff in Hxy. apply N.compare_lt_iff in Hyz.
      pose proof (N.lt_trans _ _ _ Hxy Hyz) as H.
      apply N.compare_lt_iff in H. by rewrite H.
Qed.

Lemma string_not_ltb_trans (a b c : string) :
  String.ltb a b = false → String.ltb b c = false → String.ltb a c = false.
Proof.
  unfold String.ltb.
  rewrite (String.compare_antisym a b), (String.compare_antisym b c),
    (String.compare_antisym a c).
  destruct (String.compare b a) eqn:Hba; cbn; try done;
    destruct (String.compare c b) eqn:Hcb; cbn; try done; intros _ _.
  - apply String.compare_eq_iff in Hba, Hcb. subst.
    pose proof (String.compare_antisym a a) as H.
    by destruct (String.compare a a).
  - apply String.compare_eq_iff in Hba. subst. by rewrite Hcb.
  - apply String.compare_eq_iff in Hcb. subst. by rewrite Hba.
  - by rewrite (string_compare_lt_trans c b a Hcb Hba).
Qed.

Lemma insert_desc_not_older (x : backup) (l : list backup) :
  Sorted not_older l →
  Sorted not_older
    (insert_desc (λ a b, String.ltb (created_at (meta a)) (created_at (meta b))) x l).
Proof.
  induction 1 as [|y l Hs IH Hhd]; cbn; [by repeat constructor|].
  destruct (String.ltb (created_at (meta x)) (created_at (meta y))) eqn:Hxy.
  - constructor; [done|].
    destruct Hhd as [|z l Hyz]; cbn.
    + constructor. by apply string_ltb_asym.
    + destruct (String.ltb (created_at (meta x)) (created_at (meta z)));
        constructor; [done|]. by apply string_ltb_asym.
  - constructor; [by constructor|]. by constructor.
Qed.

(** The listing comes newest first: no entry is followed, directly or
    further down, by one with a greater [created_at] (compared as
    strings), for one host as for all of them. *)
Theorem get_backups_newest_first (server : option string)
    (root : gmap string (gmap string node)) :
  StronglySorted not_older (get_backups server root).
Proof.
  apply Sorted_StronglySorted.
  { intros a b c. unfold not_older. apply string_not_ltb_trans. }
  unfold get_backups, sort_reverse.
  match goal with |- context [foldr _ [] ?l0] => induction l0 as [|b l IH] end;
    cbn [foldr]; [constructor|].
  by apply insert_desc_not_older.
Qed.

Lemma elem_of_get_backups_host (s : string) (root : gmap string (gmap string node))
    (b : backup) :
  s ≠ "" →
  b ∈ get_backups (Some s) root ↔
  ∃ d f n,
    root !! s = Some d ∧ glob_json f = true ∧ d !! f = Some n ∧
    body n = Json (meta b) ∧ is_Some (d !! backup_name (meta b)) ∧
    file_path b = (s, backup_name (meta b)).
Proof.
  intros Hs. unfold get_backups. rewrite decide_False by done.
  rewrite sort_reverse_perm, list_elem_of_bind. split.
  - intros ([server d] & Hb & Hd). cbn in Hb.
    destruct (root !! s) as [d0|] eqn:Hroot; [|by apply elem_of_nil in Hd].
    apply list_elem_of_singleton in Hd. injection Hd as -> ->.
    apply list_elem_of_omap in Hb as ([f n] & [Hg Hf]%elem_of_glob & Hload).
    unfold load_backup, file_exists in Hload. cbn in *.
    destruct (body n) as [|m|] eqn:Hbody; try discriminate.
    case_bool_decide as Hex; [|discriminate]. injection Hload as <-.
    exists d0, f, n. cbn. by rewrite Hbody.
  - intros (d & f & n & Hd & Hg & Hf & Hbody & Hex & Hpath).
    exists (s, d). rewrite Hd. split; [|by apply list_elem_of_singleton].
    cbn. apply list_elem_of_omap. exists (f, n). split; [by apply elem_of_glob|].
    unfold load_backup, file_exists. cbn. rewrite Hbody.
    rewrite bool_decide_eq_true_2 by done. destruct b as [m p]. cbn in *.
    by rewrite Hpath.
Qed.

Lemma unlink_if_exists_subseteq refuses name (d : gmap string node) :
  (unlink_if_exists refuses name d).1 ⊆ d.
Proof.
  unfold unlink_if_exists, when, file_exists, unlink, ret.
  case_bool_decide as Hex; [|done].
  destruct (d !! name); [|done].
  destruct (refuses name); [done|]. apply delete_subseteq.
Qed.

(** Deleting a backup only ever deletes: whatever the identifier and
    whatever the operating system refuses, every host directory is still
    there afterwards, and every file left in it was there before with the
    same content. *)
Theorem delete_backup_only_removes (refuses : string → option string)
    (backup_id : string) (root : gmap string (gmap string node)) :
  (∀ s, is_Some (root !! s) ↔ is_Some ((delete_backup refuses backup_id root).1 !! s)) ∧
  (∀ s d', (delete_backup refuses backup_id root).1 !! s = Some d' →
           ∃ d, root !! s = Some d ∧ d' ⊆ d).
Proof.
  unfold delete_backup.
  destruct (find_matching (λ b, bool_decide (created_at (meta b) = backup_id))
              (get_backups None root)) as [[-> _]|(b & -> & Hb & _)].
  { cbn [fst]. split; [done|]. intros s d' H. by exists d'. }
  apply elem_of_get_backups in Hb as (server & d & f & n & Hd & _ & _ & _ & _ & Hpath).
  rewrite Hpath. rewrite (in_dir_present _ _ _ d Hd).
  unfold mbind, M_bind, bind.
  set (bn := backup_name (meta b)).
  assert (Hsub : ∃ d1, d1 ⊆ d ∧
    ∃ r, (let (s', o) := unlink_if_exists refuses bn d in
          match o with
          | Ret a => unlink_if_exists refuses (with_suffix bn ".zip.json") s'
          | Exn msg => (s', Exn msg)
          end) = (d1, r)).
  { pose proof (unlink_if_exists_subseteq refuses bn d) as H1.
    destruct (unlink_if_exists refuses bn d) as [d1 [[]|msg]]; cbn [fst] in H1.
    - pose proof (unlink_if_exists_subseteq refuses (with_suffix bn ".zip.json") d1) as H2.
      destruct (unlink_if_exists refuses (with_suffix bn ".zip.json") d1) as [d2 r].
      exists d2. split; [by etrans|]. by exists r.
    - exists d1. split; [done|]. by eexists. }
  destruct Hsub as (d1 & Hsub & r & ->). cbn [fst snd].
  assert (Hroot : ∀ o : outcome unit,
    (match o with
     | Ret _ => (<[server := d1]> root, (true, "Backup deleted successfully"))
     | Exn msg => (<[server := d1]> root, (false, "Error deleting backup: " +:+ msg))
     end).1 = <[server := d1]> root) by (by intros [[]|]).
  rewrite Hroot. split.
  - intros s. destruct (decide (s = server)) as [->|Hne].
    + rewrite lookup_insert_eq, Hd. split; eauto.
    + by rewrite lookup_insert_ne.
  - intros s d'. destruct (decide (s = server)) as [->|Hne].
    + rewrite lookup_insert_eq. intros [= <-]. by exists d.
    + rewrite lookup_insert_ne by done. intros H. by exists d'.
Qed.

Lemma delete_backup_only_removes_witness :
  (delete_backup (λ _, None) "2024-01-01T12:00:03" one_backup).1 !! "web1" = Some ∅ ∧
  ∃ d, one_backup !! "web1" = Some d ∧ ∅ ⊆ d.
Proof.
  assert (H : (delete_backup (λ _, None) "2024-01-01T12:00:03" one_backup).1 !! "web1"
              = Some ∅) by (vm_compute; reflexivity).
  split; [exact H|].
  exact (proj2 (delete_backup_only_removes (λ _, None) "2024-01-01T12:00:03" one_backup)
           "web1" ∅ H).
Defined.

(** On a disk that refuses every deletion, asking to delete a listed
    backup reports the error of the operating system and changes
    nothing. *)
Theorem delete_backup_refused (msg backup_id : string)
    (root : gmap string (gmap string node)) (b : backup) :
  b ∈ get_backups None root → created_at (meta b) = backup_id →
  delete_backup (read_only msg) backup_id root
  = (root, (false, "Error deleting backup: " +:+ msg)).
Proof.
  intros Hb Hid. unfold delete_backup.
  destruct (find_matching (λ b, bool_decide (created_at (meta b) = backup_id))
              (get_backups None root)) as [[_ Hnone]|(b0 & -> & Hb0 & _)].
  { specialize (Hnone b Hb). apply bool_decide_eq_false in Hnone. done. }
  apply elem_of_get_backups in Hb0
    as (server & d & f & n & Hd & _ & _ & _ & [x Hex] & Hpath).
  rewrite Hpath. rewrite (in_dir_present _ _ _ d Hd).
  unfold mbind, M_bind, bind, unlink_if_exists, when, file_exists.
  rewrite bool_decide_eq_true_2 by eauto.
  unfold unlink, read_only. rewrite Hex. cbn [fst snd].
  by rewrite insert_id.
Qed.

Lemma delete_backup_refused_witness :
  (Backup (metadata_of plain_env "web1" "10.0.0.1" ["/etc/hosts"] 1)
     ("web1", archive_name plain_env) ∈ get_backups None one_backup ∧
   created_at (meta (Backup (metadata_of plain_env "web1" "10.0.0.1" ["/etc/hosts"] 1)
                       ("web1", archive_name plain_env)))
   = "2024-01-01T12:00:03") ∧
  delete_backup (read_only "Read-only file system") "2024-01-01T12:00:03" one_backup
  = (one_backup, (false, "Error deleting backup: " +:+ "Read-only file system")).
Proof.
  assert (H1 : Backup (metadata_of plain_env "web1" "10.0.0.1" ["/etc/hosts"] 1)
                 ("web1", archive_name plain_env) ∈ get_backups None one_backup).
  { vm_compute. left. }
  assert (H2 : created_at
                 (meta (Backup (metadata_of plain_env "web1" "10.0.0.1" ["/etc/hosts"] 1)
                          ("web1", archive_name plain_env)))
               = "2024-01-01T12:00:03") by reflexivity.
  split; [exact (conj H1 H2)|].
  exact (delete_backup_refused "Read-only file system" "2024-01-01T12:00:03" one_backup
           (Backup (metadata_of plain_env "web1" "10.0.0.1" ["/etc/hosts"] 1)
              ("web1", archive_name plain_env)) H1 H2).
Defined.

(** Deleting and listing compose: when the backups are paired and nothing
    is refused, deleting a listed identifier succeeds, and the listing
    afterwards is the listing before without the one entry deleted. *)
Theorem delete_then_list (refuses : string → option string) (backup_id : string)
    (root : gmap string (gmap string node)) :
  paired_root root → (∀ name, refuses name = None) →
  (∃ b, b ∈ get_backups None root ∧ created_at (meta b) = backup_id) →
  ∃ b0,
    b0 ∈ get_backups None root ∧ created_at (meta b0) = backup_id ∧
    (delete_backup refuses backup_id root).2 = (true, "Backup deleted successfully") ∧
    ∀ b, b ∈ get_backups None (delete_backup refuses backup_id root).1 ↔
         b ∈ get_backups None root ∧ file_path b ≠ file_path b0.
Proof.
  intros Hp Hq (b1 & Hb1 & Hid1).
  destruct (delete_backup_effect refuses backup_id root Hp Hq)
    as [[Hnone _]|(server & d & a & m & Hrec & Hga & Ha & ->)].
  { by destruct (Hnone b1 Hb1). }
  destruct Hrec as (Hd & Hgj & (n0 & Hn0 & Hbody0) & Hid).
  destruct (Hp server d Hd) as [_ Hrecs].
  assert (Hname : backup_name m = a).
  { destruct (Hrecs _ _ Hgj Hn0) as (a' & E%app_json_inj & _ & _ & Hm). subst a'.
    by apply Hm. }
  exists (Backup m (server, a)). cbn [fst snd meta file_path].
  split.
  { apply elem_of_get_backups. exists server, d, (a +:+ ".json"), n0.
    cbn [meta file_path]. rewrite Hname. done. }
  split; [done|]. split; [done|].
  intros b. rewrite !elem_of_get_backups. split.
  - intros (s & d' & f & n & Hd' & Hg & Hf & Hbody & Hex & Hpath).
    destruct (decide (s = server)) as [->|Hne].
    + rewrite lookup_insert_eq in Hd'. injection Hd' as <-.
      apply lookup_delete_Some in Hf as [Hf1 Hf]. apply lookup_delete_Some in Hf as [Hf2 Hf].
      destruct Hex as [x Hx].
      apply lookup_delete_Some in Hx as [Hx1 Hx]. apply lookup_delete_Some in Hx as [Hx2 Hx].
      split; [exists server, d, f, n; eauto 10|].
      rewrite Hpath. intros [= E]. by rewrite E in Hx2.
    + rewrite lookup_insert_ne in Hd' by done.
      split; [exists s, d', f, n; eauto 10|].
      rewrite Hpath. intros [= E _]. done.
  - intros [(s & d' & f & n & Hd' & Hg & Hf & Hbody & Hex & Hpath) Hother].
    destruct (decide (s = server)) as [->|Hne].
    + rewrite Hd in Hd'. injection Hd' as <-.
      destruct (Hrecs _ _ Hg Hf) as (a' & -> & Hga' & _ & Hm).
      specialize (Hm _ Hbody).
      assert (Hna : a' ≠ a).
      { intros ->. apply Hother. by rewrite Hpath, Hm. }
      exists server, (delete (a +:+ ".json") (delete a d)), (a' +:+ ".json"), n.
      rewrite lookup_insert_eq. split; [done|]. split; [done|].
      split.
      { rewrite !lookup_delete_ne; [done|..];
          first [ by apply glob_zip_ne_json
                | intros E%app_json_inj; by apply Hna ]. }
      split; [done|]. split; [|done].
      rewrite Hm. rewrite !lookup_delete_ne; [by rewrite <- Hm|..];
        first [ by apply json_ne_glob_zip | intros E; by apply Hna ].
    + exists s, d', f, n. rewrite lookup_insert_ne by done. eauto 10.
Qed.

Lemma delete_then_list_witness :
  (paired_root one_backup ∧ (∀ name, (λ _ : string, @None string) name = None) ∧
   ∃ b, b ∈ get_backups None one_backup ∧ created_at (meta b) = "2024-01-01T12:00:03") ∧
  ∃ b0,
    b0 ∈ get_backups None one_backup ∧ created_at (meta b0) = "2024-01-01T12:00:03" ∧
    (delete_backup (λ _, None) "2024-01-01T12:00:03" one_backup).2
    = (true, "Backup deleted successfully") ∧
    ∀ b, b ∈ get_backups None
               (delete_backup (λ _, None) "2024-01-01T12:00:03" one_backup).1 ↔
         b ∈ get_backups None one_backup ∧ file_path b ≠ file_path b0.
Proof.
  assert (H1 : paired_root one_backup) by exact paired_one_backup.
  assert (H2 : ∀ name, (λ _ : string, @None string) name = None)
    by (intros name; reflexivity).
  assert (H3 : ∃ b, b ∈ get_backups None one_backup ∧
                    created_at (meta b) = "2024-01-01T12:00:03").
  { exists (Backup (metadata_of plain_env "web1" "10.0.0.1" ["/etc/hosts"] 1)
              ("web1", archive_name plain_env)).
    split; [vm_compute; left|reflexivity]. }
  split; [exact (conj H1 (conj H2 H3))|].
  exact (delete_then_list (λ _, None) "2024-01-01T12:00:03" one_backup H1 H2 H3).
Defined.

(** ** The web application *)

Lemma chars_text (l : list ascii) : chars (text l) = l.
Proof. apply String.list_ascii_of_string_of_list_ascii. Qed.

(** Every static path is served from the frontend tree at the path that
    was asked for: the directory and the file name handed on always join
    to [../frontend/<path>]. *)
Theorem serve_static_under_frontend (path : string) :
  (serve_static path).1 +:+ "/" +:+ (serve_static path).2 = "../frontend/" +:+ path.
Proof.
  unfold serve_static.
  destruct (startswith path "css/") eqn:Hc.
  { apply startswith_true in Hc as [k Hk]. cbn [fst snd].
    apply chars_inj. rewrite !chars_app, chars_text, Hk. done. }
  destruct (startswith path "js/") eqn:Hj.
  { apply startswith_true in Hj as [k Hk]. cbn [fst snd].
    apply chars_inj. rewrite !chars_app, chars_text, Hk. done. }
  done.
Qed.

Lemma replay_snoc (trace : list socket_event) (e : socket_event) :
  replay (trace ++ [e]) = handle e (replay trace).
Proof. unfold replay. by rewrite foldl_app. Qed.

Lemma handle_other (sid : string) (e : socket_event) (sessions : gmap string session) :
  leaves_open sid e → handle e sessions !! sid = sessions !! sid.
Proof.
  intros [Hd Hs]. destruct e as [s|s|s n]; cbn; [done|..].
  - unfold handle_disconnect. destruct (decide _); [|done].
    apply lookup_delete_ne. by intros ->.
  - unfold handle_start_backup_session. apply lookup_insert_ne.
    intros ->. by apply (Hs n).
Qed.

(** The registry of sessions follows the clients: a client has a session
    exactly when it has started one and has neither disconnected nor
    started another since, and the session carries the server name of
    that start. *)
Theorem session_registry_tracks_clients (trace : list socket_event) (sid : string)
    (s : session) :
  replay trace !! sid = Some s ↔
  ∃ before server_name after,
    trace = before ++ StartSession sid server_name :: after ∧
    Forall (leaves_open sid) after ∧
    s = Session server_name "active".
Proof.
  induction trace as [|e trace IH] using rev_ind.
  { unfold replay. cbn [foldl]. split; [by rewrite lookup_empty|]. intros (before & n & after & H & _).
    by destruct before. }
  rewrite replay_snoc.
  assert (Hcase : leaves_open sid e ∨ e = Disconnect sid ∨ ∃ n, e = StartSession sid n).
  { destruct e as [x|x|x n].
    - left. by split.
    - destruct (decide (x = sid)) as [->|Hne]; [right; by left|].
      left. split; [|done]. by intros [= ->].
    - destruct (decide (x = sid)) as [->|Hne]; [right; right; by exists n|].
      left. split; [done|]. by intros m [= -> _]. }
  destruct Hcase as [Hopen|[->|[n ->]]].
  - rewrite (handle_other sid e _ Hopen), IH. split.
    + intros (before & n & after & -> & Hall & ->).
      exists before, n, (after ++ [e]). rewrite <- app_assoc.
      split; [done|]. split; [|done]. apply Forall_app. split; [done|].
      by constructor.
    + intros (before & n & after & Heq & Hall & ->).
      destruct after as [|x after _] using rev_ind.
      * apply (app_inj_tail trace before) in Heq as [_ ->].
        destruct Hopen as [_ Hs]. by destruct (Hs n).
      * rewrite app_comm_cons, app_assoc in Heq.
        apply app_inj_tail in Heq as [-> ->].
        apply Forall_app in Hall as [Hall _].
        by exists before, n, after.
  - cbn [handle]. unfold handle_disconnect. split.
    + destruct (decide _) as [Hin|Hout].
      * by rewrite lookup_delete_eq.
      * intros H. destruct Hout. by rewrite H.
    + intros (before & n & after & Heq & Hall & ->). exfalso.
      destruct after as [|x after _] using rev_ind.
      * by apply (app_inj_tail trace before) in Heq as [_ [=]].
      * rewrite app_comm_cons, app_assoc in Heq.
        apply app_inj_tail in Heq as [_ <-].
        apply Forall_app in Hall as [_ Hx]. apply Forall_singleton in Hx as [Hx _].
        done.
  - cbn [handle]. unfold handle_start_backup_session. rewrite lookup_insert_eq. split.
    + intros [= <-]. exists trace, n, []. by split.
    + intros (before & m & after & Heq & Hall & ->).
      destruct after as [|x after _] using rev_ind.
      * by apply (app_inj_tail trace before) in Heq as [_ [= ->]].
      * rewrite app_comm_cons, app_assoc in Heq.
        apply app_inj_tail in Heq as [_ <-].
        apply Forall_app in Hall as [_ Hx]. apply Forall_singleton in Hx as [_ Hx].
        by destruct (Hx n).
Qed.

(** ** The downloader on a tree that transfers completely *)

Lemma after_last_app (c : ascii) (l1 l2 acc : list ascii) :
  c ∉ l1 → after_last c acc (l1 ++ c :: l2) = Some (reverse l1 ++ acc, l2).
Proof.
  revert acc. induction l1 as [|x l1 IH]; intros acc Hc; cbn [app after_last].
  - by rewrite decide_True.
  - rewrite decide_False by (intros ->; apply Hc; left).
    rewrite IH by (intros H; apply Hc; by right).
    by rewrite reverse_cons, <- app_assoc.
Qed.

Lemma basename_child (parent name : string) :
  "/"%char ∉ chars name → basename (parent +:+ "/" +:+ name) = name.
Proof.
  intros H. unfold basename. rewrite !chars_app, !reverse_app.
  change (reverse (chars "/")) with ["/"%char]. rewrite <- app_assoc. cbn [app].
  rewrite after_last_app by (by rewrite elem_of_reverse).
  rewrite reverse_involutive, app_nil_r.
  apply String.string_of_list_ascii_of_string.
Qed.

Lemma join_child (local : list string) (parent name : string) :
  plain_name name = true →
  join local (basename (parent +:+ "/" +:+ name)) = local ++ [name].
Proof.
  unfold plain_name. intros (Hne & _ & _ & Hs)%bool_decide_eq_true.
  rewrite basename_child by done. unfold join. by rewrite decide_False.
Qed.

Lemma prefix_child_ne (local : list string) (n n' : string) (k : list string) :
  n ≠ n' → (local ++ [n']) `prefix_of` k → ¬ (local ++ [n]) `prefix_of` k.
Proof.
  intros Hne [k1 ->] [k2 H]. rewrite <- !app_assoc in H.
  apply app_inv_head in H. cbn in H. by injection H.
Qed.

Lemma mirror_elsewhere :
  (∀ r local st k, ¬ local `prefix_of` k → mirror local r st !! k = st !! k) ∧
  (∀ files local st k, ¬ local `prefix_of` k → mirror_in local files st !! k = st !! k).
Proof.
  apply remote_mutind; cbn [mirror mirror_in]; try done.
  - intros size get local st k H. apply lookup_insert_ne. by intros ->.
  - intros children IH local st k H. rewrite IH by done.
    apply lookup_insert_ne. by intros ->.
  - intros name r IHr rest IHrest local st k H.
    rewrite IHrest by done. apply IHr.
    intros [k' ->]. apply H. rewrite <- app_assoc. by eexists.
Qed.

Lemma download_healthy :
  (∀ r cb total path base local processed d,
     join base (basename path) = local →
     healthy path r = true → (cb = true → total ≠ 0) →
     (∀ k, local `prefix_of` k → staging d !! k = None) →
     (_download_path_with_progress cb total path r base processed d).2
     = (leaves r, volume r) ∧
     staging (_download_path_with_progress cb total path r base processed d).1
     = mirror local r (staging d)) ∧
  (∀ files cb total path local processed downloaded size d,
     healthy_in path files = true → (cb = true → total ≠ 0) →
     (∀ n k, n ∈ names files → (local ++ [n]) `prefix_of` k → staging d !! k = None) →
     (download_children cb total path files local processed downloaded size d).2
     = (downloaded + leaves_in files, size + volume_in files) ∧
     staging (download_children cb total path files local processed downloaded size d).1
     = mirror_in local files (staging d)).
Proof.
  apply remote_mutind.
  - done.
  - done.
  - intros size get cb total path base local processed d Hl Hh Hcb Hfresh.
    cbn [healthy] in Hh. destruct get; [|done].
    apply negb_true_iff in Hh.
    cbn [_download_path_with_progress leaves volume mirror]. rewrite Hh, Hl.
    assert (Hnone : staging d !! local = None) by (by apply Hfresh).
    destruct cb.
    + rewrite (floordiv_nonzero (processed * 60) total (Hcb eq_refl)).
      unfold sftp_get. cbn [deliver staging]. by rewrite Hnone.
    + unfold sftp_get. by rewrite Hnone.
  - intros children IH cb total path base local processed d Hl Hh Hcb Hfresh.
    cbn [healthy] in Hh.
    cbn [_download_path_with_progress leaves volume mirror]. rewrite Hl.
    assert (Hnone : staging d !! local = None) by (by apply Hfresh).
    unfold mkdir_exist_ok. rewrite Hnone.
    destruct (IH cb total path local processed 0 0
                (DState (<[local := LDir]> (staging d)) (delivered d)) Hh Hcb)
      as [Hc Hs].
    { intros n k _ Hk. cbn [staging]. rewrite lookup_insert_ne.
      - apply Hfresh. etrans; [|exact Hk]. by apply prefix_app_r.
      - intros ->. apply prefix_length in Hk. rewrite length_app in Hk. cbn in Hk.
        lia. }
    rewrite Hc, Hs. cbn [staging]. split; [|done]. f_equal; lia.
  - done.
  - intros cb total path local processed downloaded size d _ _ _.
    cbn [download_children leaves_in volume_in mirror_in fst snd]. split; [|done].
    f_equal; lia.
  - intros name r IHr rest IHrest cb total path local processed downloaded size d
      Hh Hcb Hfresh.
    cbn [healthy_in] in Hh.
    apply andb_true_iff in Hh as [Hh Hrest]. apply andb_true_iff in Hh as [Hh Hr].
    apply andb_true_iff in Hh as [Hplain Hnew]. apply bool_decide_eq_true in Hnew.
    cbn [download_children leaves_in volume_in mirror_in].
    destruct (IHr cb total (path +:+ "/" +:+ name) local (local ++ [name])
                (processed + downloaded) d (join_child local path name Hplain) Hr Hcb)
      as [Hc Hs].
    { intros k Hk. apply (Hfresh name k); [left|done]. }
    destruct (_download_path_with_progress _ _ _ r _ _ _) as [d1 [sub_files sub_size]].
    cbn [fst snd] in Hc, Hs. injection Hc as -> ->.
    destruct (IHrest cb total path local processed (downloaded + leaves r)
                (size + volume r) d1 Hrest Hcb) as [Hc' Hs'].
    { intros n k Hn Hk. rewrite Hs.
      rewrite (proj1 mirror_elsewhere).
      - apply (Hfresh n k); [by right|done].
      - apply (prefix_child_ne local name n k); [|done]. intros ->. done. }
    rewrite Hc', Hs', Hs. split; [|done]. f_equal; lia.
Qed.

(** A tree that transfers completely is mirrored completely: when every
    path can be probed and listed, every regular file transfers and is not
    excluded, the names are plain and distinct, the place of the copy in
    the staging tree is free, and the total is not zero if a sink is
    attached, the downloader returns the number and the bytes of all
    regular files of the tree and stages exactly the copy of the tree. *)
Theorem download_mirrors_healthy_tree (r : remote) (cb : bool) (total : Z)
    (parent name : string) (base : list string) (processed : Z) (d : dstate) :
  plain_name name = true →
  healthy (parent +:+ "/" +:+ name) r = true →
  (cb = true → total ≠ 0) →
  (∀ k, (base ++ [name]) `prefix_of` k → staging d !! k = None) →
  (_download_path_with_progress cb total (parent +:+ "/" +:+ name) r base processed d).2
  = (leaves r, volume r) ∧
  staging (_download_path_with_progress cb total (parent +:+ "/" +:+ name) r base
             processed d).1
  = mirror (base ++ [name]) r (staging d).
Proof.
  intros Hplain Hh Hcb Hfresh.
  apply (proj1 download_healthy); [by apply join_child|done..].
Qed.

Lemma download_mirrors_healthy_tree_witness :
  (plain_name "www" = true ∧ healthy ("/srv" +:+ "/" +:+ "www") site = true ∧
   (true = true → 2 ≠ 0) ∧
   (∀ k, ([] ++ ["www"]) `prefix_of` k →
         staging (DState {[ [] := LDir ]} []) !! k = None)) ∧
  (_download_path_with_progress true 2 ("/srv" +:+ "/" +:+ "www") site [] 0
     (DState {[ [] := LDir ]} [])).2
  = (leaves site, volume site).
Proof.
  assert (H1 : plain_name "www" = true) by (vm_compute; reflexivity).
  assert (H2 : healthy ("/srv" +:+ "/" +:+ "www") site = true)
    by (vm_compute; reflexivity).
  assert (H3 : true = true → 2 ≠ 0) by (intros _; discriminate).
  assert (H4 : ∀ k, ([] ++ ["www"]) `prefix_of` k →
                 staging (DState {[ [] := LDir ]} []) !! k = None).
  { intros k [k' ->]. apply lookup_singleton_ne. discriminate. }
  split; [exact (conj H1 (conj H2 (conj H3 H4)))|].
  exact (proj1 (download_mirrors_healthy_tree site true 2 "/srv" "www" [] 0
                  (DState {[ [] := LDir ]} []) H1 H2 H3 H4)).
Defined.

(** Backing up one root that transfers completely records the whole
    tree: when no stage of the pipeline raises, the run ends
    ['completed'] with [files_processed] the number and [data_size] the
    bytes of the regular files under the root, and the metadata record
    carries the same count. *)
Theorem healthy_root_is_backed_up_entirely (E : env) (cb : bool)
    (server address parent name : string) (w : world) (j : job) :
  let path := parent +:+ "/" +:+ name in
  (∀ s, fault E s = None) →
  plain_name name = true →
  healthy path (remote_at E path) = true →
  (cb = true → _count_files E path ≠ 0) →
  active_backups w !! server = Some j →
  ∃ j' d1,
    active_backups (_perform_backup E cb server address [path] w) !! server = Some j' ∧
    job_status j' = completed ∧
    files_processed j' = leaves (remote_at E path) ∧
    data_size j' = volume (remote_at E path) ∧
    (∃ m, d1 !! (archive_name E +:+ ".json") = Some (Node (mtime E) (Json m)) ∧
          files_count m = leaves (remote_at E path)) ∧
    backup_dir (_perform_backup E cb server address [path] w)
    = <[server := (_cleanup_old_backups (unlink_refuses E) 7 d1).1]> (backup_dir w).
Proof.
  intros path Hq Hplain Hh Hcb Hj.
  pose proof (try_body_no_fault E cb server address [path] w Hq) as Hret.
  unfold _perform_backup.
  destruct (try_body E cb server address [path] w) as [w' r] eqn:Hrun.
  cbn [snd] in Hret. subst r.
  apply try_body_ret in Hrun
    as (w0 & w1 & st & p1 & s1 & Hj0 & _ & _ & Hdl & Hj' & Hd' & _).
  cbn [download_paths] in Hdl.
  unfold mbind, M_bind, bind, mret, M_ret, ret, say, update_job, modify, download in Hdl.
  match type of Hdl with
  | context [_download_path_with_progress cb ?t path ?r [] 0 ?d] =>
      destruct (proj1 download_healthy r cb t path [] ([] ++ [name]) 0 d
                  (join_child [] parent name Hplain) Hh) as [Hc _];
        [ intros Hcb'; unfold count_total; cbn [foldl];
          rewrite Z.add_0_l; by apply Hcb
        | intros k [k' ->]; cbn [staging app]; apply lookup_singleton_ne; discriminate
        | destruct (_download_path_with_progress cb t path r [] 0 d)
            as [d2 [files size]] ]
  end.
  cbn [snd] in Hc. injection Hc as -> ->.
  cbn in Hdl. injection Hdl as <- <- <- <-.
  exists (finish (completed_now E) (backup_path E server (archive_name E))
            (record_progress (leaves (remote_at E path)) (volume (remote_at E path))
               (record_total (count_total E [path]) j))).
  eexists. split; [|split; [done|]; split; [done|]; split; [done|]; split;
                    [|exact Hd']].
  - rewrite Hj'. cbn [active_backups with_jobs with_events].
    by rewrite !lookup_alter_eq, Hj0, lookup_alter_eq, Hj.
  - eexists. split; [apply written_dir_metadata|done].
Qed.

Lemma healthy_root_is_backed_up_entirely_witness :
  ((∀ s, fault plain_env s = None) ∧ plain_name "hosts" = true ∧
   healthy ("/etc" +:+ "/" +:+ "hosts") (remote_at plain_env ("/etc" +:+ "/" +:+ "hosts"))
   = true ∧
   (true = true → _count_files plain_env ("/etc" +:+ "/" +:+ "hosts") ≠ 0) ∧
   active_backups (started "web1") !! "web1" = Some (fresh_job "2024-01-01T12:00:00")) ∧
  ∃ j' d1,
    active_backups (_perform_backup plain_env true "web1" "10.0.0.1"
                      ["/etc" +:+ "/" +:+ "hosts"] (started "web1")) !! "web1"
    = Some j' ∧
    job_status j' = completed ∧
    files_processed j' = leaves (remote_at plain_env ("/etc" +:+ "/" +:+ "hosts")) ∧
    data_size j' = volume (remote_at plain_env ("/etc" +:+ "/" +:+ "hosts")) ∧
    (∃ m, d1 !! (archive_name plain_env +:+ ".json")
          = Some (Node (mtime plain_env) (Json m)) ∧
          files_count m = leaves (remote_at plain_env ("/etc" +:+ "/" +:+ "hosts"))) ∧
    backup_dir (_perform_backup plain_env true "web1" "10.0.0.1"
                  ["/etc" +:+ "/" +:+ "hosts"] (started "web1"))
    = <[ "web1" := (_cleanup_old_backups (unlink_refuses plain_env) 7 d1).1]>
        (backup_dir (started "web1")).
Proof.
  assert (H1 : ∀ s, fault plain_env s = None) by (intros s; reflexivity).
  assert (H2 : plain_name "hosts" = true) by (vm_compute; reflexivity).
  assert (H3 : healthy ("/etc" +:+ "/" +:+ "hosts")
                 (remote_at plain_env ("/etc" +:+ "/" +:+ "hosts")) = true)
    by (vm_compute; reflexivity).
  assert (H4 : true = true → _count_files plain_env ("/etc" +:+ "/" +:+ "hosts") ≠ 0)
    by (intros _; discriminate).
  assert (H5 : active_backups (started "web1") !! "web1"
               = Some (fresh_job "2024-01-01T12:00:00")) by (vm_compute; reflexivity).
  split; [exact (conj H1 (conj H2 (conj H3 (conj H4 H5))))|].
  exact (healthy_root_is_backed_up_entirely plain_env true "web1" "10.0.0.1" "/etc"
           "hosts" (started "web1") (fresh_job "2024-01-01T12:00:00") H1 H2 H3 H4 H5).
Defined.

(** ** Deleting a backup by its identifier *)

Lemma cleanup_submap (refuses : string → option string) (k : Z) (d : gmap string node) :
  (_cleanup_old_backups refuses k d).1 ⊆ d.
Proof.
  unfold _cleanup_old_backups.
  destruct (slice_from_drop k (sort_reverse tuple_lt (backup_files d))) as [n ->].
  destruct (remove_old_only_removes refuses
              (drop n (sort_reverse tuple_lt (backup_files d)))
              (λ a Ha, proj1 (elem_of_sorted_drop d n a Ha)) d) as [Hs _].
  by destruct (remove_old _ _ _) as [d' [[]|msg]].
Qed.

Lemma delete_backup_submap (refuses : string → option string) (backup_id : string)
    (root : gmap string (gmap string node)) (s : string) (d' : gmap string node) :
  (delete_backup refuses backup_id root).1 !! s = Some d' →
  ∃ d, root !! s = Some d ∧ d' ⊆ d.
Proof.
  unfold delete_backup.
  destruct (find_matching (λ b, bool_decide (created_at (meta b) = backup_id))
              (get_backups None root)) as [[-> _]|(b & -> & Hb & _)].
  { cbn [fst]. intros H. by exists d'. }
  apply elem_of_get_backups in Hb as (server & d & f & n & Hd & _ & _ & _ & _ & Hpath).
  rewrite Hpath. rewrite (in_dir_present _ _ _ d Hd).
  unfold mbind, M_bind, bind.
  pose proof (unlink_if_exists_subseteq refuses (backup_name (meta b)) d) as H1.
  destruct (unlink_if_exists refuses (backup_name (meta b)) d) as [d1 [[]|msg]];
    cbn [fst snd] in *.
  - pose proof (unlink_if_exists_subseteq refuses
                  (with_suffix (backup_name (meta b)) ".zip.json") d1) as H2.
    destruct (unlink_if_exists refuses _ d1) as [d2 [[]|msg]]; cbn [fst snd] in *;
      (destruct (decide (s = server)) as [->|Hne];
       [ rewrite lookup_insert_eq; intros [= <-]; exists d; split; [done|by etrans]
       | rewrite lookup_insert_ne by done; intros H; by exists d' ]).
  - destruct (decide (s = server)) as [->|Hne].
    + rewrite lookup_insert_eq. intros [= <-]. by exists d.
    + rewrite lookup_insert_ne by done. intros H. by exists d'.
Qed.

Lemma host_dir_lookup (server : string) (root : gmap string (gmap string node))
    (d : gmap string node) :
  root !! server = Some d → host_dir server root = d.
Proof. intros H. unfold host_dir. by rewrite H. Qed.

Lemma host_dir_Some (server name : string) (root : gmap string (gmap string node))
    (n : node) :
  host_dir server root !! name = Some n →
  ∃ d, root !! server = Some d ∧ d !! name = Some n.
Proof.
  unfold host_dir. destruct (root !! server) as [d|]; cbn; [by eexists|].
  by rewrite lookup_empty.
Qed.

Lemma stamp_ne_json (E : env) :
  "backup_" +:+ stamp E +:+ ".zip" ≠ ("backup_" +:+ stamp E +:+ ".zip") +:+ ".json".
Proof. intros H. symmetry in H. by apply (archive_name_ne_json E). Qed.

(** What a branch of the pipeline leaves at the place of the record. *)
Ltac record_close Hh :=
  intros ?; cbn [fst backup_dir with_jobs with_events with_root];
  rewrite ?host_dir_insert;
  first
    [ rewrite lookup_insert_eq; intros [= <-]; right;
      first [ left; reflexivity | right; eexists; reflexivity ]
    | rewrite ?lookup_insert_ne by apply stamp_ne_json;
      rewrite ?Hh, ?host_dir_mkdir; intros ?; by left ].

Lemma try_body_record (E : env) (cb : bool) (server address : string)
    (paths : list string) (w : world) (n : node) :
  host_dir server (backup_dir (try_body E cb server address paths w).1)
    !! (archive_name E +:+ ".json") = Some n →
  host_dir server (backup_dir w) !! (archive_name E +:+ ".json") = Some n ∨
  body n = Garbage ∨
  ∃ processed, body n = Json (metadata_of E server address paths processed).
Proof.
  revert n. unfold metadata_of, archive_name.
  unfold try_body, with_tempdir, leaving_tempdir, stage_and_zip.
  unfold mbind, M_bind, bind, mret, M_ret, ret, say, step, update_job, make_host_dir,
    write_file, compress, prune_host, modify.
  cbn zeta.
  destruct (fault E ssh_connect); [record_close I|].
  destruct (fault E open_sftp); [record_close I|].
  destruct (fault E mkdir_host); [record_close I|].
  destruct (fault E make_tempdir); [record_close I|].
  match goal with
  | |- context [download_paths E cb server ?t ?n 0 paths 0 0 ?s ?x] =>
      set (w0 := x);
      destruct (download_paths_spec E cb server t n paths 0 0 0 s w0)
        as (w1 & st & p1 & s1 & Hrun & Hd & _)
  end.
  rewrite Hrun. cbn beta iota.
  assert (Hh1 : host_dir server (backup_dir w1) = host_dir server (backup_dir w)).
  { rewrite Hd. subst w0. cbn [backup_dir with_jobs with_events with_root].
    apply host_dir_mkdir. }
  clear Hrun Hd. clearbody w0.
  destruct (fault E zip_open).
  { destruct (fault E tempdir_cleanup); record_close Hh1. }
  cbn beta iota.
  destruct (compress_loop _ _ _ _ _ _ _) as [written evs].
  cbn beta iota.
  destruct (fault E zip_close).
  { destruct (fault E tempdir_cleanup); record_close Hh1. }
  cbn beta iota.
  destruct (fault E tempdir_cleanup); [record_close Hh1|].
  destruct (fault E stat_archive); [record_close Hh1|].
  destruct (fault E metadata_open); [record_close Hh1|].
  destruct (fault E metadata_dump); [record_close Hh1|].
  destruct (fault E sftp_close); [record_close Hh1|].
  destruct (fault E ssh_close); [record_close Hh1|].
  cbn [fst snd backup_dir with_jobs with_events with_root].
  rewrite lookup_insert_eq.
  match goal with
  | |- context [_cleanup_old_backups ?f 7 ?d] =>
      pose proof (cleanup_submap f 7 d) as Hsub;
      destruct (_cleanup_old_backups f 7 d) as [d' lines]
  end.
  cbn [fst] in Hsub.
  intros n. cbn [backup_dir]. rewrite host_dir_insert. intros Hn.
  apply (lookup_weaken _ _ _ _ Hn) in Hsub.
  rewrite ?host_dir_insert in Hsub. rewrite lookup_insert_eq in Hsub.
  injection Hsub as <-. right. right. by eexists.
Qed.

Lemma named_run (E : env) (cb : bool) (server address : string) (paths : list string)
    (w : world) :
  named_by_pipeline (backup_dir w) →
  named_by_pipeline (backup_dir (_perform_backup E cb server address paths w)).
Proof.
  intros Hnamed s d' f n m Hd' Hg Hf Hbody.
  assert (Hroot : backup_dir (_perform_backup E cb server address paths w)
                  = backup_dir (try_body E cb server address paths w).1).
  { unfold _perform_backup.
    by destruct (try_body E cb server address paths w) as [w' [[]|msg]]. }
  rewrite Hroot in Hd'.
  destruct (try_body_frame E cb server address paths w)
    as (_ & Hother & _ & _ & Hexn & _).
  cbn zeta in Hother, Hexn.
  destruct (decide (s = server)) as [->|Hne].
  2:{ rewrite Hother in Hd' by done. by apply (Hnamed s d' f n m). }
  assert (Hh : host_dir server (backup_dir (try_body E cb server address paths w).1)
               !! f = Some n) by (by rewrite (host_dir_lookup _ _ _ Hd')).
  assert (Hzip : glob_zip (archive_name E) = true) by apply glob_zip_stamp.
  destruct (decide (f = archive_name E +:+ ".json")) as [->|Hfj].
  { apply try_body_record in Hh as [Hold|[Hgarbage|[p Hp]]].
    - apply host_dir_Some in Hold as (d & Hd & Hn). by apply (Hnamed server d _ n m).
    - congruence.
    - rewrite Hbody in Hp. injection Hp as ->. done. }
  assert (Hfa : f ≠ archive_name E).
  { intros ->. rewrite (glob_zip_not_json _ Hzip) in Hg. done. }
  assert (Hold : host_dir server (backup_dir w) !! f = Some n).
  { destruct (try_body E cb server address paths w) as [w' [[]|msg]] eqn:Hrun.
    - apply try_body_ret in Hrun
        as (w0 & w1 & st & p1 & s1 & _ & _ & _ & _ & _ & Hroot' & _).
      cbn [fst] in Hh. rewrite Hroot', host_dir_insert in Hh.
      pose proof (lookup_weaken _ _ _ _ Hh (cleanup_submap _ _ _)) as Hh'.
      unfold written_dir in Hh'. by rewrite !lookup_insert_ne in Hh' by done.
    - destruct (Hexn msg eq_refl) as [_ Hsame]. cbn [fst] in Hh, Hsame.
      by rewrite Hsame in Hh. }
  apply host_dir_Some in Hold as (d & Hd & Hn). by apply (Hnamed server d f n m).
Qed.

Lemma named_delete (refuses : string → option string) (backup_id : string)
    (root : gmap string (gmap string node)) :
  named_by_pipeline root → named_by_pipeline (delete_backup refuses backup_id root).1.
Proof.
  intros Hnamed s d' f n m Hd' Hg Hf Hbody.
  apply delete_backup_submap in Hd' as (d & Hd & Hsub).
  apply (Hnamed s d f n m); [done..| |done].
  by apply (lookup_weaken _ _ _ _ Hf).
Qed.

(** The naming of the records is kept by everything that writes to the
    backup root, runs that fail and deletions that are refused
    included. *)
Lemma named_by_pipeline_kept (w w' : world) :
  named_by_pipeline (backup_dir w) → rtc disk_step w w' →
  named_by_pipeline (backup_dir w').
Proof.
  intros Hnamed Hsteps. induction Hsteps as [w|w w1 w' Hstep _ IH]; [done|].
  apply IH. destruct Hstep as [E cb server address paths w _|refuses backup_id w].
  - by apply named_run.
  - cbn [backup_dir with_root]. by apply named_delete.
Qed.

Lemma named_by_pipeline_empty : named_by_pipeline ∅.
Proof. intros server d f n m H. by rewrite lookup_empty in H. Qed.

(** C7, as the code has it.  [delete_backup] looks the identifier up in
    the listing, which holds the metadata records whose archive is
    present.  With an identifier that no listed backup carries it answers
    "Backup not found" and leaves every file as it is.  With an identifier
    that a listed backup carries, and when no deletion is refused, it
    removes the archive and the metadata record of one listed backup with
    that identifier and answers success, the records being named as the
    pipeline names them. *)
Theorem delete_backup_by_id (refuses : string → option string) (backup_id : string)
    (root : gmap string (gmap string node)) :
  ((∀ server d f m, ¬ listed root backup_id server d f m) →
   delete_backup refuses backup_id root = (root, (false, "Backup not found"))) ∧
  (named_by_pipeline root → (∀ name, refuses name = None) →
   (∃ server d f m, listed root backup_id server d f m) →
   ∃ server d f m,
     listed root backup_id server d f m ∧
     delete_backup refuses backup_id root
     = (<[server := delete f (delete (backup_name m) d)]> root,
        (true, "Backup deleted successfully"))).
Proof.
  split.
  - intros Hnone. unfold delete_backup.
    destruct (find_matching (λ b, bool_decide (created_at (meta b) = backup_id))
                (get_backups None root)) as [[-> _]|(b & _ & Hb & Hid)]; [done|].
    apply bool_decide_eq_true in Hid.
    apply elem_of_get_backups in Hb
      as (server & d & f & n & Hd & Hg & Hf & Hbody & Hex & _).
    destruct (Hnone server d f (meta b)). split; [|done].
    split; [done|]. split; [done|]. eauto.
  - intros Hnamed Hq (server0 & d0 & f0 & m0 & Hrec0 & Hex0).
    unfold delete_backup.
    destruct (find_matching (λ b, bool_decide (created_at (meta b) = backup_id))
                (get_backups None root)) as [[_ Hnone]|(b & -> & Hb & Hid)].
    { exfalso. destruct Hrec0 as (Hd0 & Hg0 & (n0 & Hf0 & Hbody0) & Hid0).
      assert (Hb : Backup m0 (server0, backup_name m0) ∈ get_backups None root).
      { apply elem_of_get_backups. by exists server0, d0, f0, n0. }
      specialize (Hnone _ Hb). apply bool_decide_eq_false in Hnone. by apply Hnone. }
    apply bool_decide_eq_true in Hid.
    apply elem_of_get_backups in Hb
      as (server & d & f & n & Hd & Hg & Hf & Hbody & Hex & Hpath).
    destruct (Hnamed server d f n (meta b) Hd Hg Hf Hbody) as [Hzip ->].
    exists server, d, (backup_name (meta b) +:+ ".json"), (meta b). split.
    { split; [|done]. split; [done|]. split; [done|]. split; [eauto|done]. }
    rewrite Hpath. rewrite (in_dir_present _ _ _ d Hd).
    unfold mbind, M_bind, bind.
    rewrite unlink_if_exists_ok by done.
    rewrite glob_zip_with_suffix by done.
    rewrite unlink_if_exists_ok by done. done.
Qed.

Lemma named_one_backup : named_by_pipeline one_backup.
Proof.
  unfold one_backup. intros server d f n m [<- <-]%lookup_singleton_Some Hg Hf Hbody.
  unfold written_dir in Hf.
  destruct (decide (f = archive_name plain_env +:+ ".json")) as [->|Hne].
  - rewrite lookup_insert_eq in Hf. injection Hf as <-. cbn in Hbody.
    injection Hbody as <-. split; [apply glob_zip_stamp|done].
  - rewrite lookup_insert_ne in Hf by done.
    destruct (decide (f = archive_name plain_env)) as [->|Hne'].
    + rewrite lookup_insert_eq in Hf. injection Hf as <-. done.
    + rewrite lookup_insert_ne in Hf by done. by rewrite lookup_empty in Hf.
Qed.

Lemma listed_one_backup :
  listed one_backup "2024-01-01T12:00:03" "web1"
    (written_dir plain_env "web1" "10.0.0.1" ["/etc/hosts"] 1 ["hosts"] ∅)
    (archive_name plain_env +:+ ".json")
    (metadata_of plain_env "web1" "10.0.0.1" ["/etc/hosts"] 1).
Proof.
  split; [exact recorded_one_backup|]. eexists. apply written_dir_archive.
Qed.

Lemma delete_backup_by_id_witness :
  (named_by_pipeline one_backup ∧
   (∀ name : string, (λ _ : string, @None string) name = None) ∧
   ∃ server d f m, listed one_backup "2024-01-01T12:00:03" server d f m) ∧
  (delete_backup (λ _, None) "2024-01-01T12:00:03" one_backup).2
  = (true, "Backup deleted successfully").
Proof.
  assert (H1 : ∀ name : string, (λ _ : string, @None string) name = None)
    by reflexivity.
  assert (H2 : ∃ server d f m, listed one_backup "2024-01-01T12:00:03" server d f m).
  { eexists _, _, _, _. exact listed_one_backup. }
  split; [exact (conj named_one_backup (conj H1 H2))|].
  destruct (proj2 (delete_backup_by_id (λ _, None) "2024-01-01T12:00:03" one_backup)
              named_one_backup H1 H2) as (server & d & f & m & _ & Hdel).
  rewrite Hdel. reflexivity.
Defined.

(** C7, counterexample.  A metadata record with the identifier exists,
    but its archive is gone: the listing skips the record, so the answer
    is "Backup not found" and the record stays.  And on a disk that
    refuses the deletion, a backup that is listed is not deleted
    either: the answer is the error and both files stay. *)
Lemma delete_backup_misses_orphan_record :
  recorded orphan_record "2024-01-01T12:00:03" "web1"
    (delete (archive_name plain_env)
       (written_dir plain_env "web1" "10.0.0.1" ["/etc/hosts"] 1 ["hosts"] ∅))
    (archive_name plain_env +:+ ".json")
    (metadata_of plain_env "web1" "10.0.0.1" ["/etc/hosts"] 1) ∧
  delete_backup (λ _, None) "2024-01-01T12:00:03" orphan_record
  = (orphan_record, (false, "Backup not found")) ∧
  listed one_backup "2024-01-01T12:00:03" "web1"
    (written_dir plain_env "web1" "10.0.0.1" ["/etc/hosts"] 1 ["hosts"] ∅)
    (archive_name plain_env +:+ ".json")
    (metadata_of plain_env "web1" "10.0.0.1" ["/etc/hosts"] 1) ∧
  delete_backup (read_only "Permission denied") "2024-01-01T12:00:03" one_backup
  = (one_backup, (false, "Error deleting backup: Permission denied")).
Proof.
  split.
  { split; [unfold orphan_record; apply lookup_singleton_eq|]. split.
    { apply glob_zip_json, glob_zip_stamp. }
    split; [|reflexivity].
    exists (Node (mtime plain_env)
              (Json (metadata_of plain_env "web1" "10.0.0.1" ["/etc/hosts"] 1))).
    split; [|reflexivity].
    rewrite lookup_delete_ne by (by intros H; apply (archive_name_ne_json plain_env)).
    apply written_dir_metadata. }
  split; [vm_compute; reflexivity|].
  split; [exact listed_one_backup|]. vm_compute. reflexivity.
Qed.

(** ** Host names that are a single path component *)

Lemma plain_name_nonempty (s : string) : plain_name s = true → s ≠ "".
Proof. unfold plain_name. by intros (H & _)%bool_decide_eq_true. Qed.

(** A run of the pipeline concerns its own host only.  Whatever its
    outcome, the record of every other host is as it was before; and when
    the two host names are single path components, so that they name two
    different directories of the backup root, the directory of the other
    host is as it was before. *)
Theorem perform_backup_isolated (E : env) (cb : bool) (server address : string)
    (paths : list string) (w : world) (other : string) :
  other ≠ server →
  active_backups (_perform_backup E cb server address paths w) !! other
  = active_backups w !! other ∧
  (plain_name server = true → plain_name other = true →
   backup_dir (_perform_backup E cb server address paths w) !! other
   = backup_dir w !! other).
Proof.
  intros Hne.
  destruct (try_body_frame E cb server address paths w) as ([g Hg] & Hd & _).
  cbn zeta in Hg, Hd. unfold _perform_backup.
  destruct (try_body E cb server address paths w) as [w' [[]|msg]];
    cbn [fst] in Hg, Hd.
  - rewrite Hg, lookup_alter_ne by done. split; [done|]. intros _ _. by apply Hd.
  - cbn [active_backups backup_dir with_jobs with_events print].
    rewrite lookup_alter_ne, Hg, lookup_alter_ne by done.
    split; [done|]. intros _ _. by apply Hd.
Qed.

Lemma perform_backup_isolated_witness :
  ("db1" ≠ "web1" ∧ plain_name "web1" = true ∧ plain_name "db1" = true) ∧
  active_backups (_perform_backup plain_env true "web1" "10.0.0.1" ["/etc/hosts"]
                    two_hosts) !! "db1" = Some web1_done ∧
  backup_dir (_perform_backup plain_env true "web1" "10.0.0.1" ["/etc/hosts"]
                two_hosts) !! "db1" = Some old_dir.
Proof.
  assert (H : "db1" ≠ "web1") by discriminate.
  assert (P1 : plain_name "web1" = true) by (vm_compute; reflexivity).
  assert (P2 : plain_name "db1" = true) by (vm_compute; reflexivity).
  assert (J : active_backups two_hosts !! "db1" = Some web1_done)
    by (vm_compute; reflexivity).
  assert (D : backup_dir two_hosts !! "db1" = Some old_dir)
    by (apply lookup_singleton_eq).
  split; [exact (conj H (conj P1 P2))|].
  destruct (perform_backup_isolated plain_env true "web1" "10.0.0.1" ["/etc/hosts"]
              two_hosts "db1" H) as [Hj Hd].
  exact (conj (eq_trans Hj J) (eq_trans (Hd P1 P2) D)).
Defined.

Lemma old_dir_mtime (a : string) (n : node) :
  old_dir !! a = Some n → st_mtime n < 100.
Proof.
  unfold old_dir. cbn [list_to_map foldr fst snd]. intros H.
  repeat (apply lookup_insert_Some in H as [[_ <-]|[_ H]]; [cbn; lia|]).
  by rewrite lookup_empty in H.
Qed.

(** A run that ends normally for a host named by a single path component,
    and whose archive is newer than every other archive of the host
    directory, is found by the listing afterwards: its archive and its
    record survive the pruning, and [get_backups] returns the metadata the
    run wrote. *)
Theorem completed_run_is_listed (E : env) (cb : bool) (server address : string)
    (paths : list string) (w : world) :
  plain_name server = true →
  (try_body E cb server address paths w).2 = Ret tt →
  (∀ name, unlink_refuses E name = None) →
  (∀ a n, glob_zip a = true → a ≠ archive_name E →
          host_dir server (backup_dir w) !! a = Some n → st_mtime n < mtime E) →
  ∃ b processed,
    b ∈ get_backups None (backup_dir (_perform_backup E cb server address paths w)) ∧
    b ∈ get_backups (Some server)
          (backup_dir (_perform_backup E cb server address paths w)) ∧
    meta b = metadata_of E server address paths processed ∧
    file_path b = (server, archive_name E).
Proof.
  intros Hplain Hret Hr Hold. unfold _perform_backup.
  destruct (try_body E cb server address paths w) as [w' r] eqn:Hrun.
  cbn [snd] in Hret. subst r.
  apply try_body_ret in Hrun
    as (w0 & w1 & st & p1 & s1 & _ & _ & _ & _ & _ & Hd' & _).
  set (d1 := written_dir E server address paths p1 (zipped E cb st (events w1))
               (host_dir server (backup_dir w))) in *.
  set (a0 := (mtime E, archive_name E)).
  set (sorted := sort_reverse tuple_lt (backup_files d1)).
  assert (Hzip : glob_zip (archive_name E) = true) by apply glob_zip_stamp.
  assert (Hin : a0 ∈ sorted).
  { apply sorted_files_spec, elem_of_backup_files. split; [done|].
    eexists. split; [apply written_dir_archive|done]. }
  assert (Hkeep : a0 ∈ take 7 sorted).
  { pose proof Hin as Hin'.
    rewrite <- (take_drop 7 sorted) in Hin'.
    apply elem_of_app in Hin' as [?|Hdrop]; [done|]. exfalso.
    destruct (take_inhabited a0 sorted 6 Hin) as [b Hb].
    assert (Hdrop' : a0 ∈ drop 7 (sort_reverse tuple_lt (backup_files d1))) by done.
    destruct (sorted_files_split d1 7 b a0 Hb Hdrop') as [Hne Hle].
    apply elem_of_take_1, sorted_files_spec, elem_of_backup_files in Hb
      as [Hg (n & Hn & Hm)].
    unfold d1, written_dir in Hn.
    rewrite lookup_insert_ne in Hn by (by apply json_ne_glob_zip).
    rewrite lookup_insert_ne in Hn by (intros E'; by apply Hne).
    pose proof (Hold b.2 n Hg Hne Hn). unfold a0 in Hle. cbn [fst] in Hle. lia. }
  destruct (cleanup_kept (unlink_refuses E) 7 d1 a0 ltac:(lia) Hr Hkeep) as [Ha Hj].
  unfold a0 in Ha, Hj. cbn [snd] in Ha, Hj.
  pose proof (written_dir_archive E server address paths p1 (zipped E cb st (events w1))
                (host_dir server (backup_dir w))) as Wa.
  pose proof (written_dir_metadata E server address paths p1 (zipped E cb st (events w1))
                (host_dir server (backup_dir w))) as Wj.
  fold d1 in Wa, Wj. rewrite Wa in Ha. rewrite Wj in Hj.
  exists (Backup (metadata_of E server address paths p1) (server, archive_name E)), p1.
  assert (Hfound : ∃ d f n,
    backup_dir w' !! server = Some d ∧ glob_json f = true ∧ d !! f = Some n ∧
    body n = Json (metadata_of E server address paths p1) ∧
    is_Some (d !! archive_name E)).
  { exists (_cleanup_old_backups (unlink_refuses E) 7 d1).1,
      (archive_name E +:+ ".json"),
      (Node (mtime E) (Json (metadata_of E server address paths p1))).
    rewrite Hd', lookup_insert_eq.
    split; [done|]. split; [by apply glob_zip_json|]. split; [done|].
    split; [done|]. by rewrite Ha. }
  destruct Hfound as (d & f & n & H1 & H2 & H3 & H4 & H5).
  split; [|split; [|done]].
  - apply elem_of_get_backups. by exists server, d, f, n.
  - apply elem_of_get_backups_host; [by apply plain_name_nonempty|].
    by exists d, f, n.
Qed.

Lemma completed_run_is_listed_witness :
  (plain_name "web1" = true ∧
   (try_body plain_env true "web1" "10.0.0.1" ["/etc/hosts"] with_old_backups).2
   = Ret tt ∧
   (∀ name, unlink_refuses plain_env name = None) ∧
   (∀ a n, glob_zip a = true → a ≠ archive_name plain_env →
           host_dir "web1" (backup_dir with_old_backups) !! a = Some n →
           st_mtime n < mtime plain_env)) ∧
  ∃ b processed,
    b ∈ get_backups None
          (backup_dir (_perform_backup plain_env true "web1" "10.0.0.1"
                         ["/etc/hosts"] with_old_backups)) ∧
    b ∈ get_backups (Some "web1")
          (backup_dir (_perform_backup plain_env true "web1" "10.0.0.1"
                         ["/etc/hosts"] with_old_backups)) ∧
    meta b = metadata_of plain_env "web1" "10.0.0.1" ["/etc/hosts"] processed ∧
    file_path b = ("web1", archive_name plain_env).
Proof.
  assert (H0 : plain_name "web1" = true) by (vm_compute; reflexivity).
  assert (H1 : (try_body plain_env true "web1" "10.0.0.1" ["/etc/hosts"]
                  with_old_backups).2 = Ret tt) by (vm_compute; reflexivity).
  assert (H2 : ∀ name, unlink_refuses plain_env name = None)
    by (intros name; reflexivity).
  assert (H3 : ∀ a n, glob_zip a = true → a ≠ archive_name plain_env →
                 host_dir "web1" (backup_dir with_old_backups) !! a = Some n →
                 st_mtime n < mtime plain_env).
  { intros a n _ _ H.
    exact (old_dir_mtime a n
             (eq_trans (f_equal (λ d : gmap string node, d !! a)
                          (eq_sym (host_dir_lookup "web1" (backup_dir with_old_backups)
                                     old_dir (lookup_singleton_eq _ _)))) H)). }
  split; [exact (conj H0 (conj H1 (conj H2 H3)))|].
  exact (completed_run_is_listed plain_env true "web1" "10.0.0.1" ["/etc/hosts"]
           with_old_backups H0 H1 H2 H3).
Defined.

(** Listing one host, named by a single path component, gives exactly the
    entries of the full listing that lie in the directory of that
    host. *)
Theorem get_backups_of_one_host (s : string) (root : gmap string (gmap string node))
    (b : backup) :
  plain_name s = true →
  b ∈ get_backups (Some s) root ↔ b ∈ get_backups None root ∧ (file_path b).1 = s.
Proof.
  intros Hs%plain_name_nonempty.
  rewrite elem_of_get_backups_host by done. rewrite elem_of_get_backups.
  split.
  - intros (d & f & n & Hd & Hg & Hf & Hbody & Hex & Hpath).
    split; [|by rewrite Hpath]. by exists s, d, f, n.
  - intros [(server & d & f & n & Hd & Hg & Hf & Hbody & Hex & Hpath) H].
    rewrite Hpath in H. cbn in H. subst server. by exists d, f, n.
Qed.

Lemma get_backups_of_one_host_witness :
  plain_name "web1" = true ∧
  (Backup (metadata_of plain_env "web1" "10.0.0.1" ["/etc/hosts"] 1)
     ("web1", archive_name plain_env) ∈ get_backups (Some "web1") one_backup ↔
   Backup (metadata_of plain_env "web1" "10.0.0.1" ["/etc/hosts"] 1)
     ("web1", archive_name plain_env) ∈ get_backups None one_backup ∧
   (file_path (Backup (metadata_of plain_env "web1" "10.0.0.1" ["/etc/hosts"] 1)
                 ("web1", archive_name plain_env))).1 = "web1").
Proof.
  assert (H : plain_name "web1" = true) by (vm_compute; reflexivity).
  split; [exact H|].
  exact (get_backups_of_one_host "web1" one_backup
           (Backup (metadata_of plain_env "web1" "10.0.0.1" ["/etc/hosts"] 1)
              ("web1", archive_name plain_env)) H).
Defined.

(** ** The progress callback only observes *)

Lemma download_sink_free :
  (∀ r total path base processed d d',
     total ≠ 0 → staging d = staging d' →
     (_download_path_with_progress true total path r base processed d).2
     = (_download_path_with_progress false total path r base processed d').2 ∧
     staging (_download_path_with_progress true total path r base processed d).1
     = staging (_download_path_with_progress false total path r base processed d').1) ∧
  (∀ files total path local processed downloaded size d d',
     total ≠ 0 → staging d = staging d' →
     (download_children true total path files local processed downloaded size d).2
     = (download_children false total path files local processed downloaded size d').2 ∧
     staging (download_children true total path files local processed downloaded
                size d).1
     = staging (download_children false total path files local processed downloaded
                  size d').1).
Proof.
  apply remote_mutind.
  - intros msg total path base processed d d' Ht Hst. by cbn.
  - intros total path base processed d d' Ht Hst. by cbn.
  - intros size get total path base processed d d' Ht Hst.
    cbn [_download_path_with_progress]. destruct (excluded path); [by cbn|].
    rewrite (floordiv_nonzero _ _ Ht). cbn [deliver staging]. rewrite Hst.
    by destruct (sftp_get size get _ (staging d')) as [st [sz|msg]].
  - intros children IH total path base processed d d' Ht Hst.
    cbn [_download_path_with_progress]. rewrite Hst.
    destruct (mkdir_exist_ok _ (staging d')) as [st [[]|msg]]; [|by cbn].
    by apply IH.
  - intros msg total path base processed d d' Ht Hst.
    cbn [_download_path_with_progress]. rewrite Hst.
    by destruct (mkdir_exist_ok _ (staging d')) as [st [[]|msg']].
  - intros total path local processed downloaded size d d' Ht Hst. by cbn.
  - intros name r IHr rest IHrest total path local processed downloaded size d d'
      Ht Hst.
    cbn [download_children].
    destruct (IHr total (path +:+ "/" +:+ name) local (processed + downloaded) d d'
                Ht Hst) as [H2 H1].
    destruct (_download_path_with_progress true _ _ r _ _ d) as [d1 [f s]].
    destruct (_download_path_with_progress false _ _ r _ _ d') as [d1' [f' s']].
    cbn [fst snd] in H1, H2. injection H2 as -> ->.
    by apply IHrest.
Qed.

(** The progress callback only observes the downloader: when
    [total_files] is not zero, the counts returned and the staging tree
    are the same with a sink attached and without one, for every remote
    tree and every failure met on the way.  (With [total_files = 0] they
    differ: the progress computation, made only for a sink, then fails
    for every regular file.) *)
Theorem download_result_independent_of_sink (r : remote) (total : Z) (path : string)
    (base : list string) (processed : Z) (d : dstate) :
  total ≠ 0 →
  (_download_path_with_progress true total path r base processed d).2
  = (_download_path_with_progress false total path r base processed d).2 ∧
  staging (_download_path_with_progress true total path r base processed d).1
  = staging (_download_path_with_progress false total path r base processed d).1.
Proof. intros Ht. by apply (proj1 download_sink_free). Qed.

Lemma download_result_independent_of_sink_witness :
  2 ≠ 0 ∧
  (_download_path_with_progress true 2 "/srv/www" site [] 0
     (DState {[ [] := LDir ]} [])).2
  = (_download_path_with_progress false 2 "/srv/www" site [] 0
       (DState {[ [] := LDir ]} [])).2.
Proof.
  assert (H : 2 ≠ 0) by discriminate.
  split; [exact H|].
  exact (proj1 (download_result_independent_of_sink site 2 "/srv/www" [] 0
                  (DState {[ [] := LDir ]} []) H)).
Defined.

Lemma download_paths_sink_free (E : env) (server : string) (total n : Z)
    (paths : list string) :
  total ≠ 0 →
  ∀ (i p0 s0 : Z) (st : gmap (list string) lnode) (w w' : world),
    same_outcome w w' →
    (download_paths E true server total n i paths p0 s0 st w).2
    = (download_paths E false server total n i paths p0 s0 st w').2 ∧
    same_outcome (download_paths E true server total n i paths p0 s0 st w).1
      (download_paths E false server total n i paths p0 s0 st w').1.
Proof.
  intros Ht. induction paths as [|path rest IH]; intros i p0 s0 st w w' Hw; [done|].
  cbn [download_paths]. unfold mbind, M_bind, bind, say, update_job, modify, download.
  cbn [events with_events emit].
  match goal with
  | |- context [_download_path_with_progress true total path ?r [] p0 ?d] =>
      match goal with
      | |- context [_download_path_with_progress false total path r [] p0 ?d'] =>
          destruct (proj1 download_sink_free r total path [] p0 d d' Ht eq_refl)
            as [H2 H1];
          destruct (_download_path_with_progress true total path r [] p0 d)
            as [d1 [f s]];
          destruct (_download_path_with_progress false total path r [] p0 d')
            as [d1' [f' s']]
      end
  end.
  cbn [fst snd] in H1, H2. injection H2 as -> ->. cbn beta iota. rewrite H1.
  apply IH. destruct Hw as (Hj & Hd & Ho).
  split; [|split]; cbn [active_backups backup_dir stdout with_jobs with_events];
    by rewrite ?Hj.
Qed.

Ltac sink_close :=
  cbn [fst snd]; split; [done|];
  split; [|split];
  cbn [active_backups backup_dir stdout with_jobs with_events with_root];
  congruence.

Lemma try_body_sink_free (E : env) (server address : string) (paths : list string)
    (w : world) :
  count_total E paths ≠ 0 →
  (try_body E true server address paths w).2
  = (try_body E false server address paths w).2 ∧
  same_outcome (try_body E true server address paths w).1
    (try_body E false server address paths w).1.
Proof.
  intros Ht.
  unfold try_body, with_tempdir, leaving_tempdir, stage_and_zip.
  unfold mbind, M_bind, bind, mret, M_ret, ret, say, step, update_job, make_host_dir,
    write_file, compress, prune_host, modify.
  cbn zeta.
  destruct (fault E ssh_connect); [sink_close|].
  destruct (fault E open_sftp); [sink_close|].
  destruct (fault E mkdir_host); [sink_close|].
  destruct (fault E make_tempdir); [sink_close|].
  match goal with
  | |- context [download_paths E true server ?t ?n 0 paths 0 0 ?s ?x] =>
      match goal with
      | |- context [download_paths E false server t n 0 paths 0 0 s ?y] =>
          destruct (download_paths_sink_free E server t n paths Ht 0 0 0 s x y)
            as [H2 (Hj & Hd & Ho)];
            [ split; [|split]; reflexivity |];
          destruct (download_paths_spec E true server t n paths 0 0 0 s x)
            as (w1 & st & p1 & s1 & Hrun & _);
          destruct (download_paths_spec E false server t n paths 0 0 0 s y)
            as (w1' & st' & p1' & s1' & Hrun' & _)
      end
  end.
  rewrite Hrun, Hrun' in *. cbn [fst snd] in H2, Hj, Hd, Ho.
  injection H2 as -> -> ->. cbn beta iota. clear Hrun Hrun'.
  destruct (fault E zip_open).
  { destruct (fault E tempdir_cleanup); sink_close. }
  cbn beta iota.
  match goal with
  | |- context [compress_loop E true ?n ?i ?fs ?wr ?e] =>
      match goal with
      | |- context [compress_loop E false n i fs wr ?e'] =>
          pose proof (compress_loop_written E true n fs i wr e) as Hz;
          pose proof (compress_loop_written E false n fs i wr e') as Hz';
          destruct (compress_loop E true n i fs wr e) as [written evs];
          destruct (compress_loop E false n i fs wr e') as [written' evs']
      end
  end.
  cbn [fst] in Hz, Hz'. rewrite <- Hz' in Hz. subst written'. cbn beta iota.
  destruct (fault E zip_close).
  { destruct (fault E tempdir_cleanup); sink_close. }
  cbn beta iota.
  destruct (fault E tempdir_cleanup); [sink_close|].
  destruct (fault E stat_archive); [sink_close|].
  destruct (fault E metadata_open); [sink_close|].
  destruct (fault E metadata_dump); [sink_close|].
  destruct (fault E sftp_close); [sink_close|].
  destruct (fault E ssh_close); [sink_close|].
  cbn [fst snd backup_dir with_jobs with_events with_root].
  rewrite !lookup_insert_eq, ?host_dir_insert. rewrite Hd.
  destruct (_cleanup_old_backups _ _ _) as [d2 lines].
  sink_close.
Qed.

(** The progress callback only observes a run: when the analysis counted
    a number of files other than zero, a run with a sink attached and a
    run without one end the same way and leave the same job records, the
    same backup root and the same printed lines. *)
Theorem perform_backup_independent_of_sink (E : env) (server address : string)
    (paths : list string) (w : world) :
  count_total E paths ≠ 0 →
  (try_body E true server address paths w).2
  = (try_body E false server address paths w).2 ∧
  same_outcome (_perform_backup E true server address paths w)
    (_perform_backup E false server address paths w).
Proof.
  intros Ht. destruct (try_body_sink_free E server address paths w Ht)
    as [H2 (Hj & Hd & Ho)].
  split; [done|]. unfold _perform_backup.
  destruct (try_body E true server address paths w) as [w1 r1].
  destruct (try_body E false server address paths w) as [w2 r2].
  cbn [fst snd] in *. subst r2.
  destruct r1 as [[]|msg]; [done|].
  split; [|split];
    cbn [active_backups backup_dir stdout with_jobs with_events print]; congruence.
Qed.

Lemma perform_backup_independent_of_sink_witness :
  count_total plain_env ["/etc/hosts"] ≠ 0 ∧
  same_outcome (_perform_backup plain_env true "web1" "10.0.0.1" ["/etc/hosts"]
                  (started "web1"))
    (_perform_backup plain_env false "web1" "10.0.0.1" ["/etc/hosts"] (started "web1")).
Proof.
  assert (H : count_total plain_env ["/etc/hosts"] ≠ 0) by discriminate.
  split; [exact H|].
  exact (proj2 (perform_backup_independent_of_sink plain_env "web1" "10.0.0.1"
                  ["/etc/hosts"] (started "web1") H)).
Defined.
